(** * Converting a Cypress project to the version 10 layout

    A shallow embedding of
    [packages/cypress/src/generators/convert-to-cypress-10/conversion.util.ts]
    and the properties of its eligibility check, config translation, path
    migration, import rewriting, config emission and entry point.

    JavaScript strings are modelled as [string] (sequences of 8-bit
    characters instead of UTF-16 code units), JSON numbers as [Z], and
    exceptions as the [Err] results of a small state-and-error monad. *)

From Stdlib Require Import ZArith Ascii String List Bool Lia.
From stdpp Require Import gmap strings.

Local Open Scope string_scope.
Local Open Scope list_scope.
Set Warnings "-register-all".
#[local] Arguments String.append !_ _ /.

(** ** JavaScript string primitives *)

Module Js.

(** [s.startsWith(p)] *)
Definition startsWith (s p : string) : bool := String.prefix p s.

(** The text after the first [n] characters: [s.slice(n)]. *)
Fixpoint dropS (n : nat) (s : string) : string :=
  match n, s with
  | O, _ => s
  | S _, EmptyString => EmptyString
  | S n', String _ s' => dropS n' s'
  end.

(** The first occurrence of [pat] in [s], as the text before it and the text
    after it. *)
Fixpoint splitFirst (pat s : string) : option (string * string) :=
  if String.prefix pat s then Some (EmptyString, dropS (String.length pat) s)
  else match s with
       | EmptyString => None
       | String c s' =>
           match splitFirst pat s' with
           | Some (b, a) => Some (String c b, a)
           | None => None
           end
       end.

(** [s.includes(pat)] *)
Definition includes (s pat : string) : bool :=
  match splitFirst pat s with Some _ => true | None => false end.

(** [s.endsWith(e)] *)
Definition endsWith (s e : string) : bool :=
  (String.length e <=? String.length s)%nat &&
  String.eqb (dropS (String.length s - String.length e) s) e.

(** ECMAScript's GetSubstitution for a string pattern (no capture groups):
    in the replacement text [$$] stands for a dollar sign, [$&] for the matched
    text, [$`] for the text before the match and [$'] for the text after it;
    a dollar sign followed by anything else stands for itself. *)
Fixpoint getSubstitution (matched before after repl : string) : string :=
  match repl with
  | EmptyString => EmptyString
  | String c rest =>
      if Ascii.eqb c "$" then
        match rest with
        | String d rest' =>
            if Ascii.eqb d "$" then String "$" (getSubstitution matched before after rest')
            else if Ascii.eqb d "&" then matched +:+ getSubstitution matched before after rest'
            else if Ascii.eqb d "`" then before +:+ getSubstitution matched before after rest'
            else if Ascii.eqb d "'" then after +:+ getSubstitution matched before after rest'
            else String c (getSubstitution matched before after rest)
        | EmptyString => String c EmptyString
        end
      else String c (getSubstitution matched before after rest)
  end.

(** [s.replace(pat, repl)] for a string pattern: only the first occurrence is
    replaced. *)
Definition replace (s pat repl : string) : string :=
  match splitFirst pat s with
  | None => s
  | Some (b, a) => b +:+ getSubstitution pat b a repl +:+ a
  end.

(** White space removed by [trim]: space, tab, line feed, vertical tab, form
    feed and carriage return. *)
Definition isSpace (c : ascii) : bool :=
  let n := nat_of_ascii c in (n =? 32)%nat || ((9 <=? n)%nat && (n <=? 13)%nat).

Fixpoint trimStart (s : string) : string :=
  match s with
  | String c s' => if isSpace c then trimStart s' else s
  | EmptyString => EmptyString
  end.

Fixpoint revS (s : string) : string :=
  match s with
  | EmptyString => EmptyString
  | String c s' => revS s' +:+ String c EmptyString
  end.

Definition trimEnd (s : string) : string := revS (trimStart (revS s)).

(** [s.trim()] *)
Definition trim (s : string) : string := trimEnd (trimStart s).

(** [s.slice(1, -1)] *)
Definition slice_1_m1 (s : string) : string :=
  String.substring 1 (String.length s - 2) s.

End Js.

(** ** Node's [path] module (POSIX flavour) and devkit's [joinPathFragments] *)

Module Path.

Definition chars : string -> list ascii := list_ascii_of_string.
Definition str : list ascii -> string := string_of_list_ascii.

Definition isSlash (c : ascii) : bool := Ascii.eqb c "/".
Definition notSlash (c : ascii) : bool := negb (isSlash c).
Definition notDot (c : ascii) : bool := negb (Ascii.eqb c ".").

Fixpoint dropWhile (f : ascii -> bool) (l : list ascii) : list ascii :=
  match l with
  | c :: l' => if f c then dropWhile f l' else l
  | [] => []
  end.

Fixpoint takeWhile (f : ascii -> bool) (l : list ascii) : list ascii :=
  match l with
  | c :: l' => if f c then c :: takeWhile f l' else []
  | [] => []
  end.

Definition eqChars (a b : list ascii) : bool := String.eqb (str a) (str b).

(** The last component of a path, reversed: trailing slashes are skipped. *)
Definition lastComponentRev (p : list ascii) : list ascii :=
  takeWhile notSlash (dropWhile isSlash (rev p)).

Definition lastComponent (p : list ascii) : list ascii := rev (lastComponentRev p).

(** The slashes that end a path. *)
Definition trailingSlashes (p : list ascii) : list ascii := takeWhile isSlash (rev p).

(** [a] ends with [b] *)
Definition endsWithChars (a b : list ascii) : bool :=
  (length b <=? length a)%nat && eqChars (skipn (length a - length b) a) b.

(** [path.basename(path, suffix)]; [basename p ""] is [path.basename(p)].
    The suffix is removed from the last component when the component ends
    with it and is not the suffix itself.  The remaining cases follow Node's
    scanning loop on a suffix that does not fit. *)
Definition basename (path suffix : string) : string :=
  let p := chars path in
  let sfx := chars suffix in
  let comp := lastComponent p in
  if (length sfx =? 0)%nat || (length p <? length sfx)%nat then str comp
  else if String.eqb suffix path then EmptyString
  else if (length comp =? 0)%nat then path
  else if eqChars comp sfx then str comp
  else if endsWithChars comp sfx then str (firstn (length comp - length sfx) comp)
  else if endsWithChars sfx comp then str (comp ++ trailingSlashes p)
  else str comp.

(** [path.dirname(path)]: the first character is never looked at as a
    separator of the last component. *)
Definition dirname (path : string) : string :=
  match chars path with
  | [] => "."
  | c :: q =>
      match dropWhile notSlash (dropWhile isSlash (rev q)) with
      | [] => if isSlash c then "/" else "."
      | _ :: r =>
          if isSlash c && (length r =? 0)%nat then "//" else str (c :: rev r)
      end
  end.

(** [path.extname(path)]: from the last dot of the last component, unless the
    component has no dot, starts with its only dot, or is [..]. *)
Definition extname (path : string) : string :=
  let rc := lastComponentRev (chars path) in
  match dropWhile notDot rc with
  | [] => EmptyString
  | dot :: before =>
      match before with
      | [] => EmptyString
      | _ :: _ =>
          let ext := takeWhile notDot rc in
          if (length ext =? 0)%nat && eqChars before ["."%char] then EmptyString
          else str (dot :: rev ext)
      end
  end.

(** The segments of a path between its slashes. *)
Fixpoint segments (cur : list ascii) (p : list ascii) : list (list ascii) :=
  match p with
  | [] => [rev cur]
  | c :: p' => if isSlash c then rev cur :: segments [] p' else segments (c :: cur) p'
  end.

(** One segment of [normalizeString], on the stack of segments kept so far
    (the last one first). *)
Definition normalizeStep (allowAboveRoot : bool) (stack : list (list ascii))
    (seg : list ascii) : list (list ascii) :=
  if eqChars seg [] || eqChars seg ["."%char] then stack
  else if eqChars seg ["."%char; "."%char] then
    match stack with
    | top :: rest =>
        if eqChars top ["."%char; "."%char]
        then (if allowAboveRoot then seg :: stack else stack)
        else rest
    | [] => if allowAboveRoot then [seg] else []
    end
  else seg :: stack.

Fixpoint joinSegments (l : list (list ascii)) : list ascii :=
  match l with
  | [] => []
  | [s] => s
  | s :: l' => s ++ "/"%char :: joinSegments l'
  end.

Definition normalizeString (allowAboveRoot : bool) (p : list ascii) : list ascii :=
  joinSegments (rev (fold_left (normalizeStep allowAboveRoot) (segments [] p) [])).

(** [path.normalize(path)] *)
Definition normalize (path : string) : string :=
  match chars path with
  | [] => "."
  | c :: _ =>
      let p := chars path in
      let isAbsolute := isSlash c in
      let trailingSeparator := match rev p with d :: _ => isSlash d | [] => false end in
      let res := normalizeString (negb isAbsolute) p in
      match res with
      | [] => if isAbsolute then "/" else if trailingSeparator then "./" else "."
      | _ :: _ =>
          let res' := if trailingSeparator then res ++ ["/"%char] else res in
          str (if isAbsolute then "/"%char :: res' else res')
      end
  end.

Fixpoint joinNonEmpty (args : list string) : option string :=
  match args with
  | [] => None
  | a :: rest =>
      match a, joinNonEmpty rest with
      | EmptyString, r => r
      | _, None => Some a
      | _, Some r => Some (a +:+ "/" +:+ r)
      end
  end.

(** [path.join(...args)] *)
Definition join (args : list string) : string :=
  match joinNonEmpty args with
  | None => "."
  | Some joined => normalize joined
  end.

(** Modelled from the spec: devkit's [normalizePath] (not under src/), part
    of [joinPathFragments]: a leading Windows drive letter is removed and
    every backslash becomes a slash. *)
Definition removeWindowsDriveLetter (s : string) : string :=
  match s with
  | String c (String d rest) =>
      let n := nat_of_ascii c in
      if (65 <=? n)%nat && (n <=? 90)%nat && Ascii.eqb d ":" then rest else s
  | _ => s
  end.

Fixpoint backslashesToSlashes (s : string) : string :=
  match s with
  | EmptyString => EmptyString
  | String c s' =>
      String (if (nat_of_ascii c =? 92)%nat then "/"%char else c) (backslashesToSlashes s')
  end.

Definition normalizePath (osSpecificPath : string) : string :=
  backslashesToSlashes (removeWindowsDriveLetter osSpecificPath).

(** Modelled from the spec: devkit's [joinPathFragments] is not under src/;
    the spec writes its results as [<projectRoot>/cypress.json], the
    fragments joined by slashes.  As in devkit, it is
    [normalizePath(path.join(...fragments))], so [.] and [..] segments and
    doubled slashes are resolved. *)
Definition joinPathFragments (fragments : list string) : string :=
  normalizePath (join fragments).

End Path.

(** ** JSON values and JavaScript objects *)

(** A value read from a JSON file.  [undefined] is the absence of a value
    ([None] where a value is looked up).  An object keeps its properties in
    insertion order. *)
Inductive JsValue : Type :=
| JNull
| JBool (b : bool)
| JNum (n : Z)
| JStr (s : string)
| JArr (items : list JsValue)
| JObj (props : list (string * JsValue)).

Definition JsObject : Type := list (string * JsValue).

(** JavaScript's ToBoolean. *)
Definition truthy (v : JsValue) : bool :=
  match v with
  | JNull => false
  | JBool b => b
  | JNum n => negb (n =? 0)%Z
  | JStr s => negb (String.eqb s EmptyString)
  | JArr _ => true
  | JObj _ => true
  end.

(** [obj[key]] *)
Fixpoint getProp (key : string) (obj : JsObject) : option JsValue :=
  match obj with
  | [] => None
  | (k, v) :: rest => if String.eqb k key then Some v else getProp key rest
  end.

(** [obj[key] = v]: an existing property keeps its place, a new one is added
    last. *)
Fixpoint setProp (key : string) (v : JsValue) (obj : JsObject) : JsObject :=
  match obj with
  | [] => [(key, v)]
  | (k, w) :: rest =>
      if String.eqb k key then (k, v) :: rest else (k, w) :: setProp key v rest
  end.

Definition hasKey (keys : list string) (k : string) : bool :=
  existsb (String.eqb k) keys.

(** The rest element of an object destructuring pattern: [obj] without the
    properties the pattern names. *)
Definition restOf (keys : list string) (obj : JsObject) : JsObject :=
  List.filter (fun kv => negb (hasKey keys (fst kv))) obj.

(** A destructured property with its default, which applies when the
    property is [undefined]. *)
Definition withDefault (d : JsValue) (o : option JsValue) : JsValue :=
  match o with Some v => v | None => d end.

(** Decimal text of an integer, as a template literal prints a number. *)
Fixpoint digitsOf (fuel : nat) (n : N) (acc : string) : string :=
  match fuel with
  | O => acc
  | S fuel' =>
      let acc' := String (ascii_of_N (48 + N.modulo n 10)) acc in
      if (n <? 10)%N then acc' else digitsOf fuel' (N.div n 10) acc'
  end.

Definition numberToString (n : Z) : string :=
  let d := digitsOf (S (N.to_nat (N.log2 (Z.to_N (Z.abs n))))) (Z.to_N (Z.abs n)) EmptyString in
  if (n <? 0)%Z then String "-" d else d.

(** JavaScript's ToString, as a template literal applies it. *)
Fixpoint toString (v : JsValue) : string :=
  match v with
  | JNull => "null"
  | JBool true => "true"
  | JBool false => "false"
  | JNum n => numberToString n
  | JStr s => s
  | JArr items =>
      (fix joinItems (l : list JsValue) : string :=
         match l with
         | [] => EmptyString
         | [x] => match x with JNull => EmptyString | _ => toString x end
         | x :: l' =>
             (match x with JNull => EmptyString | _ => toString x end)
               +:+ "," +:+ joinItems l'
         end) items
  | JObj _ => "[object Object]"
  end.

(** ** Regular expressions of the attribute selector

    The selector [StringLiteral[value=/<old>$/]] hands the text between its
    slashes to [RegExp].  The fragment modelled here: ordinary characters,
    the wildcard [.], the assertions [^] and [$], and a backslash before a
    syntax character.  [parse] answers [None] on any other syntax
    (quantifiers, groups, classes, alternation): such an expression is left
    to the engine that the conversion is given. *)

Module RegExp.

Inductive Atom : Type :=
| Lit (c : ascii)
| AnyChar
| StartOfInput
| EndOfInput.

Definition syntaxChars : list ascii :=
  ["^"; "$"; "\"; "."; "*"; "+"; "?"; "("; ")"; "["; "]"; "{"; "}"; "|"]%char.

Definition isSyntaxChar (c : ascii) : bool := existsb (Ascii.eqb c) syntaxChars.

Definition isLineTerminator (c : ascii) : bool :=
  (nat_of_ascii c =? 10)%nat || (nat_of_ascii c =? 13)%nat.

Definition consAtom (a : Atom) (o : option (list Atom)) : option (list Atom) :=
  match o with Some l => Some (a :: l) | None => None end.

Fixpoint parse (src : string) : option (list Atom) :=
  match src with
  | EmptyString => Some []
  | String c rest =>
      if Ascii.eqb c "\" then
        match rest with
        | String d rest' =>
            if isSyntaxChar d || Ascii.eqb d "/" then consAtom (Lit d) (parse rest') else None
        | EmptyString => None
        end
      else if Ascii.eqb c "." then consAtom AnyChar (parse rest)
      else if Ascii.eqb c "^" then consAtom StartOfInput (parse rest)
      else if Ascii.eqb c "$" then consAtom EndOfInput (parse rest)
      else if isSyntaxChar c then None
      else consAtom (Lit c) (parse rest)
  end.

(** The atoms match a prefix of [s]; [atStart] tells whether [s] is the whole
    subject. *)
Fixpoint matchHere (atoms : list Atom) (atStart : bool) (s : string) : bool :=
  match atoms with
  | [] => true
  | Lit c :: atoms' =>
      match s with
      | String d s' => Ascii.eqb c d && matchHere atoms' false s'
      | EmptyString => false
      end
  | AnyChar :: atoms' =>
      match s with
      | String d s' => negb (isLineTerminator d) && matchHere atoms' false s'
      | EmptyString => false
      end
  | StartOfInput :: atoms' => atStart && matchHere atoms' atStart s
  | EndOfInput :: atoms' =>
      match s with
      | EmptyString => matchHere atoms' atStart s
      | String _ _ => false
      end
  end.

(** The atoms match somewhere in [s]. *)
Fixpoint search (atoms : list Atom) (atStart : bool) (s : string) : bool :=
  matchHere atoms atStart s ||
  match s with
  | String _ s' => search atoms false s'
  | EmptyString => false
  end.

(** [new RegExp(src).test(subject)] *)
Definition test (src subject : string) : option bool :=
  match parse src with
  | Some atoms => Some (search atoms true subject)
  | None => None
  end.

End RegExp.

(** ** The syntax tree that tsquery searches *)

(** A source file as tsquery sees it for a [StringLiteral] selector: its
    string-literal tokens, each with its delimiter and its value
    ([node.text]), and the source text between them.  Escape sequences are
    not modelled: a literal's source text is its value between its
    delimiters. *)
Inductive SourceNode : Type :=
| SourceText (s : string)
| StringLiteral (quote : ascii) (text : string).

Definition nodeSource (n : SourceNode) : string :=
  match n with
  | SourceText s => s
  | StringLiteral q t => String q (t +:+ String q EmptyString)
  end.

Fixpoint concatStrings (l : list string) : string :=
  match l with
  | [] => EmptyString
  | s :: l' => s +:+ concatStrings l'
  end.

(** Modelled from the spec: [tsquery.replace] is the capability "find string
    literals matching a suffix pattern and transform their text"; a matched
    node's source text is replaced by the replacer's result, every other
    node is printed as it was. *)
Definition tsqueryReplace (nodes : list SourceNode) (selects : string -> bool)
    (replacer : string -> string) : string :=
  concatStrings
    (map (fun n =>
            match n with
            | StringLiteral _ t => if selects t then replacer t else nodeSource n
            | SourceText _ => nodeSource n
            end) nodes).

(** ** What [util.inspect] sees of a value *)

(** [util.inspect] with its default options looks at a value down to depth 2
    and at the first 100 items of an array; a non-empty object or array
    below that depth is printed as [[Object]] or [[Array]]. *)
Inductive Inspected : Type :=
| INull
| IBool (b : bool)
| INum (n : Z)
| IStr (s : string)
| ICut (constructorName : string)
| IArr (items : list Inspected) (more : nat)
| IObj (props : list (string * Inspected)).

Definition inspectDepth : nat := 2.
Definition maxArrayLength : nat := 100.

(** What [util.inspect] looks at: Node's [formatValue(ctx, value,
    recurseTimes)] with [ctx.depth = 2] and [ctx.maxArrayLength = 100].  An
    empty object or array is printed before the depth is checked.  How the
    result is laid out as text (line breaks, quoting of keys and strings) is
    the parameter [render] of the conversion. *)
Fixpoint formatValue (recurseTimes : nat) (v : JsValue) : Inspected :=
  match v with
  | JNull => INull
  | JBool b => IBool b
  | JNum n => INum n
  | JStr s => IStr s
  | JArr items =>
      match items with
      | [] => IArr [] 0
      | _ :: _ =>
          if (inspectDepth <? recurseTimes)%nat then ICut "Array"
          else IArr (firstn maxArrayLength (map (formatValue (S recurseTimes)) items))
                    (length items - maxArrayLength)
      end
  | JObj props =>
      match props with
      | [] => IObj []
      | _ :: _ =>
          if (inspectDepth <? recurseTimes)%nat then ICut "Object"
          else IObj (map (fun kv => (fst kv, formatValue (S recurseTimes) (snd kv))) props)
      end
  end.

(** ** The virtual file tree, the logger and exceptions *)

(** What the generator does to the tree and says on the logger, in order. *)
Inductive Event : Type :=
| Renamed (from to : string)
| Written (path content : string)
| Deleted (path : string)
| Warned (message : string)
| Informed (message : string).

(** The files of the tree by path, with the events so far. *)
Record World : Type := mkWorld {
  files : gmap string string;
  trace : list Event
}.

Inductive Error : Type :=
| TypeError (what : string)
| SyntaxError (what : string)
| FileNotFound (path : string).

Inductive Result (A : Type) : Type :=
| Ok (a : A)
| Err (e : Error).
Arguments Ok {A} a.
Arguments Err {A} e.

(** A computation on the tree that may throw. *)
Definition M (A : Type) : Type := World -> Result (A * World).

Definition ret {A : Type} (a : A) : M A := fun w => Ok (a, w).

Definition bind {A B : Type} (m : M A) (k : A -> M B) : M B :=
  fun w => match m w with
           | Ok (a, w') => k a w'
           | Err e => Err e
           end.

Definition throw {A : Type} (e : Error) : M A := fun _ => Err e.

Definition getWorld : M World := fun w => Ok (w, w).

Definition emit (e : Event) : M unit :=
  fun w => Ok (tt, mkWorld (files w) (trace w ++ [e])).

Declare Scope conv_scope.
Delimit Scope conv_scope with conv.
Notation "'let*' x := m 'in' k" := (bind m (fun x => k))
  (at level 10, x name, m at level 100, k at level 200) : conv_scope.
Notation "m ;; k" := (bind m (fun _ => k))
  (at level 100, k at level 200, right associativity) : conv_scope.
Local Open Scope conv_scope.

Fixpoint forEach {A : Type} (l : list A) (f : A -> M unit) : M unit :=
  match l with
  | [] => ret tt
  | x :: l' => f x ;; forEach l' f
  end.

(** [path] lies under the directory [dir]. *)
Definition isUnder (dir path : string) : bool := String.prefix (dir +:+ "/") path.

Definition paths (w : World) : list string := map fst (map_to_list (files w)).

(** Modelled from the spec: the virtual file tree (§6 of the spec; devkit's
    [Tree] is not under src/).  [exists(path)] holds of a file and of a
    directory that has a file under it. *)
Definition treeExists (w : World) (path : string) : bool :=
  bool_decide (is_Some (files w !! path)) || existsb (isUnder path) (paths w).

(** Modelled from the spec: [read(path, encoding)]; [None] is the [null] the
    tree answers for a missing file. *)
Definition treeRead (w : World) (path : string) : option string := files w !! path.

(** Modelled from the spec: [write(path, content)]. *)
Definition treeWrite (path content : string) : M unit :=
  fun w => Ok (tt, mkWorld (<[path := content]> (files w)) (trace w ++ [Written path content])).

(** Modelled from the spec: [delete(path)] removes a file, or a directory
    with everything under it. *)
Definition treeDelete (path : string) : M unit :=
  fun w =>
    Ok (tt, mkWorld
              (filter (fun kv => ¬ (kv.1 = path ∨ isUnder path kv.1 = true)) (files w))
              (trace w ++ [Deleted path])).

(** Modelled from the spec: [rename(oldPath, newPath)] is file-level only and
    moves the content; renaming a path that does not exist throws (§7,
    FileSystemInconsistency).  A rename to the same path changes no file. *)
Definition treeRename (from to : string) : M unit :=
  fun w =>
    match files w !! from with
    | Some content =>
        Ok (tt, mkWorld (<[to := content]> (delete from (files w)))
                        (trace w ++ [Renamed from to]))
    | None => Err (FileNotFound from)
    end.

(** The first segment of [path] below [dir]. *)
Definition childName (dir path : string) : string :=
  Path.str (Path.takeWhile Path.notSlash
              (Path.chars (Js.dropS (S (String.length dir)) path))).

(** Modelled from the spec: [children(path)], the names of the entries of a
    directory. *)
Definition treeChildren (w : World) (dir : string) : list string :=
  remove_dups (map (childName dir) (List.filter (isUnder dir) (paths w))).

(** ** Projects *)

Record TargetOptions : Type := mkOptions {
  cypressConfig : option string
}.

Record TargetConfiguration : Type := mkTarget {
  executor : string;
  options : option TargetOptions
}.

Record ProjectConfiguration : Type := mkProject {
  root : string;
  sourceRoot : string;
  targets : option (gmap string TargetConfiguration)
}.

(** The property names every plain object inherits from
    [Object.prototype]. *)
Definition objectPrototypeKeys : list string :=
  ["constructor"; "__defineGetter__"; "__defineSetter__"; "hasOwnProperty";
   "__lookupGetter__"; "__lookupSetter__"; "isPrototypeOf"; "propertyIsEnumerable";
   "toString"; "valueOf"; "__proto__"; "toLocaleString"].

(** What [targets[target]] finds on the plain object [targets]: a target of
    the project or, under a name the project has no target of, a member
    inherited from [Object.prototype].  Such a member is truthy and has
    neither an [executor] nor an [options] property. *)
Inductive TargetMember : Type :=
| OwnTarget (t : TargetConfiguration)
| InheritedMember.

Definition targetMember (ts : gmap string TargetConfiguration) (target : string)
    : option TargetMember :=
  match ts !! target with
  | Some t => Some (OwnTarget t)
  | None =>
      if existsb (String.eqb target) objectPrototypeKeys
      then Some InheritedMember
      else None
  end.

Definition memberExecutor (m : TargetMember) : option string :=
  match m with
  | OwnTarget t => Some (executor t)
  | InheritedMember => None
  end.

Definition memberOptions (m : TargetMember) : option TargetOptions :=
  match m with
  | OwnTarget t => options t
  | InheritedMember => None
  end.

Record UpgradeCheck : Type := mkCheck {
  shouldUpgrade : bool;
  cypressConfigPathJson : option string;
  cypressConfigPathTs : option string
}.

Record CypressConfigs : Type := mkConfigs {
  cypressConfigTs : JsObject;
  cypressConfigJson : JsObject
}.

(** ** The conversion *)

Definition validFilesEndingsToUpdate : list string :=
  [".js"; ".jsx"; ".ts"; ".tsx"; ".mjs"; ".cjs"].

Definition legacyExecutor : string := "@nrwl/cypress:cypress".

Definition specPatternGlob : string := "src/e2e/**/*.cy.{js,jsx,ts,tsx}".

Definition upgradeWarning : string :=
  "Please upgrade to Cypress version 8 before trying to convert the project to Cypress version 10.
https://docs.cypress.io/guides/references/migration-guide#Migrating-to-Cypress-8-0".

Definition defaultSupportNote (defaultSupportFile newSupportDefaultPath : string) : string :=
  "NOTE: The default support file was found even though it's not being used. Renaming to keep in sync with Cypress v10.
" +:+ defaultSupportFile +:+ " => " +:+ newSupportDefaultPath.

(** A path fragment read from a config: [path.join] throws a TypeError on
    anything but a string. *)
Definition pathFragment (what : string) (o : option JsValue) : M string :=
  match o with
  | Some (JStr s) => ret s
  | _ => throw (TypeError what)
  end.

(** The leaf other files import the new support file by (lines 241-251):
    ["support/e2e"] for [apps/app-e2e/support/e2e.ts]. *)
Definition newImportLeaf (newSupportFile : string) : string :=
  let newRelativeImportPath := Path.basename newSupportFile (Path.extname newSupportFile) in
  let newImportParentDirectory := Path.basename (Path.dirname newSupportFile) EmptyString in
  Path.joinPathFragments [newImportParentDirectory; newRelativeImportPath].

(** The leaf other files import the old support file by (lines 253-263):
    ["support"] for [apps/app-e2e/support/index.ts]. *)
Definition oldImportLeaf (oldSupportFile : string) : string :=
  let oldRelativeImportPath := Path.basename oldSupportFile (Path.extname oldSupportFile) in
  let oldImportParentDirectory := Path.basename (Path.dirname oldSupportFile) EmptyString in
  if String.eqb oldRelativeImportPath "index"
  then oldImportParentDirectory
  else oldRelativeImportPath.

(** Where the visitor moves a file of the old integration folder
    (lines 272-277). *)
Definition migratedPath (oldIntegrationFolder newIntegrationFolder path : string) : string :=
  let fileName := Path.basename path EmptyString in
  let newPath := Js.replace path oldIntegrationFolder newIntegrationFolder in
  if Js.includes fileName ".spec." then Js.replace newPath ".spec." ".cy." else newPath.

(** The replacer of [updateImports] (lines 305-307). *)
Definition importReplacer (oldImportPath newImportPath text : string) : string :=
  "'" +:+ Js.replace text oldImportPath newImportPath +:+ "'".

(** The source of the regular expression in [endOfImportSelector]; a slash in
    the old import path ends the expression early and the selector does not
    parse. *)
Definition endOfImportPattern (oldImportPath : string) : option string :=
  if Js.includes oldImportPath "/" then None else Some (oldImportPath +:+ "$").

(** The import of the plugins file (line 327). *)
Definition pluginImportStatement (pluginsFile : JsValue) : string :=
  "import setupNodeEvents from '" +:+ toString pluginsFile +:+ "';".

(** The text [writeNewConfig] writes (lines 335-347). *)
Definition configTemplate (pluginImport convertedConfig setupNodeEvents : string) : string :=
  "
import { defineConfig } from 'cypress'
import { nxE2EPreset } from '@nrwl/cypress/plugins/cypress-preset';
" +:+ pluginImport +:+ "

export default defineConfig({
  e2e: {
    ...nxE2EPreset(__dirname),
    " +:+ convertedConfig +:+ ",
    " +:+ setupNodeEvents +:+ "
  }
})
".

(** The old config file of a target (lines 80-82): the [cypressConfig] of
    its options, or [cypress.json] in the project's root when the options or
    the option are missing or the option is empty. *)
Definition legacyConfigPath (projectConfig : ProjectConfiguration)
    (o : option TargetOptions) : string :=
  match o ≫= cypressConfig with
  | Some p =>
      if String.eqb p EmptyString
      then Path.joinPathFragments [root projectConfig; "cypress.json"]
      else p
  | None => Path.joinPathFragments [root projectConfig; "cypress.json"]
  end.

(** The new config file (lines 84-87). *)
Definition newConfigPath (projectConfig : ProjectConfiguration) : string :=
  Path.joinPathFragments [root projectConfig; "cypress.config.ts"].

(** The content [updateImports] writes back (lines 302-308) for a selector
    whose regular expression [RegExp] interprets, from the parsed file and
    the atoms of the expression. *)
Definition rewrittenContent (nodes : list SourceNode) (atoms : list RegExp.Atom)
    (oldImportPath newImportPath : string) : string :=
  tsqueryReplace nodes (fun text => RegExp.search atoms true text)
    (importReplacer oldImportPath newImportPath).

Section Conversion.

(** The major version of the installed Cypress. *)
Variable installedCypressVersion : Z.
(** The ignore rules [visitNotIgnoredFiles] respects. *)
Variable ignored : string -> bool.
(** [JSON.parse] on the text of a config file; [None] on malformed JSON. *)
Variable parseJson : string -> option JsObject.
(** The TypeScript parser, as far as tsquery's [StringLiteral] selector sees
    its result. *)
Variable parseSource : string -> list SourceNode.
(** [new RegExp(source)] for a source with syntax that [RegExp] above does
    not interpret: the [test] of the expression, or [None] when the source
    is no regular expression and the constructor throws a SyntaxError. *)
Variable compileRegExp : string -> option (string -> bool).
(** The layout [util.inspect] gives to what it sees of a value. *)
Variable render : Inspected -> string.

(** [util.inspect(obj)] with the default options. *)
Definition inspect (obj : JsObject) : string := render (formatValue 0 (JObj obj)).

(** Modelled from the spec: [visitNotIgnoredFiles(tree, dirPath, visitor)]
    calls the visitor on every file under [dirPath] that is not ignored; the
    files are those of the tree when the walk starts. *)
Definition visitNotIgnoredFiles (dirPath : string) (visitor : string -> M unit) : M unit :=
  let* w := getWorld in
  forEach (List.filter (fun p => isUnder dirPath p && negb (ignored p)) (paths w)) visitor.

(** Modelled from the spec: [readJson(tree, path)] reads and parses a JSON
    file; a missing file and malformed JSON throw. *)
Definition readJson (path : string) : M JsObject :=
  let* w := getWorld in
  match treeRead w path with
  | None => throw (FileNotFound path)
  | Some text =>
      match parseJson text with
      | Some obj => ret obj
      | None => throw (SyntaxError path)
      end
  end.

(** Lines 63-118; [projectConfig.targets?.[target]] is a property access on
    a plain object, which also finds inherited members. *)
Definition verifyProjectForUpgrade (projectConfig : ProjectConfiguration)
    (target : string) : M UpgradeCheck :=
  match targets projectConfig ≫= (fun ts => targetMember ts target) with
  | None => ret (mkCheck false None None)
  | Some m =>
      let cypressConfigPathJson := legacyConfigPath projectConfig (memberOptions m) in
      let cypressConfigPathTs := newConfigPath projectConfig in
      if (installedCypressVersion <? 8)%Z then
        emit (Warned upgradeWarning) ;;
        ret (mkCheck false (Some cypressConfigPathJson) (Some cypressConfigPathTs))
      else
        let* w := getWorld in
        let shouldUpgrade :=
          if match memberExecutor m with
             | Some e => String.eqb e legacyExecutor
             | None => false
             end
          then treeExists w cypressConfigPathJson && negb (treeExists w cypressConfigPathTs)
          else false in
        ret (mkCheck shouldUpgrade (Some cypressConfigPathJson) (Some cypressConfigPathTs))
  end.

(** The [e2e] object of the new config (lines 148-166), from the legacy
    config and the two probes of the tree. *)
Definition e2eConfig (w : World) (projectConfig : ProjectConfiguration)
    (cypressConfigJson : JsObject) : JsObject :=
  let integrationFolder :=
    withDefault (JStr "src/e2e") (getProp "integrationFolder" cypressConfigJson) in
  let supportFile :=
    withDefault (JStr "src/support/e2e.ts") (getProp "supportFile" cypressConfigJson) in
  let restOfConfig :=
    restOf ["baseUrl"; "modifyObstructiveCode"; "integrationFolder"; "supportFile"]
           cypressConfigJson in
  setProp "integrationFolder"
    (if treeExists w (Path.joinPathFragments [sourceRoot projectConfig; "integration"])
     then JStr "src/e2e"
     else integrationFolder)
    (setProp "supportFile"
       (if truthy supportFile &&
           treeExists w (Path.joinPathFragments [sourceRoot projectConfig; "support"; "index.ts"])
        then JStr "src/support/e2e.ts"
        else supportFile)
       (setProp "specPattern" (JStr specPatternGlob) restOfConfig)).

(** The new config (lines 134-166). *)
Definition newCypressConfig (w : World) (projectConfig : ProjectConfiguration)
    (cypressConfigJson : JsObject) : JsObject :=
  let baseUrl := withDefault JNull (getProp "baseUrl" cypressConfigJson) in
  let cypressConfigTs := if truthy baseUrl then [("baseUrl", baseUrl)] else [] in
  setProp "e2e" (JObj (e2eConfig w projectConfig cypressConfigJson)) cypressConfigTs.

Definition createNewCypressConfig (projectConfig : ProjectConfiguration)
    (cypressConfigPathJson : string) : M CypressConfigs :=
  let* cypressConfigJson := readJson cypressConfigPathJson in
  let* w := getWorld in
  ret (mkConfigs (newCypressConfig w projectConfig cypressConfigJson) cypressConfigJson).

(** The [test] of the regular expression in the selector: [RegExp] for the
    syntax it interprets, the engine for any other. *)
Definition selectorTest (pattern : string) : option (string -> bool) :=
  match RegExp.parse pattern with
  | Some atoms => Some (fun text => RegExp.search atoms true text)
  | None => compileRegExp pattern
  end.

Definition updateImports (filePath oldImportPath newImportPath : string) : M unit :=
  match endOfImportPattern oldImportPath with
  | None => throw (SyntaxError oldImportPath)
  | Some pattern =>
      match selectorTest pattern with
      | None => throw (SyntaxError pattern)
      | Some selects =>
          let* w := getWorld in
          match treeRead w filePath with
          | None => throw (TypeError filePath)
          | Some fileContent =>
              let newContent :=
                tsqueryReplace (parseSource fileContent) selects
                  (importReplacer oldImportPath newImportPath) in
              treeWrite filePath newContent
          end
      end
  end.

(** The visitor of lines 268-287; [leaves] holds the old and the new import
    leaf when the imports of the support file are to be updated. *)
Definition visitFile (oldIntegrationFolder newIntegrationFolder : string)
    (leaves : option (string * string)) (path : string) : M unit :=
  if negb (Js.includes path oldIntegrationFolder) then ret tt
  else
    let newPath := migratedPath oldIntegrationFolder newIntegrationFolder path in
    treeRename path newPath ;;
    match leaves with
    | Some (oldImportLeafPath, newImportLeafPath) =>
        if existsb (Js.endsWith path) validFilesEndingsToUpdate
        then updateImports newPath oldImportLeafPath newImportLeafPath
        else ret tt
    | None => ret tt
    end.

(** Lines 199-232: the support file is renamed and, when it was in use, the
    old and new support files are handed on. *)
Definition renameSupportFile (projectConfig : ProjectConfiguration)
    (cypressConfigJson : JsObject) (supportFile : option JsValue)
    : M (option (string * string)) :=
  if match getProp "supportFile" cypressConfigJson with
     | Some v => truthy v
     | None => false
     end
  then
    let* old := pathFragment "supportFile" (getProp "supportFile" cypressConfigJson) in
    let oldSupportFile := Path.joinPathFragments [root projectConfig; old] in
    let* new := pathFragment "supportFile" supportFile in
    let newSupportFile := Path.joinPathFragments [root projectConfig; new] in
    treeRename oldSupportFile newSupportFile ;;
    ret (Some (oldSupportFile, newSupportFile))
  else
    let defaultSupportFile :=
      Path.joinPathFragments [sourceRoot projectConfig; "support"; "index.ts"] in
    let* w := getWorld in
    if treeExists w defaultSupportFile then
      let newSupportDefaultPath :=
        Path.joinPathFragments [sourceRoot projectConfig; "support"; "e2e.ts"] in
      emit (Informed (defaultSupportNote defaultSupportFile newSupportDefaultPath)) ;;
      treeRename defaultSupportFile newSupportDefaultPath ;;
      ret None
    else ret None.

Definition updateProjectPaths (projectConfig : ProjectConfiguration)
    (configs : CypressConfigs) : M unit :=
  let* e2e :=
    match getProp "e2e" (cypressConfigTs configs) with
    | Some (JObj e2e) => ret e2e
    | _ => throw (TypeError "e2e")
    end in
  let integrationFolder := getProp "integrationFolder" e2e in
  let supportFile := getProp "supportFile" e2e in
  let* old := pathFragment "integrationFolder"
                (getProp "integrationFolder" (cypressConfigJson configs)) in
  let oldIntegrationFolder := Path.joinPathFragments [root projectConfig; old] in
  let* new := pathFragment "integrationFolder" integrationFolder in
  let newIntegrationFolder := Path.joinPathFragments [root projectConfig; new] in
  let* supportFiles :=
    renameSupportFile projectConfig (cypressConfigJson configs) supportFile in
  let leaves :=
    match supportFiles with
    | Some (oldSupportFile, newSupportFile) =>
        Some (oldImportLeaf oldSupportFile, newImportLeaf newSupportFile)
    | None => None
    end in
  visitNotIgnoredFiles (sourceRoot projectConfig)
    (visitFile oldIntegrationFolder newIntegrationFolder leaves) ;;
  let* w := getWorld in
  if (length (treeChildren w oldIntegrationFolder) =? 0)%nat
  then treeDelete oldIntegrationFolder
  else ret tt.

(** The import of the plugins file, the serialized [e2e] properties and the
    reference to [setupNodeEvents] that [writeNewConfig] puts into its
    template (lines 321-331 and 344). *)
Definition pluginsFileOf (e2e : JsObject) : JsValue :=
  withDefault (JBool false) (getProp "pluginsFile" e2e).

Definition serializedConfig (e2e : JsObject) : JsObject :=
  restOf ["pluginsFile"; "integrationFolder"] e2e.

Definition pluginImportOf (e2e : JsObject) : string :=
  if truthy (pluginsFileOf e2e)
  then pluginImportStatement (pluginsFileOf e2e)
  else EmptyString.

Definition convertedConfigOf (e2e : JsObject) : string :=
  Js.trim (Js.slice_1_m1 (Js.trim (inspect (serializedConfig e2e)))).

Definition setupNodeEventsOf (e2e : JsObject) : string :=
  if truthy (pluginsFileOf e2e) then "setupNodeEvents" else EmptyString.

Definition newConfigSource (e2e : JsObject) : string :=
  configTemplate (pluginImportOf e2e) (convertedConfigOf e2e) (setupNodeEventsOf e2e).

Definition writeNewConfig (cypressConfigPathTs : string) (configs : CypressConfigs) : M unit :=
  match getProp "e2e" (cypressConfigTs configs) with
  | Some (JObj e2e) => treeWrite cypressConfigPathTs (newConfigSource e2e)
  | _ => throw (TypeError "e2e")
  end.

End Conversion.

(** ** The project store and the generator's entry point *)

(** The options of a target as the workspace stores them: the
    [cypressConfig] option, which the generator reads, and the other options
    by name. *)
Record StoredOptions : Type := mkStoredOptions {
  storedCypressConfig : option string;
  otherOptions : JsObject
}.

Record StoredTarget : Type := mkStoredTarget {
  storedExecutor : string;
  storedOptions : option StoredOptions
}.

Record StoredProject : Type := mkStoredProject {
  storedRoot : string;
  storedSourceRoot : string;
  storedTargets : option (gmap string StoredTarget)
}.

(** What the functions below [updateProject] read of a stored project. *)
Definition targetConfiguration (t : StoredTarget) : TargetConfiguration :=
  mkTarget (storedExecutor t)
    (option_map (fun o => mkOptions (storedCypressConfig o)) (storedOptions t)).

Definition projectConfiguration (p : StoredProject) : ProjectConfiguration :=
  mkProject (storedRoot p) (storedSourceRoot p)
    (option_map (fmap targetConfiguration) (storedTargets p)).

(** The tree with the project store. *)
Record Workspace : Type := mkWorkspace {
  tree : World;
  projects : gmap string StoredProject
}.

Inductive Failure : Type :=
| Thrown (e : Error)
| UnknownProject (name : string).

Inductive Outcome (A : Type) : Type :=
| Completed (a : A)
| Failed (f : Failure).
Arguments Completed {A} a.
Arguments Failed {A} f.

(** Modelled from the spec: [readProjectConfiguration(name)] of the project
    store (§6 of the spec; devkit is not under src/); [None] stands for the
    exception on an unknown project. *)
Definition readProjectConfiguration (ws : Workspace) (name : string) : option StoredProject :=
  projects ws !! name.

(** Modelled from the spec: [updateProjectConfiguration(name, descriptor)]
    stores the descriptor under the project's name; the store is kept apart
    from the files of the tree. *)
Definition updateProjectConfiguration (name : string) (projectConfig : StoredProject)
    (ws : Workspace) : Workspace :=
  mkWorkspace (tree ws) (<[name := projectConfig]> (projects ws)).

(** The options of the generator ([CypressConvertOptions]): the project and
    the names of the targets to convert. *)
Record CypressConvertOptions : Type := mkConvertOptions {
  project : string;
  targetNames : list string
}.

(** The options object of lines 49-53: the target's options with
    [cypressConfig] and [testingType] set. *)
Definition convertedOptions (o : option StoredOptions) (cypressConfigPathTs : string)
    : StoredOptions :=
  mkStoredOptions (Some cypressConfigPathTs)
    (setProp "testingType" (JStr "e2e")
       (match o with
        | Some o => otherOptions o
        | None => []
        end)).

(** The project configuration after the assignment of lines 49-53. *)
Definition withConvertedOptions (projectConfig : StoredProject)
    (target cypressConfigPathTs : string) : StoredProject :=
  mkStoredProject (storedRoot projectConfig) (storedSourceRoot projectConfig)
    (option_map
       (alter (fun t => mkStoredTarget (storedExecutor t)
                          (Some (convertedOptions (storedOptions t) cypressConfigPathTs)))
              target)
       (storedTargets projectConfig)).

Section Generator.

Variable installedCypressVersion : Z.
Variable ignored : string -> bool.
Variable parseJson : string -> option JsObject.
Variable parseSource : string -> list SourceNode.
Variable compileRegExp : string -> option (string -> bool).
Variable render : Inspected -> string.

(** What the loop of [updateProject] does to the tree for a target that is
    to be upgraded (lines 38-47). *)
Definition convertFiles (projectConfig : ProjectConfiguration)
    (cypressConfigPathJson cypressConfigPathTs : string) : M unit :=
  let* cypressConfigs :=
    createNewCypressConfig parseJson projectConfig cypressConfigPathJson in
  updateProjectPaths ignored parseSource compileRegExp projectConfig cypressConfigs ;;
  writeNewConfig render cypressConfigPathTs cypressConfigs ;;
  treeDelete cypressConfigPathJson.

(** The loop of lines 30-56 over the targets; [projectConfig] is the object
    read before the loop, which the loop updates and stores after every
    conversion. *)
Fixpoint convertTargets (name : string) (projectConfig : StoredProject)
    (targetNames : list string) (ws : Workspace) : Outcome Workspace :=
  match targetNames with
  | [] => Completed ws
  | target :: rest =>
      match verifyProjectForUpgrade installedCypressVersion
              (projectConfiguration projectConfig) target (tree ws) with
      | Err e => Failed (Thrown e)
      | Ok (check, w) =>
          if negb (shouldUpgrade check)
          then convertTargets name projectConfig rest (mkWorkspace w (projects ws))
          else
            match cypressConfigPathJson check, cypressConfigPathTs check with
            | Some pathJson, Some pathTs =>
                match convertFiles (projectConfiguration projectConfig) pathJson pathTs w with
                | Err e => Failed (Thrown e)
                | Ok (_, w') =>
                    let projectConfig' := withConvertedOptions projectConfig target pathTs in
                    convertTargets name projectConfig' rest
                      (updateProjectConfiguration name projectConfig'
                         (mkWorkspace w' (projects ws)))
                end
            | _, _ => Failed (Thrown (TypeError "cypressConfigPathJson"))
            end
      end
  end.

Definition updateProject (options : CypressConvertOptions) (ws : Workspace)
    : Outcome Workspace :=
  match readProjectConfiguration ws (project options) with
  | None => Failed (UnknownProject (project options))
  | Some projectConfig =>
      convertTargets (project options) projectConfig (targetNames options) ws
  end.

End Generator.

(** ** Example capabilities *)

(** No file is ignored. *)
Definition nothingIgnored (path : string) : bool := false.

(** An engine that knows no regular expression beyond those of [RegExp]. *)
Definition noOtherSyntax (source : string) : option (string -> bool) := None.

(** A JSON parser that knows one text. *)
Definition parseOnly (text : string) (obj : JsObject) (t : string) : option JsObject :=
  if String.eqb t text then Some obj else None.

(** A scanner for sources in which quotes only delimit string literals. *)
Fixpoint scanSource (inLiteral : option ascii) (cur : string) (s : string)
    : list SourceNode :=
  match s with
  | EmptyString =>
      match inLiteral with
      | None => [SourceText (Js.revS cur)]
      | Some q => [SourceText (String q (Js.revS cur))]
      end
  | String c s' =>
      match inLiteral with
      | None =>
          if Ascii.eqb c "'" || (nat_of_ascii c =? 34)%nat
          then SourceText (Js.revS cur) :: scanSource (Some c) EmptyString s'
          else scanSource None (String c cur) s'
      | Some q =>
          if Ascii.eqb c q
          then StringLiteral q (Js.revS cur) :: scanSource None EmptyString s'
          else scanSource inLiteral (String c cur) s'
      end
  end.

Definition scanLiterals (s : string) : list SourceNode := scanSource None EmptyString s.

Definition doubleQuote : ascii := ascii_of_nat 34.

(** A layout that prints the names of an object's properties. *)
Definition renderNames (i : Inspected) : string :=
  match i with
  | IObj props => "{ " +:+ String.concat ", " (map fst props) +:+ " }"
  | _ => EmptyString
  end.

(** ** Simple file names *)

(** A character other than a slash, a backslash, a dot and a colon. *)
Definition plainChar (c : ascii) : bool :=
  negb (existsb (Ascii.eqb c) ["/"; "\"; "."; ":"]%char).

(** A name of plain characters and dots that starts with a plain character:
    [support], [e2e], [e2e.setup]. *)
Definition isName (s : string) : bool :=
  match Path.chars s with
  | [] => false
  | c :: l => plainChar c && forallb (fun d => plainChar d || Ascii.eqb d ".") l
  end.

(** A non-empty name of plain characters: [ts]. *)
Definition isPlainName (s : string) : bool :=
  match Path.chars s with
  | [] => false
  | c :: l => forallb plainChar (c :: l)
  end.

(** An import path without a character that is syntax in a regular
    expression. *)
Definition noRegExpSyntax (s : string) : bool :=
  forallb (fun c => negb (RegExp.isSyntaxChar c)) (Path.chars s).

(** ** Vocabulary of the properties *)

(** A text that is empty or ends with a slash: what may stand before the
    last component of a path. *)
Definition opensComponent (p : list ascii) : Prop :=
  match rev p with
  | [] => True
  | c :: _ => Path.isSlash c = true
  end.

(** The file name [base.ext]. *)
Definition fileName (base ext : string) : list ascii :=
  Path.chars base ++ "."%char :: Path.chars ext.

(** Every file content of [w'] is the content of a file of [w]: files were
    moved or removed, none was written. *)
Definition contentsFrom (w w' : World) : Prop :=
  forall p c, files w' !! p = Some c -> exists p0, files w !! p0 = Some c.


(** The keys of the legacy config that the translator or the emitter
    recognizes; every other key is a passthrough key. *)
Definition recognizedKeys : list string :=
  ["baseUrl"; "modifyObstructiveCode"; "integrationFolder"; "supportFile";
   "pluginsFile"; "specPattern"].

(** A replacement text without a dollar sign: [replace] inserts it as it
    is. *)
Definition noDollar (s : string) : bool :=
  forallb (fun c => negb (Ascii.eqb c "$")) (Path.chars s).

(** The text ends with the character [c]. *)
Fixpoint lastIs (c : ascii) (s : string) : bool :=
  match s with
  | EmptyString => false
  | String x EmptyString => Ascii.eqb x c
  | String _ s' => lastIs c s'
  end.

(** The text does not hold the character [c]. *)
Definition lacksChar (c : ascii) (s : string) : bool :=
  forallb (fun d => negb (Ascii.eqb d c)) (Path.chars s).

(** An event of the walk over the source root: a file that is not ignored,
    lies under the source root and holds the old integration folder in its
    path is moved to its migrated path, and a text is written there when the
    file's path has one of the endings to update. *)
Definition walkEvent (ignored : string -> bool)
    (sourceRoot oldIntegrationFolder newIntegrationFolder : string) (e : Event) : Prop :=
  exists path,
    isUnder sourceRoot path = true /\ ignored path = false /\
    Js.includes path oldIntegrationFolder = true /\
    (e = Renamed path (migratedPath oldIntegrationFolder newIntegrationFolder path) \/
     exists content,
       e = Written (migratedPath oldIntegrationFolder newIntegrationFolder path) content /\
       existsb (Js.endsWith path) validFilesEndingsToUpdate = true).

(** The events of the support file's move (lines 199-232): the move of the
    support file in use, or the note and the move of the default support
    file, or nothing. *)
Definition supportEvents (projectConfig : ProjectConfiguration)
    (cypressConfigJson e2e : JsObject) (events : list Event) : Prop :=
  (exists old new,
     getProp "supportFile" cypressConfigJson = Some (JStr old) /\
     getProp "supportFile" e2e = Some (JStr new) /\
     events = [Renamed (Path.joinPathFragments [root projectConfig; old])
                       (Path.joinPathFragments [root projectConfig; new])]) \/
  (let defaultSupportFile :=
     Path.joinPathFragments [sourceRoot projectConfig; "support"; "index.ts"] in
   let newSupportDefaultPath :=
     Path.joinPathFragments [sourceRoot projectConfig; "support"; "e2e.ts"] in
   events = [Informed (defaultSupportNote defaultSupportFile newSupportDefaultPath);
             Renamed defaultSupportFile newSupportDefaultPath]) \/
  events = [].

(** From [w] to [w'] the events grew by [events] and the file at [path] kept
    its content, unless a file was moved onto it. *)
Definition keepsFile (path : string) (w w' : World) (events : list Event) : Prop :=
  trace w' = trace w ++ events /\
  (files w' !! path = files w !! path \/ exists from, In (Renamed from path) events).

(** ** An example project *)

Definition exampleJsonText : string :=
  "{ integrationFolder: ./src/integration, supportFile: ./src/support/index.ts }".

Definition exampleLegacyConfig : JsObject :=
  [("baseUrl", JStr "http://localhost:4200");
   ("integrationFolder", JStr "./src/integration");
   ("supportFile", JStr "./src/support/index.ts");
   ("video", JBool true)].


Definition exampleSpecSource : string :=
  "import " +:+ String doubleQuote ("../support" +:+ String doubleQuote ";").

Definition exampleWorld : World :=
  mkWorld
    (list_to_map
       [("apps/app-e2e/cypress.json", exampleJsonText);
        ("apps/app-e2e/src/integration/app.spec.ts", exampleSpecSource);
        ("apps/app-e2e/src/support/index.ts", "import './commands';");
        ("apps/app-e2e/src/support/commands.ts", "// commands")])
    [].

Definition exampleProject : ProjectConfiguration :=
  mkProject "apps/app-e2e" "apps/app-e2e/src"
    (Some (list_to_map
             [("e2e", mkTarget "@nrwl/cypress:cypress"
                        (Some (mkOptions (Some "apps/app-e2e/cypress.json"))))])).

(** The example project as the workspace stores it, with a second target
    that runs the same executor. *)
Definition exampleStoredProject : StoredProject :=
  mkStoredProject "apps/app-e2e" "apps/app-e2e/src"
    (Some (list_to_map
             [("e2e", mkStoredTarget "@nrwl/cypress:cypress"
                        (Some (mkStoredOptions (Some "apps/app-e2e/cypress.json")
                                 [("watch", JBool false)])));
              ("e2e-ci", mkStoredTarget "@nrwl/cypress:cypress" None)])).

Definition exampleWorkspace : Workspace :=
  mkWorkspace exampleWorld {[ "app-e2e" := exampleStoredProject ]}.

(** The old and the new config of the example project. *)
Definition exampleConfigs : CypressConfigs :=
  mkConfigs (newCypressConfig exampleWorld exampleProject exampleLegacyConfig)
    exampleLegacyConfig.

(** A legacy config that names no integration folder. *)
Definition exampleBareConfig : JsObject :=
  [("supportFile", JBool false); ("video", JBool true)].

(** An [e2e] object with a plugins file. *)
Definition examplePluginsConfig : JsObject :=
  [("pluginsFile", JStr "./src/plugins/index");
   ("integrationFolder", JStr "src/e2e");
   ("video", JBool true)].

(** * Properties *)

(** ** Objects *)

Lemma getProp_setProp_eq (k : string) (v : JsValue) (o : JsObject) :
  getProp k (setProp k v o) = Some v.
Proof.
  induction o as [|[k' w] o IH]; simpl.
  - now rewrite String.eqb_refl.
  - destruct (String.eqb k' k) eqn:E; simpl; rewrite E; auto.
Qed.

Lemma getProp_setProp_ne (k k' : string) (v : JsValue) (o : JsObject) :
  k <> k' -> getProp k' (setProp k v o) = getProp k' o.
Proof.
  intros Hne. induction o as [|[k0 w] o IH]; simpl.
  - destruct (String.eqb k k') eqn:E; auto.
    apply String.eqb_eq in E. contradiction.
  - destruct (String.eqb k0 k) eqn:E; simpl.
    + apply String.eqb_eq in E. subst k0.
      destruct (String.eqb k k') eqn:E'; auto.
      apply String.eqb_eq in E'. contradiction.
    + destruct (String.eqb k0 k'); auto.
Qed.

Lemma getProp_restOf_dropped (keys : list string) (k : string) (o : JsObject) :
  hasKey keys k = true -> getProp k (restOf keys o) = None.
Proof.
  intros Hk. unfold restOf. induction o as [|[k0 w] o IH]; simpl; auto.
  destruct (hasKey keys k0) eqn:E; simpl; auto.
  destruct (String.eqb k0 k) eqn:E'; auto.
  apply String.eqb_eq in E'. congruence.
Qed.

Lemma getProp_restOf_kept (keys : list string) (k : string) (o : JsObject) :
  hasKey keys k = false -> getProp k (restOf keys o) = getProp k o.
Proof.
  intros Hk. unfold restOf. induction o as [|[k0 w] o IH]; simpl; auto.
  destruct (hasKey keys k0) eqn:E; simpl.
  - destruct (String.eqb k0 k) eqn:E'; auto.
    apply String.eqb_eq in E'. congruence.
  - destruct (String.eqb k0 k); auto.
Qed.

(** ** Eligibility *)

(** C3, the check at a name that is no target of the project but a property
    every object inherits: the test of line 72 finds
    [Object.prototype.toString], the early return is skipped and both config
    paths come back defined. *)
Theorem verifyProjectForUpgrade_inherited_target :
  targets exampleProject ≫= (fun ts => ts !! "toString") = None /\
  verifyProjectForUpgrade 10 exampleProject "toString" exampleWorld =
    Ok (mkCheck false (Some "apps/app-e2e/cypress.json")
                      (Some "apps/app-e2e/cypress.config.ts"),
        exampleWorld).
Proof. vm_compute. split; reflexivity. Qed.

(** X18: the check always answers and leaves the files of the tree as they
    were.  It reports eligible exactly when the project has a target of the
    given name, the installed major version is at least 8, the target's
    executor is the legacy one, the old config file exists and the new
    config file does not.  The new config path is [cypress.config.ts] in the
    project's root; the old config path is the target's [cypressConfig]
    option, or [cypress.json] in the project's root when the target has no
    options, no such option or an empty one.  Under a name that is no target
    of the project both paths are undefined, unless the name is a property
    every object inherits: then they are the two paths in the root. *)
Theorem verifyProjectForUpgrade_eligible_iff
    (version : Z) (projectConfig : ProjectConfiguration) (target : string) (w : World) :
  let defaultPathJson := Path.joinPathFragments [root projectConfig; "cypress.json"] in
  let pathTs := Path.joinPathFragments [root projectConfig; "cypress.config.ts"] in
  exists check w',
    verifyProjectForUpgrade version projectConfig target w = Ok (check, w') /\
    files w' = files w /\
    (shouldUpgrade check = true <->
     exists t pathJson,
       targets projectConfig ≫= (fun ts => ts !! target) = Some t /\
       cypressConfigPathJson check = Some pathJson /\
       (8 <= version)%Z /\
       executor t = legacyExecutor /\
       treeExists w pathJson = true /\
       treeExists w pathTs = false) /\
    match targets projectConfig with
    | None => cypressConfigPathJson check = None /\ cypressConfigPathTs check = None
    | Some ts =>
        match ts !! target with
        | Some t =>
            cypressConfigPathJson check =
              Some (match options t ≫= cypressConfig with
                    | Some p => if String.eqb p EmptyString then defaultPathJson else p
                    | None => defaultPathJson
                    end) /\
            cypressConfigPathTs check = Some pathTs
        | None =>
            if existsb (String.eqb target) objectPrototypeKeys
            then cypressConfigPathJson check = Some defaultPathJson /\
                 cypressConfigPathTs check = Some pathTs
            else cypressConfigPathJson check = None /\ cypressConfigPathTs check = None
        end
    end.
Proof.
  intros defaultPathJson pathTs. unfold verifyProjectForUpgrade.
  destruct (targets projectConfig) as [ts|]; cbn [mbind option_bind].
  2:{ eexists _, _. split; [reflexivity|]. cbn. repeat split; auto.
      - discriminate.
      - intros (t & p & Heq & _). discriminate. }
  unfold targetMember. destruct (ts !! target) as [t|] eqn:Ht.
  - cbn [memberOptions memberExecutor]. destruct (version <? 8)%Z eqn:Hv.
    + eexists _, _. split; [reflexivity|]. cbn. repeat split; auto.
      * discriminate.
      * intros (t' & p & _ & _ & Hge & _). apply Z.ltb_lt in Hv. lia.
    + eexists _, _. split; [reflexivity|]. cbn. repeat split; auto.
      * intros Hs. exists t, (legacyConfigPath projectConfig (options t)).
        apply Z.ltb_ge in Hv.
        destruct (String.eqb (executor t) legacyExecutor) eqn:He; [|discriminate].
        apply String.eqb_eq in He. apply andb_true_iff in Hs as [H1 H2].
        apply negb_true_iff in H2. repeat split; auto.
      * intros (t' & p & [= <-] & [= <-] & _ & He & H1 & H2).
        apply String.eqb_eq in He. rewrite He, H1. unfold newConfigPath.
        fold pathTs. now rewrite H2.
  - destruct (existsb (String.eqb target) objectPrototypeKeys).
    + cbn [memberOptions memberExecutor]. destruct (version <? 8)%Z.
      * eexists _, _. split; [reflexivity|]. cbn. repeat split; auto.
        -- discriminate.
        -- intros (t' & p & Heq & _). discriminate.
      * eexists _, _. split; [reflexivity|]. cbn. repeat split; auto.
        -- discriminate.
        -- intros (t' & p & Heq & _). discriminate.
    + eexists _, _. split; [reflexivity|]. cbn. repeat split; auto.
      * discriminate.
      * intros (t' & p & Heq & _). discriminate.
Qed.

(** ** Strings *)

Lemma append_assoc (a b c : string) : (a +:+ b) +:+ c = a +:+ b +:+ c.
Proof. induction a as [|x a IH]; simpl; [reflexivity | now rewrite IH]. Qed.

Lemma append_empty_r (a : string) : a +:+ EmptyString = a.
Proof. induction a as [|x a IH]; simpl; [reflexivity | now rewrite IH]. Qed.

Lemma length_append (a b : string) :
  String.length (a +:+ b) = (String.length a + String.length b)%nat.
Proof. induction a as [|x a IH]; simpl; [reflexivity | now rewrite IH]. Qed.

Lemma prefix_empty (s : string) : String.prefix EmptyString s = true.
Proof. now destruct s. Qed.

Lemma prefix_append (p c : string) : String.prefix p (p +:+ c) = true.
Proof.
  induction p as [|x p IH]; simpl; [apply prefix_empty|].
  destruct (ascii_dec x x); [exact IH | contradiction].
Qed.

Lemma dropS_append (p c : string) : Js.dropS (String.length p) (p +:+ c) = c.
Proof. induction p as [|x p IH]; simpl; auto. Qed.

Lemma splitFirst_eq (pat s : string) :
  Js.splitFirst pat s =
    if String.prefix pat s then Some (EmptyString, Js.dropS (String.length pat) s)
    else match s with
         | EmptyString => None
         | String c s' =>
             match Js.splitFirst pat s' with
             | Some (b, a) => Some (String c b, a)
             | None => None
             end
         end.
Proof. now destruct s. Qed.

Lemma includes_append (a pat c : string) : Js.includes (a +:+ pat +:+ c) pat = true.
Proof.
  unfold Js.includes. induction a as [|x a IH]; simpl String.append.
  - now rewrite splitFirst_eq, prefix_append.
  - rewrite splitFirst_eq.
    destruct (String.prefix pat (String x (a +:+ pat +:+ c))); [reflexivity|].
    destruct (Js.splitFirst pat (a +:+ pat +:+ c)) as [[b r]|]; [reflexivity | discriminate].
Qed.

Lemma includes_replace_id (s pat repl : string) :
  Js.includes s pat = false -> Js.replace s pat repl = s.
Proof.
  unfold Js.includes, Js.replace.
  destruct (Js.splitFirst pat s) as [[b a]|]; [discriminate | reflexivity].
Qed.

(** ** Translation of the config *)

Section Translation.

Variable parseJson : string -> option JsObject.
Variable projectConfig : ProjectConfiguration.

Lemma createNewCypressConfig_runs (path text : string) (cfg : JsObject) (w : World) :
  treeRead w path = Some text ->
  parseJson text = Some cfg ->
  createNewCypressConfig parseJson projectConfig path w =
    Ok (mkConfigs (newCypressConfig w projectConfig cfg) cfg, w).
Proof.
  intros Hread Hparse.
  unfold createNewCypressConfig, readJson, bind, getWorld, ret, throw.
  now rewrite Hread, Hparse.
Qed.

Lemma newCypressConfig_e2e (w : World) (cfg : JsObject) :
  getProp "e2e" (newCypressConfig w projectConfig cfg) =
    Some (JObj (e2eConfig w projectConfig cfg)).
Proof. unfold newCypressConfig. apply getProp_setProp_eq. Qed.

(** C2: the translated config's [e2e.supportFile] is ['src/support/e2e.ts']
    when the original support file is truthy and [<sourceRoot>/support/index.ts]
    exists, and the original value otherwise, [false] included;
    [e2e.integrationFolder] is ['src/e2e'] when [<sourceRoot>/integration]
    exists and the original value otherwise.  The original value of a field
    is the legacy config's; where the legacy config does not have the field
    it is the default the translator destructures it with. *)
Theorem createNewCypressConfig_support_and_integration
    (path text : string) (cfg : JsObject) (w : World)
    (Hread : treeRead w path = Some text)
    (Hparse : parseJson text = Some cfg) :
  let defaultSupportExists :=
    treeExists w (Path.joinPathFragments [sourceRoot projectConfig; "support"; "index.ts"]) in
  let integrationExists :=
    treeExists w (Path.joinPathFragments [sourceRoot projectConfig; "integration"]) in
  exists configs e2e,
    createNewCypressConfig parseJson projectConfig path w = Ok (configs, w) /\
    cypressConfigJson configs = cfg /\
    getProp "e2e" (cypressConfigTs configs) = Some (JObj e2e) /\
    (forall supportFile,
       withDefault (JStr "src/support/e2e.ts") (getProp "supportFile" cfg) = supportFile ->
       getProp "supportFile" e2e =
         Some (if truthy supportFile && defaultSupportExists
               then JStr "src/support/e2e.ts" else supportFile)) /\
    (forall supportFile,
       getProp "supportFile" cfg = Some supportFile ->
       getProp "supportFile" e2e =
         Some (if truthy supportFile && defaultSupportExists
               then JStr "src/support/e2e.ts" else supportFile)) /\
    (getProp "supportFile" cfg = Some (JBool false) ->
     getProp "supportFile" e2e = Some (JBool false)) /\
    (forall integrationFolder,
       withDefault (JStr "src/e2e") (getProp "integrationFolder" cfg) = integrationFolder ->
       getProp "integrationFolder" e2e =
         Some (if integrationExists then JStr "src/e2e" else integrationFolder)) /\
    (forall integrationFolder,
       getProp "integrationFolder" cfg = Some integrationFolder ->
       getProp "integrationFolder" e2e =
         Some (if integrationExists then JStr "src/e2e" else integrationFolder)).
Proof.
  intros defaultSupportExists integrationExists.
  exists (mkConfigs (newCypressConfig w projectConfig cfg) cfg), (e2eConfig w projectConfig cfg).
  split; [now apply createNewCypressConfig_runs with (text := text)|].
  split; [reflexivity|].
  split; [apply newCypressConfig_e2e|].
  assert (Hs : forall supportFile,
             withDefault (JStr "src/support/e2e.ts") (getProp "supportFile" cfg) = supportFile ->
             getProp "supportFile" (e2eConfig w projectConfig cfg) =
               Some (if truthy supportFile && defaultSupportExists
                     then JStr "src/support/e2e.ts" else supportFile)).
  { intros supportFile <-. unfold e2eConfig. rewrite getProp_setProp_ne by discriminate.
    now rewrite getProp_setProp_eq. }
  assert (Hi : forall integrationFolder,
             withDefault (JStr "src/e2e") (getProp "integrationFolder" cfg) = integrationFolder ->
             getProp "integrationFolder" (e2eConfig w projectConfig cfg) =
               Some (if integrationExists then JStr "src/e2e" else integrationFolder)).
  { intros integrationFolder <-. unfold e2eConfig. now rewrite getProp_setProp_eq. }
  split; [exact Hs|]. split; [|split; [|split]].
  - intros supportFile Hv. apply Hs. now rewrite Hv.
  - intros Hfalse. rewrite (Hs (JBool false)); [reflexivity | now rewrite Hfalse].
  - exact Hi.
  - intros integrationFolder Hv. apply Hi. now rewrite Hv.
Qed.

(** C8: the translated config's [e2e.specPattern] is the fixed glob, also
    when the legacy config has a [specPattern] of its own, and the new config
    has a top-level [baseUrl] exactly when the legacy [baseUrl] is truthy. *)
Theorem createNewCypressConfig_specPattern_and_baseUrl
    (path text : string) (cfg : JsObject) (w : World)
    (Hread : treeRead w path = Some text)
    (Hparse : parseJson text = Some cfg) :
  exists configs e2e,
    createNewCypressConfig parseJson projectConfig path w = Ok (configs, w) /\
    cypressConfigJson configs = cfg /\
    getProp "e2e" (cypressConfigTs configs) = Some (JObj e2e) /\
    getProp "specPattern" e2e = Some (JStr "src/e2e/**/*.cy.{js,jsx,ts,tsx}") /\
    (is_Some (getProp "baseUrl" (cypressConfigTs configs)) <->
     exists v, getProp "baseUrl" cfg = Some v /\ truthy v = true) /\
    (forall v, getProp "baseUrl" (cypressConfigTs configs) = Some v ->
               getProp "baseUrl" cfg = Some v).
Proof.
  exists (mkConfigs (newCypressConfig w projectConfig cfg) cfg), (e2eConfig w projectConfig cfg).
  split; [now apply createNewCypressConfig_runs with (text := text)|].
  split; [reflexivity|].
  split; [apply newCypressConfig_e2e|].
  split.
  { unfold e2eConfig. do 2 (rewrite getProp_setProp_ne by discriminate).
    now rewrite getProp_setProp_eq. }
  simpl. unfold newCypressConfig.
  rewrite getProp_setProp_ne by discriminate.
  destruct (getProp "baseUrl" cfg) as [v|] eqn:Hb; simpl.
  - destruct (truthy v) eqn:Ht; simpl; split.
    + split; [intros _; now exists v | intros _; now exists v].
    + intros v' Hv'. congruence.
    + split; [intros [x Hx]; discriminate | intros (v' & Hv' & Ht'); congruence].
    + discriminate.
  - split.
    + split; [intros [x Hx]; discriminate | intros (v' & Hv' & _); discriminate].
    + discriminate.
Qed.

End Translation.

(** ** Emission of the config *)

Lemma includes_suffix (x pat : string) : Js.includes (x +:+ pat) pat = true.
Proof.
  rewrite <- (append_empty_r pat) at 1. apply includes_append.
Qed.

Section Emission.

Variable render : Inspected -> string.

(** C9: the object that is serialized into the emitted text is the [e2e]
    object without its [pluginsFile] and [integrationFolder] properties.
    When the [pluginsFile] of the [e2e] object is truthy, the text holds the
    import of that file and ends the emitted object with a reference to
    [setupNodeEvents]; when it is falsy or missing, the places of both in the
    text are empty. *)
Theorem writeNewConfig_plugins_wiring
    (path : string) (ts json e2e : JsObject) (w : World) :
  let configs := mkConfigs (setProp "e2e" (JObj e2e) ts) json in
  let serialized := restOf ["pluginsFile"; "integrationFolder"] e2e in
  let converted :=
    Js.trim (Js.slice_1_m1 (Js.trim (render (formatValue 0 (JObj serialized))))) in
  let emitted (pluginImport setupNodeEvents : string) : string :=
    "
import { defineConfig } from 'cypress'
import { nxE2EPreset } from '@nrwl/cypress/plugins/cypress-preset';
" +:+ pluginImport +:+ "

export default defineConfig({
  e2e: {
    ...nxE2EPreset(__dirname),
    " +:+ converted +:+ ",
    " +:+ setupNodeEvents +:+ "
  }
})
" in
  exists text,
    writeNewConfig render path configs w =
      Ok (tt, mkWorld (<[path := text]> (files w)) (trace w ++ [Written path text])) /\
    getProp "pluginsFile" serialized = None /\
    getProp "integrationFolder" serialized = None /\
    (forall key, key <> "pluginsFile" -> key <> "integrationFolder" ->
       getProp key serialized = getProp key e2e) /\
    match getProp "pluginsFile" e2e with
    | Some pluginsFile =>
        if truthy pluginsFile
        then
          text = emitted ("import setupNodeEvents from '" +:+ toString pluginsFile +:+ "';")
                   "setupNodeEvents" /\
          Js.includes text
            ("import setupNodeEvents from '" +:+ toString pluginsFile +:+ "';") = true /\
          Js.includes text ",
    setupNodeEvents
  }
})
" = true
        else text = emitted EmptyString EmptyString
    | None => text = emitted EmptyString EmptyString
    end.
Proof.
  intros configs serialized converted emitted.
  exists (newConfigSource render e2e). split; [|split; [|split; [|split]]].
  - unfold writeNewConfig, configs. simpl. now rewrite getProp_setProp_eq.
  - now apply getProp_restOf_dropped.
  - now apply getProp_restOf_dropped.
  - intros key Hp Hi. apply getProp_restOf_kept. unfold hasKey. cbn [existsb].
    apply String.eqb_neq in Hp, Hi. now rewrite Hp, Hi.
  - unfold newConfigSource, pluginImportOf, setupNodeEventsOf, pluginsFileOf.
    change (convertedConfigOf render e2e) with converted.
    destruct (getProp "pluginsFile" e2e) as [pluginsFile|]; cbn [withDefault truthy];
      [|reflexivity].
    destruct (truthy pluginsFile); [|reflexivity].
    split; [reflexivity|]. split.
    + unfold configTemplate, pluginImportStatement. apply includes_append.
    + unfold configTemplate.
      rewrite <- (append_assoc _ (pluginImportStatement _)).
      rewrite <- (append_assoc _ _ (converted +:+ _)).
      rewrite <- (append_assoc _ converted).
      apply includes_suffix.
Qed.

End Emission.

(** ** Paths *)

Module PathFacts.
Import Path.

Lemma chars_append (a b : string) : chars (a +:+ b) = chars a ++ chars b.
Proof. induction a as [|x a IH]; simpl; [reflexivity | now rewrite IH]. Qed.

Lemma str_app (a b : list ascii) : str (a ++ b) = str a +:+ str b.
Proof. induction a as [|x a IH]; simpl; [reflexivity | now rewrite IH]. Qed.

Lemma str_chars (s : string) : str (chars s) = s.
Proof. apply string_of_list_ascii_of_string. Qed.

Lemma chars_str (l : list ascii) : chars (str l) = l.
Proof. apply list_ascii_of_string_of_list_ascii. Qed.

Lemma length_chars (s : string) : length (chars s) = String.length s.
Proof. induction s as [|x s IH]; simpl; [reflexivity | now rewrite IH]. Qed.

Lemma eqChars_refl (a : list ascii) : eqChars a a = true.
Proof. unfold eqChars. apply String.eqb_refl. Qed.

Lemma eqChars_length (a b : list ascii) : length a <> length b -> eqChars a b = false.
Proof.
  intros Hne. unfold eqChars. apply String.eqb_neq. intros Heq.
  apply Hne. rewrite <- (chars_str a), <- (chars_str b). now rewrite Heq.
Qed.

Lemma eqb_length (a b : string) :
  String.length a <> String.length b -> String.eqb a b = false.
Proof. intros Hne. apply String.eqb_neq. intros ->. contradiction. Qed.

Lemma takeWhile_app_all (f : ascii -> bool) (l m : list ascii) :
  forallb f l = true -> takeWhile f (l ++ m) = l ++ takeWhile f m.
Proof.
  induction l as [|c l IH]; simpl; [reflexivity|].
  intros [Hc Hl]%andb_true_iff. rewrite Hc. now rewrite IH.
Qed.

Lemma dropWhile_app_all (f : ascii -> bool) (l m : list ascii) :
  forallb f l = true -> dropWhile f (l ++ m) = dropWhile f m.
Proof.
  induction l as [|c l IH]; simpl; [reflexivity|].
  intros [Hc Hl]%andb_true_iff. rewrite Hc. now apply IH.
Qed.

Lemma forallb_rev (f : ascii -> bool) (l : list ascii) :
  forallb f (rev l) = forallb f l.
Proof.
  induction l as [|c l IH]; simpl; [reflexivity|].
  rewrite forallb_app, IH. simpl. rewrite andb_true_r. apply andb_comm.
Qed.

Lemma forallb_impl (f g : ascii -> bool) (l : list ascii) :
  (forall c, f c = true -> g c = true) -> forallb f l = true -> forallb g l = true.
Proof.
  intros Hfg. induction l as [|c l IH]; simpl; [reflexivity|].
  intros [Hc Hl]%andb_true_iff. rewrite (Hfg _ Hc). now apply IH.
Qed.

Lemma takeWhile_notSlash_opens (p : list ascii) :
  opensComponent p -> takeWhile notSlash (rev p) = [].
Proof.
  unfold opensComponent. destruct (rev p) as [|c r]; [reflexivity|].
  intros Hc. simpl. unfold notSlash. now rewrite Hc.
Qed.

(** The last component of [p ++ x] is [x] when [x] is a component and [p]
    is empty or ends with a slash. *)
Lemma lastComponentRev_app (p x : list ascii) :
  x <> [] -> forallb notSlash x = true -> opensComponent p ->
  lastComponentRev (p ++ x) = rev x.
Proof.
  intros Hx Hall Hp. unfold lastComponentRev. rewrite rev_app_distr.
  assert (Hrev : forallb notSlash (rev x) = true) by now rewrite forallb_rev.
  destruct (rev x) as [|c t] eqn:E.
  { apply (f_equal (@rev ascii)) in E. rewrite rev_involutive in E. now subst. }
  simpl app. simpl dropWhile.
  simpl in Hrev. apply andb_true_iff in Hrev as [Hc Ht].
  assert (Hs : isSlash c = false) by (unfold notSlash in Hc; now apply negb_true_iff).
  rewrite Hs. simpl. rewrite Hc.
  rewrite takeWhile_app_all by exact Ht.
  rewrite takeWhile_notSlash_opens by exact Hp. now rewrite app_nil_r.
Qed.

Lemma plainChar_spec (c : ascii) :
  plainChar c = true ->
  isSlash c = false /\ notSlash c = true /\ notDot c = true /\
  (nat_of_ascii c =? 92)%nat = false /\ Ascii.eqb c ":" = false.
Proof.
  unfold plainChar, notSlash, notDot. unfold isSlash. simpl.
  rewrite negb_true_iff, !orb_false_iff.
  intros (H1 & H2 & H3 & H4 & _). rewrite H1, H3. repeat split; auto.
  destruct (nat_of_ascii c =? 92)%nat eqn:E; [|reflexivity].
  apply Nat.eqb_eq in E. apply (f_equal ascii_of_nat) in E.
  rewrite ascii_nat_embedding in E. subst c. discriminate.
Qed.

Lemma nameChar_notSlash (d : ascii) :
  plainChar d || Ascii.eqb d "." = true -> notSlash d = true.
Proof.
  intros [H|H]%orb_true_iff.
  - now apply plainChar_spec in H.
  - apply Ascii.eqb_eq in H. now subst.
Qed.

Lemma nameChar_notBackslash (d : ascii) :
  plainChar d || Ascii.eqb d "." = true -> (nat_of_ascii d =? 92)%nat = false.
Proof.
  intros [H|H]%orb_true_iff.
  - now apply plainChar_spec in H.
  - apply Ascii.eqb_eq in H. now subst.
Qed.

(** What a name is made of. *)
Lemma isName_chars (s : string) :
  isName s = true ->
  exists c l, chars s = c :: l /\ plainChar c = true /\
              forallb notSlash (c :: l) = true /\
              forallb (fun d => negb (nat_of_ascii d =? 92)%nat) (c :: l) = true.
Proof.
  unfold isName. destruct (chars s) as [|c l]; [discriminate|].
  intros [Hc Hl]%andb_true_iff. exists c, l. repeat split; auto.
  - simpl. apply plainChar_spec in Hc as (_ & -> & _). simpl.
    eapply forallb_impl; [|exact Hl]. apply nameChar_notSlash.
  - simpl. apply plainChar_spec in Hc as (_ & _ & _ & -> & _). simpl.
    eapply forallb_impl; [|exact Hl].
    intros d Hd. now rewrite (nameChar_notBackslash d Hd).
Qed.

Lemma isPlainName_chars (s : string) :
  isPlainName s = true ->
  exists c l, chars s = c :: l /\ forallb plainChar (c :: l) = true.
Proof.
  unfold isPlainName. destruct (chars s) as [|c l]; [discriminate|].
  intros H. now exists c, l.
Qed.

Lemma isPlainName_notDot (s : string) :
  isPlainName s = true -> forallb notDot (chars s) = true.
Proof.
  intros (c & l & -> & H)%isPlainName_chars.
  eapply forallb_impl; [|exact H]. intros d Hd. now apply plainChar_spec in Hd.
Qed.

Lemma isPlainName_notSlash (s : string) :
  isPlainName s = true -> forallb notSlash (chars s) = true.
Proof.
  intros (c & l & -> & H)%isPlainName_chars.
  eapply forallb_impl; [|exact H]. intros d Hd. now apply plainChar_spec in Hd.
Qed.

Lemma chars_fileName (base ext : string) :
  chars (base +:+ "." +:+ ext) = fileName base ext.
Proof. unfold fileName. now rewrite chars_append. Qed.

Lemma fileName_notSlash (base ext : string) :
  isName base = true -> isPlainName ext = true ->
  forallb notSlash (fileName base ext) = true.
Proof.
  intros (c & l & Hb & _ & Hs & _)%isName_chars He%isPlainName_notSlash.
  unfold fileName. rewrite forallb_app, Hb, Hs. simpl. exact He.
Qed.

Lemma fileName_nonempty (base ext : string) : fileName base ext <> [].
Proof. unfold fileName. now destruct (chars base). Qed.

Lemma extname_file (dir base ext : string) :
  opensComponent (chars dir) -> isName base = true -> isPlainName ext = true ->
  extname (dir +:+ base +:+ "." +:+ ext) = "." +:+ ext.
Proof.
  intros Hd Hb He. unfold extname.
  rewrite chars_append, chars_fileName.
  rewrite lastComponentRev_app;
    [|apply fileName_nonempty|now apply fileName_notSlash|exact Hd].
  unfold fileName. rewrite rev_app_distr. simpl rev. rewrite <- app_assoc. simpl app.
  pose proof (isPlainName_notDot ext He) as Hnd.
  rewrite <- forallb_rev in Hnd.
  rewrite dropWhile_app_all by exact Hnd. simpl dropWhile.
  apply isName_chars in Hb as (c & l & Hb & _).
  rewrite Hb. destruct (rev (c :: l)) as [|b bs] eqn:Erev.
  { apply (f_equal (@length ascii)) in Erev. rewrite length_rev in Erev. discriminate. }
  rewrite takeWhile_app_all by exact Hnd. simpl takeWhile. rewrite app_nil_r.
  destruct (isPlainName_chars ext He) as (e & es & Hec & _).
  assert (Hlen : (length (rev (chars ext)) =? 0)%nat = false).
  { rewrite length_rev, Hec. reflexivity. }
  rewrite Hlen. simpl andb. cbv iota. rewrite rev_involutive.
  simpl. now rewrite str_chars.
Qed.



Lemma lastComponent_app (p x : list ascii) :
  x <> [] -> forallb notSlash x = true -> opensComponent p ->
  lastComponent (p ++ x) = x.
Proof.
  intros. unfold lastComponent. rewrite lastComponentRev_app by assumption.
  apply rev_involutive.
Qed.

Lemma endsWithChars_app (a b : list ascii) : endsWithChars (a ++ b) b = true.
Proof.
  unfold endsWithChars. rewrite length_app.
  replace (length a + length b - length b)%nat with (length a) by lia.
  rewrite skipn_app, skipn_all, Nat.sub_diag. simpl.
  rewrite eqChars_refl, andb_true_r. apply Nat.leb_le. lia.
Qed.

(** [basename(path, extname(path))] of a file [base.ext] is [base]. *)
Lemma basename_file (dir base ext : string) :
  opensComponent (chars dir) -> isName base = true -> isPlainName ext = true ->
  basename (dir +:+ base +:+ "." +:+ ext) ("." +:+ ext) = base.
Proof.
  intros Hd Hb He. unfold basename.
  rewrite (chars_append dir), chars_fileName.
  rewrite lastComponent_app;
    [|apply fileName_nonempty|now apply fileName_notSlash|exact Hd].
  destruct (isName_chars base Hb) as (c & l & Hbc & _).
  change (chars ("." +:+ ext)) with ("."%char :: chars ext).
  assert (H1 : (length ("."%char :: chars ext) =? 0)%nat = false) by reflexivity.
  assert (H2 : (length (chars dir ++ fileName base ext) <? length ("."%char :: chars ext))%nat = false).
  { apply Nat.ltb_ge. unfold fileName. rewrite !length_app. simpl. lia. }
  rewrite H1, H2. simpl orb. cbv iota.
  assert (H3 : String.eqb ("." +:+ ext) (dir +:+ base +:+ "." +:+ ext) = false).
  { apply eqb_length. rewrite !length_append. rewrite <- (length_chars base), Hbc.
    simpl. lia. }
  rewrite H3.
  assert (H4 : (length (fileName base ext) =? 0)%nat = false).
  { unfold fileName. rewrite length_app, Hbc. reflexivity. }
  rewrite H4.
  assert (H5 : eqChars (fileName base ext) ("."%char :: chars ext) = false).
  { apply eqChars_length. unfold fileName. rewrite length_app, Hbc. simpl. lia. }
  rewrite H5.
  unfold fileName at 1. rewrite endsWithChars_app.
  unfold fileName. rewrite length_app.
  replace (length (chars base) + length ("."%char :: chars ext) - length ("."%char :: chars ext))%nat
    with (length (chars base)) by lia.
  rewrite firstn_app, firstn_all, Nat.sub_diag. simpl firstn. rewrite app_nil_r.
  apply str_chars.
Qed.

(** [basename(path)] of a path that ends with a name. *)
Lemma basename_name (dir name : string) :
  opensComponent (chars dir) -> isName name = true ->
  basename (dir +:+ name) EmptyString = name.
Proof.
  intros Hd Hn. unfold basename. simpl chars at 2. simpl length at 1. simpl orb. cbv iota.
  destruct (isName_chars name Hn) as (c & l & Hc & _ & Hs & _).
  rewrite chars_append, lastComponent_app; [apply str_chars| | |exact Hd].
  - rewrite Hc. discriminate.
  - now rewrite Hc.
Qed.

(** [dirname] drops the file name and the slash before it. *)
Lemma dirname_file (parentPath x : string) :
  parentPath <> EmptyString -> parentPath <> "/" ->
  chars x <> [] -> forallb notSlash (chars x) = true ->
  dirname (parentPath +:+ "/" +:+ x) = parentPath.
Proof.
  intros Hne Hroot Hx Hall. unfold dirname.
  rewrite chars_append. destruct (chars parentPath) as [|c q] eqn:Hp.
  { destruct parentPath; [contradiction | discriminate]. }
  simpl app. change (chars ("/" +:+ x)) with ("/"%char :: chars x).
  cbv iota. rewrite rev_app_distr. simpl rev. rewrite <- app_assoc. simpl app.
  assert (Hrev : forallb notSlash (rev (chars x)) = true) by now rewrite forallb_rev.
  destruct (rev (chars x)) as [|d t] eqn:E.
  { apply (f_equal (@rev ascii)) in E. rewrite rev_involutive in E. contradiction. }
  simpl in Hrev. apply andb_true_iff in Hrev as [Hd Ht].
  assert (Hs : isSlash d = false) by (unfold notSlash in Hd; now apply negb_true_iff).
  simpl app. simpl dropWhile. rewrite Hs. simpl dropWhile. rewrite Hd.
  rewrite dropWhile_app_all by exact Ht. simpl dropWhile.
  assert (Hq : isSlash c && (length (rev q) =? 0)%nat = false).
  { destruct (isSlash c) eqn:Hc; [|reflexivity]. simpl.
    destruct q as [|q1 q]; [|rewrite length_rev; reflexivity].
    exfalso. apply Hroot. rewrite <- (str_chars parentPath), Hp.
    unfold isSlash in Hc. apply Ascii.eqb_eq in Hc. now subst. }
  cbv iota. rewrite Hq. rewrite rev_involutive. rewrite <- Hp. apply str_chars.
Qed.



Lemma segments_component (x cur : list ascii) :
  forallb notSlash x = true -> segments cur x = [rev cur ++ x].
Proof.
  revert cur. induction x as [|c x IH]; intros cur; simpl.
  - now rewrite app_nil_r.
  - intros [Hc Hx]%andb_true_iff. unfold notSlash in Hc. apply negb_true_iff in Hc.
    rewrite Hc, IH by exact Hx. simpl. now rewrite <- app_assoc.
Qed.

Lemma segments_app (x rest cur : list ascii) :
  forallb notSlash x = true ->
  segments cur (x ++ "/"%char :: rest) = (rev cur ++ x) :: segments [] rest.
Proof.
  revert cur. induction x as [|c x IH]; intros cur; simpl.
  - now rewrite app_nil_r.
  - intros [Hc Hx]%andb_true_iff. unfold notSlash in Hc. apply negb_true_iff in Hc.
    rewrite Hc, IH by exact Hx. simpl. now rewrite <- app_assoc.
Qed.

(** A segment that starts with a plain character is kept by
    [normalizeString]. *)
Lemma normalizeStep_name (allow : bool) (stack : list (list ascii)) (c : ascii)
    (l : list ascii) :
  plainChar c = true -> normalizeStep allow stack (c :: l) = (c :: l) :: stack.
Proof.
  intros Hc. apply plainChar_spec in Hc as (_ & _ & Hdot & _).
  unfold notDot in Hdot. apply negb_true_iff in Hdot.
  unfold normalizeStep, eqChars. simpl. now rewrite Hdot.
Qed.

Lemma backslashes_none (l : list ascii) :
  forallb (fun d => negb (nat_of_ascii d =? 92)%nat) l = true ->
  backslashesToSlashes (str l) = str l.
Proof.
  induction l as [|c l IH]; simpl; [reflexivity|].
  intros [Hc Hl]%andb_true_iff. apply negb_true_iff in Hc. rewrite Hc.
  now rewrite IH.
Qed.

Lemma nameChar_notColon (d : ascii) :
  plainChar d || Ascii.eqb d "." = true -> Ascii.eqb d ":" = false.
Proof.
  intros [H|H]%orb_true_iff.
  - now apply plainChar_spec in H.
  - apply Ascii.eqb_eq in H. now subst.
Qed.

(** Joining two names puts a slash between them. *)
Lemma joinPathFragments_names (parent base : string) :
  isName parent = true -> isName base = true ->
  joinPathFragments [parent; base] = parent +:+ "/" +:+ base.
Proof.
  intros Hp Hb.
  destruct (isName_chars parent Hp) as (c & l & Hpc & Hc & Hps & Hpb).
  destruct (isName_chars base Hb) as (d & m & Hbc & Hd & Hbs & Hbb).
  assert (Hjoin : joinNonEmpty [parent; base] = Some (parent +:+ "/" +:+ base)).
  { destruct parent; [discriminate|]. destruct base; [discriminate|]. reflexivity. }
  assert (Hchars : chars (parent +:+ "/" +:+ base) = c :: l ++ "/"%char :: d :: m).
  { rewrite chars_append, Hpc. simpl. now rewrite Hbc. }
  assert (Hnotabs : isSlash c = false) by now apply plainChar_spec in Hc.
  assert (Hnorm : normalize (parent +:+ "/" +:+ base) = parent +:+ "/" +:+ base).
  { unfold normalize. rewrite Hchars. rewrite Hnotabs. simpl negb.
    assert (Htrail : match rev (c :: l ++ "/"%char :: d :: m) with
                     | e :: _ => isSlash e
                     | [] => false
                     end = false).
    { change (c :: l ++ "/"%char :: d :: m) with ((c :: l) ++ "/"%char :: d :: m).
      rewrite rev_app_distr. simpl rev at 1.
      pose proof Hbs as Hbs'. rewrite <- forallb_rev in Hbs'. simpl rev in Hbs'.
      destruct (rev m ++ [d]) as [|e es] eqn:E.
      { now destruct (rev m). }
      simpl in Hbs'. apply andb_true_iff in Hbs' as [He _].
      rewrite <- !app_assoc. simpl. unfold notSlash in He. now apply negb_true_iff. }
    rewrite Htrail.
    unfold normalizeString.
    change (c :: l ++ "/"%char :: d :: m) with ((c :: l) ++ "/"%char :: d :: m).
    rewrite segments_app by exact Hps.
    rewrite segments_component by exact Hbs. simpl rev. simpl app.
    simpl fold_left. rewrite !normalizeStep_name by assumption.
    simpl. rewrite str_app. simpl.
    rewrite <- (str_chars parent), <- (str_chars base), Hpc, Hbc. reflexivity. }
  unfold joinPathFragments, join. rewrite Hjoin, Hnorm.
  unfold normalizePath.
  assert (Hdrive : removeWindowsDriveLetter (parent +:+ "/" +:+ base)
                   = parent +:+ "/" +:+ base).
  { rewrite <- (str_chars (parent +:+ "/" +:+ base)), Hchars.
    destruct l as [|e l]; simpl.
    - now rewrite andb_false_r.
    - unfold isName in Hp. rewrite Hpc in Hp. simpl in Hp.
      apply andb_true_iff in Hp as [_ Hp]. apply andb_true_iff in Hp as [He _].
      rewrite (nameChar_notColon e He). now rewrite andb_false_r. }
  rewrite Hdrive.
  rewrite <- (str_chars (parent +:+ "/" +:+ base)), Hchars.
  apply backslashes_none.
  change (c :: l ++ "/"%char :: d :: m) with ((c :: l) ++ "/"%char :: d :: m).
  rewrite forallb_app, Hpb. simpl. simpl in Hbb. exact Hbb.
Qed.

End PathFacts.

(** ** Import leaves *)

Lemma opensComponent_prefix (prefix : string) :
  prefix = EmptyString \/ (exists d, prefix = d +:+ "/") ->
  opensComponent (Path.chars prefix).
Proof.
  unfold opensComponent. intros [->|[d ->]]; [exact I|].
  rewrite PathFacts.chars_append. simpl. rewrite rev_app_distr. reflexivity.
Qed.

(** C5, counterexample: for an old support file that is not an index file
    the leaf is the file's name alone, without its parent directory; for a
    new support file that is an index file the leaf keeps [index]. *)
Lemma importLeaf_not_uniform :
  oldImportLeaf "apps/app-e2e/src/support/commands.ts" = "commands" /\
  "commands" <> "support/commands" /\
  newImportLeaf "apps/app-e2e/src/support/index.ts" = "support/index" /\
  "support/index" <> "support".
Proof. repeat split; try reflexivity; discriminate. Qed.

(** C5, amended: for a support file [<parentDir>/<base>.<ext>], alone or
    under further directories, the new import leaf is [<parentDir>/<base>]
    whatever the base is, and the old import leaf is [<base>] alone, or
    [<parentDir>] when the base is [index]. *)
Theorem importLeaf_derivation (prefix parent base ext : string) :
  prefix = EmptyString \/ (exists d, prefix = d +:+ "/") ->
  isName parent = true ->
  isName base = true ->
  isPlainName ext = true ->
  let supportFile := prefix +:+ parent +:+ "/" +:+ base +:+ "." +:+ ext in
  newImportLeaf supportFile = parent +:+ "/" +:+ base /\
  oldImportLeaf supportFile = if String.eqb base "index" then parent else base.
Proof.
  intros Hprefix Hparent Hbase Hext supportFile.
  pose proof (opensComponent_prefix prefix Hprefix) as Hopen.
  assert (Hdir : opensComponent (Path.chars (prefix +:+ parent +:+ "/"))).
  { apply opensComponent_prefix. right. exists (prefix +:+ parent).
    now rewrite append_assoc. }
  assert (Hfile : supportFile = (prefix +:+ parent +:+ "/") +:+ base +:+ "." +:+ ext).
  { unfold supportFile. now rewrite !append_assoc. }
  assert (Hext' : Path.extname supportFile = "." +:+ ext).
  { rewrite Hfile. now apply PathFacts.extname_file. }
  assert (Hbasename : Path.basename supportFile (Path.extname supportFile) = base).
  { rewrite Hext', Hfile. now apply PathFacts.basename_file. }
  destruct (PathFacts.isName_chars parent Hparent) as (c & l & Hpc & Hc & _).
  assert (Hdirname : Path.dirname supportFile = prefix +:+ parent).
  { unfold supportFile. rewrite <- append_assoc.
    apply PathFacts.dirname_file.
    - intros H. apply (f_equal Path.chars) in H.
      rewrite PathFacts.chars_append, Hpc in H. now destruct (Path.chars prefix).
    - intros H. apply (f_equal Path.chars) in H.
      rewrite PathFacts.chars_append, Hpc in H. simpl in H.
      destruct (Path.chars prefix) as [|x [|y r]]; simpl in H.
      + injection H as -> _. discriminate.
      + injection H as _ H. discriminate.
      + injection H as _ H. discriminate.
    - rewrite PathFacts.chars_fileName. apply PathFacts.fileName_nonempty.
    - rewrite PathFacts.chars_fileName. now apply PathFacts.fileName_notSlash. }
  assert (Hparentdir : Path.basename (Path.dirname supportFile) EmptyString = parent).
  { rewrite Hdirname. now apply PathFacts.basename_name. }
  split.
  - unfold newImportLeaf. rewrite Hbasename, Hparentdir.
    now apply PathFacts.joinPathFragments_names.
  - unfold oldImportLeaf. now rewrite Hbasename, Hparentdir.
Qed.

(** ** The selector's regular expression *)

Module RegExpFacts.
Import RegExp.

Lemma parse_plain (l : list ascii) (rest : string) :
  forallb (fun c => negb (isSyntaxChar c)) l = true ->
  parse (Path.str l +:+ rest) =
    match parse rest with
    | Some atoms => Some (map Lit l ++ atoms)
    | None => None
    end.
Proof.
  induction l as [|c l IH]; simpl.
  - intros _. now destruct (parse rest).
  - intros [Hc Hl]%andb_true_iff. apply negb_true_iff in Hc.
    pose proof Hc as Hsyn. unfold isSyntaxChar in Hc. simpl in Hc.
    rewrite !orb_false_iff in Hc.
    destruct Hc as (H1 & H2 & H3 & H4 & _).
    rewrite H3, H4, H1, H2, Hsyn, (IH Hl).
    now destruct (parse rest).
Qed.

Lemma matchHere_literal (l : list ascii) (atStart : bool) (s : string) :
  matchHere (map Lit l ++ [EndOfInput]) atStart s = String.eqb s (Path.str l).
Proof.
  revert atStart s. induction l as [|c l IH]; intros atStart s; simpl.
  - now destruct s.
  - destruct s as [|d s]; [reflexivity|]. simpl.
    rewrite IH, Ascii.eqb_sym. now destruct (Ascii.eqb d c).
Qed.

Lemma search_literal (l : list ascii) (atStart : bool) (s : string) :
  search (map Lit l ++ [EndOfInput]) atStart s = Js.endsWith s (Path.str l).
Proof.
  revert atStart. induction s as [|d s IH]; intros atStart.
  - simpl search. rewrite matchHere_literal, orb_false_r.
    unfold Js.endsWith. simpl.
    destruct l as [|c l]; reflexivity.
  - simpl search. rewrite matchHere_literal, IH.
    unfold Js.endsWith.
    set (lit := Path.str l).
    destruct (le_lt_dec (String.length lit) (String.length s)) as [Hle|Hgt].
    + assert (H1 : String.eqb (String d s) lit = false).
      { apply PathFacts.eqb_length. simpl. lia. }
      rewrite H1. simpl orb.
      assert (H2 : (String.length lit <=? String.length s)%nat = true)
        by now apply Nat.leb_le.
      assert (H3 : (String.length lit <=? String.length (String d s))%nat = true)
        by (apply Nat.leb_le; simpl; lia).
      rewrite H2, H3. simpl andb.
      cbn [String.length].
      replace (S (String.length s) - String.length lit)%nat
        with (S (String.length s - String.length lit)) by lia.
      reflexivity.
    + assert (H2 : (String.length lit <=? String.length s)%nat = false)
        by (apply Nat.leb_gt; lia).
      destruct (Nat.eq_dec (String.length lit) (S (String.length s))) as [Heq|Hne].
      * assert (H3 : (String.length lit <=? String.length (String d s))%nat = true)
          by (apply Nat.leb_le; simpl; lia).
        rewrite H2, H3. simpl andb. rewrite orb_false_r.
        cbn [String.length].
        replace (S (String.length s) - String.length lit)%nat with 0%nat by lia.
        reflexivity.
      * assert (H3 : (String.length lit <=? String.length (String d s))%nat = false)
          by (apply Nat.leb_gt; simpl; lia).
        rewrite H2, H3. simpl andb. rewrite orb_false_r.
        apply PathFacts.eqb_length. simpl. lia.
Qed.

(** For an import path without regular-expression syntax the selector picks
    the literals whose value ends with the path. *)
Lemma selector_plain (old : string) (atoms : list Atom) (atStart : bool) (text : string) :
  noRegExpSyntax old = true ->
  parse (old +:+ "$") = Some atoms ->
  search atoms atStart text = Js.endsWith text old.
Proof.
  intros Hplain Hparse. unfold noRegExpSyntax in Hplain.
  rewrite <- (PathFacts.str_chars old) in Hparse.
  rewrite (parse_plain _ _ Hplain) in Hparse. simpl in Hparse.
  injection Hparse as <-. rewrite search_literal. now rewrite PathFacts.str_chars.
Qed.

End RegExpFacts.

(** ** Rewriting imports *)

Lemma concatStrings_app (a b : list string) :
  concatStrings (a ++ b) = concatStrings a +:+ concatStrings b.
Proof.
  induction a as [|x a IH]; simpl; [reflexivity|].
  now rewrite IH, append_assoc.
Qed.

Lemma rewrittenContent_app (a b : list SourceNode) (atoms : list RegExp.Atom)
    (old new : string) :
  rewrittenContent (a ++ b) atoms old new =
    rewrittenContent a atoms old new +:+ rewrittenContent b atoms old new.
Proof.
  unfold rewrittenContent, tsqueryReplace. now rewrite map_app, concatStrings_app.
Qed.

Section Imports.

Variable parseSource : string -> list SourceNode.
Variable compileRegExp : string -> option (string -> bool).

Lemma updateImports_fragment
    (filePath oldImportPath newImportPath content pattern : string)
    (atoms : list RegExp.Atom) (w : World) :
  treeRead w filePath = Some content ->
  endOfImportPattern oldImportPath = Some pattern ->
  RegExp.parse pattern = Some atoms ->
  let newContent :=
    rewrittenContent (parseSource content) atoms oldImportPath newImportPath in
  updateImports parseSource compileRegExp filePath oldImportPath newImportPath w =
    Ok (tt, mkWorld (<[filePath := newContent]> (files w))
                    (trace w ++ [Written filePath newContent])).
Proof.
  intros Hread Hpattern Hatoms. unfold updateImports, selectorTest.
  rewrite Hpattern, Hatoms. unfold bind, getWorld. now rewrite Hread.
Qed.

Lemma rewrittenContent_at_literal (before after : list SourceNode) (quote : ascii)
    (text : string) (atoms : list RegExp.Atom) (old new : string) :
  RegExp.search atoms true text = true ->
  rewrittenContent (before ++ StringLiteral quote text :: after) atoms old new =
    rewrittenContent before atoms old new +:+
    "'" +:+ Js.replace text old new +:+ "'" +:+
    rewrittenContent after atoms old new.
Proof.
  intros Hmatch. rewrite rewrittenContent_app. f_equal.
  change (StringLiteral quote text :: after) with ([StringLiteral quote text] ++ after).
  rewrite rewrittenContent_app. unfold rewrittenContent at 1, tsqueryReplace.
  simpl. rewrite Hmatch. unfold importReplacer.
  now rewrite append_empty_r, !append_assoc.
Qed.


End Imports.

(** C10, the rewrite for an old import leaf with a character that is syntax
    in a regular expression.  The leaf is put into the selector's expression
    as it is (line 300), so the selector for the support file [cy$.ts] is
    [/cy$$/], which no text ending with [cy$] matches: the double-quoted
    import of that file is written back as it was.  The same holds for the
    support file [e2e+setup.ts] with every engine that, as JavaScript's does,
    finds no match of [/e2e+setup$/] in ["../support/e2e+setup"]. *)
Theorem updateImports_keeps_double_quotes :
  let path := "src/e2e/app.cy.ts" in
  let content (leaf : string) :=
    "import " +:+ String doubleQuote ("../support/" +:+ leaf +:+ String doubleQuote ";") in
  oldImportLeaf "apps/app-e2e/src/support/cy$.ts" = "cy$" /\
  newImportLeaf "apps/app-e2e/src/support/cy$.ts" = "support/cy$" /\
  scanLiterals (content "cy$") =
    [SourceText "import "; StringLiteral doubleQuote "../support/cy$"; SourceText ";"] /\
  Js.endsWith "../support/cy$" "cy$" = true /\
  updateImports scanLiterals noOtherSyntax path "cy$" "support/cy$"
    (mkWorld {[ path := content "cy$" ]} []) =
  Ok (tt, mkWorld {[ path := content "cy$" ]} [Written path (content "cy$")]) /\
  oldImportLeaf "apps/app-e2e/src/support/e2e+setup.ts" = "e2e+setup" /\
  Js.endsWith "../support/e2e+setup" "e2e+setup" = true /\
  forall (compileRegExp : string -> option (string -> bool)) (test : string -> bool),
    compileRegExp "e2e+setup$" = Some test ->
    test "../support/e2e+setup" = false ->
    updateImports scanLiterals compileRegExp path "e2e+setup" "support/e2e+setup"
      (mkWorld {[ path := content "e2e+setup" ]} []) =
    Ok (tt, mkWorld {[ path := content "e2e+setup" ]}
              [Written path (content "e2e+setup")]).
Proof.
  intros path content.
  split; [reflexivity|]. split; [reflexivity|]. split; [reflexivity|].
  split; [reflexivity|]. split; [vm_compute; reflexivity|].
  split; [reflexivity|]. split; [reflexivity|].
  intros compileRegExp test Hcompile Htest.
  unfold updateImports, selectorTest.
  change (endOfImportPattern "e2e+setup") with (Some "e2e+setup$").
  assert (Hparse : RegExp.parse "e2e+setup$" = None) by reflexivity.
  cbv beta iota. rewrite Hparse, Hcompile. unfold bind, getWorld, treeRead. cbn [files].
  rewrite lookup_singleton_eq.
  change (scanLiterals (content "e2e+setup"))
    with [SourceText "import "; StringLiteral doubleQuote "../support/e2e+setup";
          SourceText ";"].
  unfold tsqueryReplace. cbn [map]. rewrite Htest.
  unfold treeWrite. cbn [files trace]. rewrite insert_singleton_eq. reflexivity.
Qed.

(** C4, the rewrite at a literal that holds the old leaf twice: the first
    occurrence is replaced, not the one the literal ends with. *)
Theorem updateImports_replaces_first_occurrence :
  updateImports scanLiterals noOtherSyntax "src/e2e/app.cy.ts" "support" "support/e2e"
    (mkWorld {[ "src/e2e/app.cy.ts" := "import '../support/support';" ]} []) =
  Ok (tt, mkWorld {[ "src/e2e/app.cy.ts" := "import '../support/e2e/support';" ]}
            [Written "src/e2e/app.cy.ts" "import '../support/e2e/support';"]).
Proof. vm_compute. reflexivity. Qed.

(** ** Moving the spec files *)

(** C1, the move of a spec file that lies in a directory whose name holds the
    marker too: the directory's marker is replaced and the file keeps its
    [.spec.] name. *)
Theorem visitFile_replaces_first_marker :
  let oldIntegrationFolder := "apps/app-e2e/src/integration" in
  let newIntegrationFolder := "apps/app-e2e/src/e2e" in
  let path := "apps/app-e2e/src/integration/my.spec.helpers/login.spec.ts" in
  let newPath := "apps/app-e2e/src/e2e/my.cy.helpers/login.spec.ts" in
  migratedPath oldIntegrationFolder newIntegrationFolder path = newPath /\
  Path.basename newPath EmptyString = "login.spec.ts" /\
  visitFile scanLiterals noOtherSyntax oldIntegrationFolder newIntegrationFolder None path
    (mkWorld {[ path := "it('logs in')" ]} []) =
  Ok (tt, mkWorld {[ newPath := "it('logs in')" ]} [Renamed path newPath]).
Proof. vm_compute. repeat split. Qed.

(** ** Serializing nested values *)

(** C7, the emitted text for a passthrough value nested deeper than
    [util.inspect] looks: two legacy configs that differ in such a value give
    the same text, whatever the layout; the value itself is cut. *)
Theorem newConfigSource_cuts_nested_values
    (render : Inspected -> string) (w : World) (projectConfig : ProjectConfiguration) :
  let legacy (n : Z) : JsObject :=
    [("env", JObj [("a", JObj [("b", JObj [("c", JNum n)])])])] in
  getProp "env" (e2eConfig w projectConfig (legacy 1%Z)) =
    Some (JObj [("a", JObj [("b", JObj [("c", JNum 1%Z)])])]) /\
  getProp "env" (e2eConfig w projectConfig (legacy 2%Z)) =
    Some (JObj [("a", JObj [("b", JObj [("c", JNum 2%Z)])])]) /\
  newConfigSource render (e2eConfig w projectConfig (legacy 1%Z)) =
    newConfigSource render (e2eConfig w projectConfig (legacy 2%Z)) /\
  formatValue 0 (JObj (serializedConfig (e2eConfig w projectConfig (legacy 1%Z)))) =
    IObj [("env", IObj [("a", IObj [("b", ICut "Object")])]);
          ("specPattern", IStr "src/e2e/**/*.cy.{js,jsx,ts,tsx}");
          ("supportFile", IStr "src/support/e2e.ts")].
Proof.
  intros legacy. unfold newConfigSource, convertedConfigOf, inspect, e2eConfig.
  simpl withDefault. simpl truthy.
  destruct (treeExists w (Path.joinPathFragments [sourceRoot projectConfig; "integration"]));
    destruct (treeExists w
                (Path.joinPathFragments [sourceRoot projectConfig; "support"; "index.ts"]));
    repeat split.
Qed.

(** ** Migration with an unused support file *)



Lemma treeRename_inv (from to : string) (w w' : World) :
  treeRename from to w = Ok (tt, w') ->
  trace w' = trace w ++ [Renamed from to] /\ contentsFrom w w'.
Proof.
  unfold treeRename. destruct (files w !! from) as [content|] eqn:Hfrom; [|discriminate].
  intros [= <-]. split; [reflexivity|].
  intros p c. simpl. rewrite lookup_insert_Some.
  intros [[_ <-]|[_ H]]; [now exists from|].
  apply lookup_delete_Some in H as [_ H]. now exists p.
Qed.

Lemma treeDelete_inv (path : string) (w w' : World) :
  treeDelete path w = Ok (tt, w') ->
  trace w' = trace w ++ [Deleted path] /\ contentsFrom w w'.
Proof.
  unfold treeDelete. intros [= <-]. split; [reflexivity|].
  intros p c. simpl. intros [H _]%map_lookup_filter_Some. now exists p.
Qed.

Section Migration.

Variable ignored : string -> bool.
Variable parseJson : string -> option JsObject.
Variable parseSource : string -> list SourceNode.
Variable compileRegExp : string -> option (string -> bool).
Variable projectConfig : ProjectConfiguration.




Lemma createNewCypressConfig_inv (path : string) (configs : CypressConfigs) (w w1 : World) :
  createNewCypressConfig parseJson projectConfig path w = Ok (configs, w1) ->
  w1 = w /\
  cypressConfigTs configs = newCypressConfig w projectConfig (cypressConfigJson configs).
Proof.
  unfold createNewCypressConfig, readJson, bind, getWorld, ret, throw.
  destruct (treeRead w path) as [text|]; [|discriminate].
  destruct (parseJson text) as [cfg|]; [|discriminate].
  intros [= <- <-]. split; reflexivity.
Qed.

Lemma pathFragment_inv (what : string) (o : option JsValue) (fragment : string)
    (w w' : World) :
  pathFragment what o w = Ok (fragment, w') -> o = Some (JStr fragment) /\ w' = w.
Proof.
  unfold pathFragment. destruct o as [[]|]; try discriminate.
  intros [= <- <-]. split; reflexivity.
Qed.


End Migration.

(** ** Further properties of the translation and the walk *)

(** X1: a passthrough key, one that neither the translator nor the emitter
    recognizes, keeps its value in the [e2e] object and in the object that is
    serialized. *)
Theorem passthrough_survives_translation
    (w : World) (projectConfig : ProjectConfiguration) (cfg : JsObject)
    (key : string) (v : JsValue) :
  hasKey recognizedKeys key = false ->
  getProp key cfg = Some v ->
  getProp key (e2eConfig w projectConfig cfg) = Some v /\
  getProp key (serializedConfig (e2eConfig w projectConfig cfg)) = Some v.
Proof.
  intros Hkey Hv. unfold hasKey, recognizedKeys in Hkey. simpl in Hkey.
  rewrite !orb_false_iff in Hkey.
  destruct Hkey as (Hb & Hm & Hi & Hs & Hp & Hsp & _).
  apply String.eqb_neq in Hb, Hm, Hi, Hs, Hp, Hsp.
  assert (He : getProp key (e2eConfig w projectConfig cfg) = Some v).
  { unfold e2eConfig. rewrite !getProp_setProp_ne by congruence.
    rewrite getProp_restOf_kept; [exact Hv|].
    unfold hasKey. simpl. rewrite !orb_false_iff.
    repeat split; now apply String.eqb_neq. }
  split; [exact He|].
  unfold serializedConfig. rewrite getProp_restOf_kept; [exact He|].
  unfold hasKey. simpl. rewrite !orb_false_iff.
  repeat split; now apply String.eqb_neq.
Qed.

Lemma passthrough_survives_translation_example :
  hasKey recognizedKeys "video" = false /\
  getProp "video" exampleLegacyConfig = Some (JBool true) /\
  getProp "video" (e2eConfig exampleWorld exampleProject exampleLegacyConfig) =
    Some (JBool true).
Proof.
  split; [reflexivity|]. split; [reflexivity|].
  exact (proj1 (passthrough_survives_translation exampleWorld exampleProject
                  exampleLegacyConfig "video" (JBool true) eq_refl eq_refl)).
Defined.

Lemma restOf_setProp_dropped (keys : list string) (k : string) (v : JsValue) (o : JsObject) :
  hasKey keys k = true -> restOf keys (setProp k v o) = restOf keys o.
Proof.
  intros Hk. unfold restOf. induction o as [|[k0 w] o IH]; simpl.
  - now rewrite Hk.
  - destruct (String.eqb k0 k) eqn:E; simpl.
    + apply String.eqb_eq in E. subst k0. now rewrite Hk.
    + now rewrite IH.
Qed.

(** X7: the legacy [baseUrl] goes to the top level of the new config, not
    into its [e2e] object, and the emitted text is made from the [e2e] object
    alone: whatever [baseUrl] a legacy config is given, the emitted text is
    the same and [e2e] has no [baseUrl]. *)
Theorem emitted_text_ignores_baseUrl
    (render : Inspected -> string) (w : World) (projectConfig : ProjectConfiguration)
    (cfg : JsObject) (baseUrl : JsValue) :
  getProp "baseUrl" (e2eConfig w projectConfig cfg) = None /\
  e2eConfig w projectConfig (setProp "baseUrl" baseUrl cfg) = e2eConfig w projectConfig cfg /\
  newConfigSource render (e2eConfig w projectConfig (setProp "baseUrl" baseUrl cfg)) =
    newConfigSource render (e2eConfig w projectConfig cfg).
Proof.
  assert (He : e2eConfig w projectConfig (setProp "baseUrl" baseUrl cfg)
               = e2eConfig w projectConfig cfg).
  { unfold e2eConfig. rewrite !getProp_setProp_ne by discriminate.
    now rewrite restOf_setProp_dropped. }
  split; [|split; [exact He | now rewrite He]].
  unfold e2eConfig. rewrite !getProp_setProp_ne by discriminate.
  now apply getProp_restOf_dropped.
Qed.

(** ** Replacing the first occurrence *)

Lemma getSubstitution_plain (matched before after repl : string) :
  noDollar repl = true -> Js.getSubstitution matched before after repl = repl.
Proof.
  unfold noDollar. induction repl as [|c repl IH]; simpl; [reflexivity|].
  intros [Hc Hr]%andb_true_iff. apply negb_true_iff in Hc. rewrite Hc.
  now rewrite IH.
Qed.

Lemma replace_at_start (pat rest repl : string) :
  noDollar repl = true -> Js.replace (pat +:+ rest) pat repl = repl +:+ rest.
Proof.
  intros Hrepl. unfold Js.replace.
  rewrite splitFirst_eq, prefix_append, dropS_append. simpl.
  now rewrite getSubstitution_plain.
Qed.

Lemma prefix_dropS (pat s : string) :
  String.prefix pat s = true -> s = pat +:+ Js.dropS (String.length pat) s.
Proof.
  revert s. induction pat as [|x pat IH]; intros s; [reflexivity|].
  destruct s as [|y s]; [discriminate|]. simpl.
  destruct (ascii_dec x y) as [->|]; [|discriminate].
  intros H. f_equal. now apply IH.
Qed.

Lemma splitFirst_Some (pat s before after : string) :
  Js.splitFirst pat s = Some (before, after) -> s = before +:+ pat +:+ after.
Proof.
  revert before. induction s as [|c s IH]; intros before; rewrite splitFirst_eq.
  - destruct (String.prefix pat EmptyString) eqn:Hp; [|discriminate].
    intros [= <- <-]. now apply prefix_dropS.
  - destruct (String.prefix pat (String c s)) eqn:Hp.
    + intros [= <- <-]. now apply prefix_dropS.
    + destruct (Js.splitFirst pat s) as [[b a]|] eqn:Hs; [|discriminate].
      intros [= <- <-]. simpl. f_equal. now apply IH.
Qed.

(** A prefix that ends with a character the pattern lacks, and does not hold
    the pattern, is skipped by the search for the first occurrence. *)
Lemma prefix_past_boundary (c : ascii) (pat a f : string) :
  lacksChar c pat = true -> lastIs c a = true ->
  String.prefix pat a = false -> String.prefix pat (a +:+ f) = false.
Proof.
  revert pat. induction a as [|x a IH]; intros pat Hlack Hlast Hpre; [discriminate|].
  destruct pat as [|y pat]; [discriminate|].
  simpl in *. destruct (ascii_dec y x) as [->|Hne]; [|reflexivity].
  unfold lacksChar in Hlack. simpl in Hlack. apply andb_true_iff in Hlack as [Hx Hlack].
  destruct a as [|z a].
  - rewrite Hlast in Hx. discriminate.
  - apply IH; assumption.
Qed.

Lemma splitFirst_skip (c : ascii) (pat a f : string) :
  lacksChar c pat = true -> lastIs c a = true ->
  Js.includes a pat = false ->
  Js.splitFirst pat (a +:+ f) =
    match Js.splitFirst pat f with
    | Some (b, r) => Some (a +:+ b, r)
    | None => None
    end.
Proof.
  intros Hlack. induction a as [|x a IH]; intros Hlast Hin; [discriminate|].
  unfold Js.includes in Hin. rewrite splitFirst_eq in Hin.
  destruct (String.prefix pat (String x a)) eqn:Hpre; [discriminate|].
  simpl String.append. rewrite splitFirst_eq.
  change (String x (a +:+ f)) with (String x a +:+ f).
  rewrite (prefix_past_boundary c pat (String x a) f Hlack Hlast Hpre).
  destruct a as [|z a].
  - simpl String.append. now destruct (Js.splitFirst pat f) as [[b r]|].
  - simpl String.append.
    change (String z (a +:+ f)) with (String z a +:+ f).
    rewrite IH.
    + now destruct (Js.splitFirst pat f) as [[b r]|].
    + exact Hlast.
    + unfold Js.includes. now destruct (Js.splitFirst pat (String z a)) as [[b r]|].
Qed.

Lemma replace_skip (c : ascii) (pat repl a f : string) :
  lacksChar c pat = true -> lastIs c a = true -> noDollar repl = true ->
  Js.includes a pat = false ->
  Js.replace (a +:+ f) pat repl = a +:+ Js.replace f pat repl.
Proof.
  intros Hlack Hlast Hrepl Hin. unfold Js.replace.
  rewrite (splitFirst_skip c) by assumption.
  destruct (Js.splitFirst pat f) as [[b r]|]; [|reflexivity].
  now rewrite !getSubstitution_plain, append_assoc.
Qed.

Lemma lastIs_append (c : ascii) (a : string) : lastIs c (a +:+ String c EmptyString) = true.
Proof.
  induction a as [|x a IH]; simpl; [apply Ascii.eqb_refl|].
  destruct (a +:+ String c EmptyString) eqn:E; [|exact IH].
  destruct a; discriminate.
Qed.

(** X4: the move of a file below the old integration folder: when neither the
    new folder nor the directories between hold the marker (and the new
    folder has no dollar sign), the new path is the old one with the folder
    replaced and the marker of the file name replaced. *)
Theorem migratedPath_below_folder
    (oldIntegrationFolder newIntegrationFolder sub file : string) :
  noDollar newIntegrationFolder = true ->
  sub = EmptyString \/ (exists d, sub = d +:+ "/") ->
  Js.includes (newIntegrationFolder +:+ "/" +:+ sub) ".spec." = false ->
  Path.chars file <> [] ->
  forallb Path.notSlash (Path.chars file) = true ->
  migratedPath oldIntegrationFolder newIntegrationFolder
    (oldIntegrationFolder +:+ "/" +:+ sub +:+ file) =
  newIntegrationFolder +:+ "/" +:+ sub +:+ Js.replace file ".spec." ".cy.".
Proof.
  intros Hnew Hsub Hclean Hfile Hslash. unfold migratedPath.
  assert (Hbase : Path.basename (oldIntegrationFolder +:+ "/" +:+ sub +:+ file) EmptyString
                  = file).
  { unfold Path.basename. simpl Path.chars at 2. simpl length at 1. simpl orb. cbv iota.
    rewrite <- !append_assoc. rewrite PathFacts.chars_append.
    rewrite PathFacts.lastComponent_app; [apply PathFacts.str_chars|assumption..|].
    apply opensComponent_prefix. destruct Hsub as [->|[d ->]]; right.
    - exists oldIntegrationFolder. now rewrite append_empty_r.
    - exists ((oldIntegrationFolder +:+ "/") +:+ d). now rewrite !append_assoc. }
  rewrite Hbase, replace_at_start by exact Hnew.
  assert (Hlast : lastIs "/" (newIntegrationFolder +:+ "/" +:+ sub) = true).
  { destruct Hsub as [->|[d ->]].
    - apply lastIs_append.
    - rewrite <- !append_assoc. apply lastIs_append. }
  destruct (Js.includes file ".spec.") eqn:Hmarker.
  - rewrite <- !append_assoc.
    rewrite (replace_skip "/") by (try reflexivity; try assumption;
                                   now rewrite append_assoc).
    reflexivity.
  - now rewrite (includes_replace_id file) by exact Hmarker.
Qed.

Lemma migratedPath_below_folder_example :
  noDollar "apps/app-e2e/src/e2e" = true /\
  Js.includes ("apps/app-e2e/src/e2e" +:+ "/" +:+ "login/") ".spec." = false /\
  migratedPath "apps/app-e2e/src/integration" "apps/app-e2e/src/e2e"
    "apps/app-e2e/src/integration/login/form.spec.ts" =
  "apps/app-e2e/src/e2e/login/form.cy.ts".
Proof.
  split; [reflexivity|]. split; [reflexivity|].
  exact (migratedPath_below_folder "apps/app-e2e/src/integration" "apps/app-e2e/src/e2e"
           "login/" "form.spec.ts" eq_refl (or_intror (ex_intro _ "login" eq_refl))
           eq_refl ltac:(discriminate) eq_refl).
Defined.

(** X5: the rewrite of a literal whose first occurrence of the old leaf is the one
    it ends with (the new leaf having no dollar sign): what stood before the
    leaf, then the new leaf, between single quotes. *)
Theorem importReplacer_at_suffix (oldImportPath newImportPath text before : string) :
  noDollar newImportPath = true ->
  Js.splitFirst oldImportPath text = Some (before, EmptyString) ->
  text = before +:+ oldImportPath /\
  importReplacer oldImportPath newImportPath text = "'" +:+ before +:+ newImportPath +:+ "'".
Proof.
  intros Hnew Hsplit. split.
  - apply splitFirst_Some in Hsplit. now rewrite append_empty_r in Hsplit.
  - unfold importReplacer, Js.replace. rewrite Hsplit.
    rewrite getSubstitution_plain, append_empty_r by exact Hnew.
    simpl. now rewrite append_assoc.
Qed.

Lemma importReplacer_at_suffix_example :
  noDollar "support/e2e" = true /\
  Js.splitFirst "support" "../support" = Some ("../", EmptyString) /\
  importReplacer "support" "support/e2e" "../support" = "'../support/e2e'".
Proof.
  split; [reflexivity|]. split; [reflexivity|].
  exact (proj2 (importReplacer_at_suffix "support" "support/e2e" "../support" "../"
                  eq_refl eq_refl)).
Defined.

(** ** The events of the migration *)

Section WalkEvents.

Variable ignored : string -> bool.
Variable parseSource : string -> list SourceNode.
Variable compileRegExp : string -> option (string -> bool).
Variable projectConfig : ProjectConfiguration.

Lemma updateImports_inv (filePath oldImportPath newImportPath : string) (w w' : World) :
  updateImports parseSource compileRegExp filePath oldImportPath newImportPath w =
    Ok (tt, w') ->
  exists content,
    w' = mkWorld (<[filePath := content]> (files w)) (trace w ++ [Written filePath content]).
Proof.
  unfold updateImports.
  destruct (endOfImportPattern oldImportPath) as [pattern|]; [|discriminate].
  destruct (selectorTest compileRegExp pattern) as [selects|]; [|discriminate].
  unfold bind, getWorld. destruct (treeRead w filePath) as [content|]; [|discriminate].
  unfold treeWrite. intros [= <-]. eauto.
Qed.

Lemma visitFile_events (old new : string) (leaves : option (string * string))
    (path : string) (w w' : World) :
  isUnder (sourceRoot projectConfig) path = true -> ignored path = false ->
  visitFile parseSource compileRegExp old new leaves path w = Ok (tt, w') ->
  exists events,
    trace w' = trace w ++ events /\
    Forall (walkEvent ignored (sourceRoot projectConfig) old new) events.
Proof.
  intros Hunder Hignored. unfold visitFile.
  destruct (Js.includes path old) eqn:Hin; cbn [negb].
  - unfold bind at 1.
    destruct (treeRename path (migratedPath old new path) w) as [[[] w1]|e] eqn:Hren;
      [|discriminate].
    apply treeRename_inv in Hren as [Ht1 _].
    assert (Hmove : walkEvent ignored (sourceRoot projectConfig) old new
                      (Renamed path (migratedPath old new path))).
    { exists path. auto. }
    destruct leaves as [[oldLeaf newLeaf]|].
    + destruct (existsb (Js.endsWith path) validFilesEndingsToUpdate) eqn:Hend.
      * intros [content ->]%updateImports_inv. cbn [trace].
        exists [Renamed path (migratedPath old new path);
                Written (migratedPath old new path) content].
        split; [now rewrite Ht1, <- app_assoc|].
        constructor; [exact Hmove|]. constructor; [|constructor].
        exists path. repeat split; eauto.
      * intros [= <-]. exists [Renamed path (migratedPath old new path)].
        split; [exact Ht1|]. now constructor.
    + intros [= <-]. exists [Renamed path (migratedPath old new path)].
      split; [exact Ht1|]. now constructor.
  - intros [= <-]. exists []. now rewrite app_nil_r.
Qed.

Lemma forEach_events (old new : string) (leaves : option (string * string))
    (l : list string) (w w' : World) :
  Forall (fun path => isUnder (sourceRoot projectConfig) path = true /\
                      ignored path = false) l ->
  forEach l (visitFile parseSource compileRegExp old new leaves) w = Ok (tt, w') ->
  exists events,
    trace w' = trace w ++ events /\
    Forall (walkEvent ignored (sourceRoot projectConfig) old new) events.
Proof.
  intros Hl. revert w. induction Hl as [|path l [Hunder Hignored] Hl IH]; intros w; simpl.
  - intros [= <-]. exists []. now rewrite app_nil_r.
  - unfold bind at 1.
    destruct (visitFile parseSource compileRegExp old new leaves path w) as [[[] w1]|e] eqn:Hvisit;
      [|discriminate].
    intros Hrest.
    apply (visitFile_events _ _ _ _ _ _ Hunder Hignored) in Hvisit as (e1 & Ht1 & He1).
    apply IH in Hrest as (e2 & Ht2 & He2).
    exists (e1 ++ e2). split; [now rewrite Ht2, Ht1, app_assoc | now apply Forall_app].
Qed.

Lemma visited_paths (w : World) :
  Forall (fun path => isUnder (sourceRoot projectConfig) path = true /\
                      ignored path = false)
    (List.filter (fun p => isUnder (sourceRoot projectConfig) p && negb (ignored p))
       (paths w)).
Proof.
  apply Forall_forall. intros path [_ H]%list_elem_of_In%filter_In.
  apply andb_true_iff in H as [Hunder Hignored]. now apply negb_true_iff in Hignored.
Qed.

Lemma renameSupportFile_events (cfg e2e : JsObject) (r : option (string * string))
    (w w' : World) :
  renameSupportFile projectConfig cfg (getProp "supportFile" e2e) w = Ok (r, w') ->
  exists events,
    trace w' = trace w ++ events /\ supportEvents projectConfig cfg e2e events.
Proof.
  unfold renameSupportFile.
  destruct (match getProp "supportFile" cfg with Some v => truthy v | None => false end).
  - unfold bind at 1.
    destruct (pathFragment "supportFile" (getProp "supportFile" cfg) w)
      as [[old w1]|e] eqn:Hold; [|discriminate].
    apply pathFragment_inv in Hold as [Hold ->].
    unfold bind at 1.
    destruct (pathFragment "supportFile" (getProp "supportFile" e2e) w)
      as [[new w1]|e] eqn:Hnew; [|discriminate].
    apply pathFragment_inv in Hnew as [Hnew ->].
    unfold bind at 1.
    match goal with |- context [treeRename ?a ?b w] =>
      destruct (treeRename a b w) as [[[] w1]|e] eqn:Hren end; [|discriminate].
    intros [= <- <-]. apply treeRename_inv in Hren as [Ht _].
    eexists. split; [exact Ht|]. left. eauto.
  - unfold bind at 1, getWorld at 1.
    destruct (treeExists w _).
    + unfold bind, emit.
      match goal with |- context [treeRename ?a ?b ?x] =>
        destruct (treeRename a b x) as [[[] w1]|e] eqn:Hren end; [|discriminate].
      intros [= <- <-]. apply treeRename_inv in Hren as [Ht _]. cbn [trace] in Ht.
      eexists. split; [rewrite Ht, <- app_assoc; reflexivity|]. right. left. reflexivity.
    + intros [= <- <-]. exists []. rewrite app_nil_r. split; [reflexivity|].
      right. right. reflexivity.
Qed.

(** X2: the events of a migration.  The legacy config and the new config
    each name an integration folder; the run appends the events of the
    support file's move, then the events of the walk, then at most the
    removal of the old integration folder.  Every event of the walk concerns
    a file under the source root that is not ignored and whose path holds the
    old folder: the file is moved to its migrated path, and a text is
    written only at the migrated path of a file with one of the six
    endings. *)
Theorem updateProjectPaths_events (configs : CypressConfigs) (w w' : World) :
  updateProjectPaths ignored parseSource compileRegExp projectConfig configs w = Ok (tt, w') ->
  exists e2e old new support walk cleanup,
    getProp "e2e" (cypressConfigTs configs) = Some (JObj e2e) /\
    getProp "integrationFolder" (cypressConfigJson configs) = Some (JStr old) /\
    getProp "integrationFolder" e2e = Some (JStr new) /\
    let oldIntegrationFolder := Path.joinPathFragments [root projectConfig; old] in
    let newIntegrationFolder := Path.joinPathFragments [root projectConfig; new] in
    trace w' = trace w ++ support ++ walk ++ cleanup /\
    supportEvents projectConfig (cypressConfigJson configs) e2e support /\
    Forall (walkEvent ignored (sourceRoot projectConfig)
              oldIntegrationFolder newIntegrationFolder) walk /\
    (cleanup = [] \/ cleanup = [Deleted oldIntegrationFolder]).
Proof.
  intros Hrun. unfold updateProjectPaths in Hrun.
  destruct (getProp "e2e" (cypressConfigTs configs)) as [[| | | | |e2e]|] eqn:He2e;
    try discriminate.
  unfold bind at 1 in Hrun. unfold ret at 1 in Hrun.
  unfold bind at 1 in Hrun.
  destruct (pathFragment "integrationFolder"
              (getProp "integrationFolder" (cypressConfigJson configs)) w)
    as [[old w1]|e] eqn:Hold; [|discriminate].
  apply pathFragment_inv in Hold as [Hold ->].
  unfold bind at 1 in Hrun.
  destruct (pathFragment "integrationFolder" (getProp "integrationFolder" e2e) w)
    as [[new w1]|e] eqn:Hnew; [|discriminate].
  apply pathFragment_inv in Hnew as [Hnew ->].
  unfold bind at 1 in Hrun.
  destruct (renameSupportFile projectConfig (cypressConfigJson configs)
              (getProp "supportFile" e2e) w) as [[r w2]|e] eqn:Hsupport; [|discriminate].
  apply renameSupportFile_events in Hsupport as (support & Ht2 & Hsupport).
  unfold bind at 1 in Hrun. unfold visitNotIgnoredFiles in Hrun.
  unfold bind at 1 in Hrun. unfold getWorld at 1 in Hrun.
  match type of Hrun with context [forEach ?l ?f w2] =>
    destruct (forEach l f w2) as [[[] w3]|e] eqn:Hvisit end; [|discriminate].
  apply forEach_events in Hvisit as (walk & Ht3 & Hwalk); [|apply visited_paths].
  unfold bind at 1 in Hrun. unfold getWorld at 1 in Hrun.
  exists e2e, old, new, support, walk.
  destruct (length (treeChildren w3 (Path.joinPathFragments [root projectConfig; old])) =? 0)%nat.
  - apply treeDelete_inv in Hrun as [Ht _]. eexists. repeat split; eauto.
    now rewrite Ht, Ht3, Ht2, <- !app_assoc.
  - injection Hrun as <-. exists []. repeat split; auto.
    now rewrite Ht3, Ht2, app_nil_r, <- !app_assoc.
Qed.

End WalkEvents.

(** ** Files the migration does not visit *)

Lemma keepsFile_refl (path : string) (w : World) : keepsFile path w w [].
Proof. split; [now rewrite app_nil_r | now left]. Qed.

Lemma keepsFile_trans (path : string) (w1 w2 w3 : World) (e1 e2 : list Event) :
  keepsFile path w1 w2 e1 -> keepsFile path w2 w3 e2 -> keepsFile path w1 w3 (e1 ++ e2).
Proof.
  intros [Ht1 H1] [Ht2 H2]. split; [now rewrite Ht2, Ht1, app_assoc|].
  destruct H1 as [H1|[from H1]]; [destruct H2 as [H2|[from H2]]|].
  - left. congruence.
  - right. exists from. apply in_app_iff. now right.
  - right. exists from. apply in_app_iff. now left.
Qed.

Lemma treeRename_keeps (path from to : string) (w w' : World) :
  from <> path ->
  treeRename from to w = Ok (tt, w') -> keepsFile path w w' [Renamed from to].
Proof.
  intros Hfrom. unfold treeRename.
  destruct (files w !! from) as [content|]; [|discriminate].
  intros [= <-]. split; [reflexivity|]. cbn [files].
  destruct (decide (to = path)) as [->|Hto].
  - right. exists from. now left.
  - left. now rewrite lookup_insert_ne, lookup_delete_ne.
Qed.

Lemma treeChildren_of_file (dir path content : string) (w : World) :
  files w !! path = Some content -> isUnder dir path = true ->
  (length (treeChildren w dir) =? 0)%nat = false.
Proof.
  intros Hfile Hunder. apply Nat.eqb_neq. intros Hlen.
  apply length_zero_iff_nil in Hlen.
  assert (Hin : childName dir path ∈ treeChildren w dir).
  { unfold treeChildren. apply elem_of_remove_dups, list_elem_of_In, in_map.
    apply filter_In. split; [|exact Hunder].
    unfold paths. apply in_map_iff. exists (path, content). split; [reflexivity|].
    now apply list_elem_of_In, elem_of_map_to_list. }
  rewrite Hlen in Hin. now apply not_elem_of_nil in Hin.
Qed.

Section Unvisited.

Variable ignored : string -> bool.
Variable parseSource : string -> list SourceNode.
Variable compileRegExp : string -> option (string -> bool).
Variable projectConfig : ProjectConfiguration.

Lemma visitFile_keeps (file old new : string) (leaves : option (string * string))
    (path : string) (w w' : World) :
  path <> file ->
  visitFile parseSource compileRegExp old new leaves path w = Ok (tt, w') ->
  exists events, keepsFile file w w' events.
Proof.
  intros Hpath. unfold visitFile.
  destruct (Js.includes path old); cbn [negb];
    [|intros [= <-]; eexists; apply keepsFile_refl].
  unfold bind at 1.
  destruct (treeRename path (migratedPath old new path) w) as [[[] w1]|e] eqn:Hren;
    [|discriminate].
  apply (treeRename_keeps file) in Hren; [|exact Hpath].
  assert (Hdone : exists events, keepsFile file w w1 events) by eauto.
  destruct leaves as [[oldLeaf newLeaf]|]; [|intros [= <-]; exact Hdone].
  destruct (existsb (Js.endsWith path) validFilesEndingsToUpdate);
    [|intros [= <-]; exact Hdone].
  intros [content ->]%(updateImports_inv parseSource compileRegExp).
  exists [Renamed path (migratedPath old new path);
          Written (migratedPath old new path) content].
  destruct Hren as [Ht Hfile]. split; [cbn [trace]; now rewrite Ht, <- app_assoc|].
  cbn [files]. destruct (decide (migratedPath old new path = file)) as [<-|Hne].
  - right. exists path. now left.
  - left. rewrite lookup_insert_ne by exact Hne.
    destruct Hfile as [Hfile|[from [[= _ Hto]|[]]]]; [exact Hfile | contradiction].
Qed.

Lemma forEach_keeps (file old new : string) (leaves : option (string * string))
    (l : list string) (w w' : World) :
  Forall (fun path => path <> file) l ->
  forEach l (visitFile parseSource compileRegExp old new leaves) w = Ok (tt, w') ->
  exists events, keepsFile file w w' events.
Proof.
  intros Hl. revert w. induction Hl as [|path l Hpath Hl IH]; intros w; simpl.
  - intros [= <-]. eexists. apply keepsFile_refl.
  - unfold bind at 1.
    destruct (visitFile parseSource compileRegExp old new leaves path w) as [[[] w1]|e] eqn:Hvisit;
      [|discriminate].
    intros Hrest. apply (visitFile_keeps file) in Hvisit as [e1 H1]; [|exact Hpath].
    apply IH in Hrest as [e2 H2]. eexists. eapply keepsFile_trans; eauto.
Qed.

Lemma renameSupportFile_keeps (file : string) (cfg : JsObject) (supportFile : option JsValue)
    (r : option (string * string)) (w w' : World) :
  (forall old, getProp "supportFile" cfg = Some (JStr old) ->
     Path.joinPathFragments [root projectConfig; old] <> file) ->
  Path.joinPathFragments [sourceRoot projectConfig; "support"; "index.ts"] <> file ->
  renameSupportFile projectConfig cfg supportFile w = Ok (r, w') ->
  exists events, keepsFile file w w' events.
Proof.
  intros Hold Hdefault. unfold renameSupportFile.
  destruct (match getProp "supportFile" cfg with Some v => truthy v | None => false end).
  - unfold bind at 1.
    destruct (pathFragment "supportFile" (getProp "supportFile" cfg) w)
      as [[old w1]|e] eqn:Hfragment; [|discriminate].
    apply pathFragment_inv in Hfragment as [Hfragment ->].
    unfold bind at 1.
    destruct (pathFragment "supportFile" supportFile w) as [[new w1]|e] eqn:Hnew;
      [|discriminate].
    apply pathFragment_inv in Hnew as [_ ->].
    unfold bind at 1.
    match goal with |- context [treeRename ?a ?b w] =>
      destruct (treeRename a b w) as [[[] w1]|e] eqn:Hren end; [|discriminate].
    intros [= <- <-]. apply (treeRename_keeps file) in Hren; eauto.
  - unfold bind at 1, getWorld at 1.
    destruct (treeExists w _); [|intros [= <- <-]; eexists; apply keepsFile_refl].
    unfold bind, emit.
    match goal with |- context [treeRename ?a ?b ?x] =>
      destruct (treeRename a b x) as [[[] w1]|e] eqn:Hren end; [|discriminate].
    intros [= <- <-]. apply (treeRename_keeps file) in Hren as [Ht Hfile]; [|exact Hdefault].
    cbn [trace files] in *. eexists (_ :: _ :: nil). split.
    + rewrite Ht, <- app_assoc. reflexivity.
    + destruct Hfile as [Hfile|[from [[= <- <-]|[]]]]; [now left|].
      right. eexists. right. now left.
Qed.

(** X3: a file that the walk does not visit, because it is ignored or lies
    outside the source root, and that is neither the support file nor the
    old integration folder itself, is not removed by the migration; it keeps
    its content unless another file is moved onto it. *)
Theorem updateProjectPaths_keeps_unvisited_file
    (configs : CypressConfigs) (file content : string) (w w' : World) :
  files w !! file = Some content ->
  ignored file = true \/ isUnder (sourceRoot projectConfig) file = false ->
  (forall old, getProp "supportFile" (cypressConfigJson configs) = Some (JStr old) ->
     Path.joinPathFragments [root projectConfig; old] <> file) ->
  Path.joinPathFragments [sourceRoot projectConfig; "support"; "index.ts"] <> file ->
  (forall old, getProp "integrationFolder" (cypressConfigJson configs) = Some (JStr old) ->
     Path.joinPathFragments [root projectConfig; old] <> file) ->
  updateProjectPaths ignored parseSource compileRegExp projectConfig configs w = Ok (tt, w') ->
  exists events,
    trace w' = trace w ++ events /\
    (files w' !! file = Some content \/ exists from, In (Renamed from file) events).
Proof.
  intros Hfile Hunvisited Hsupport Hdefault Hfolder Hrun.
  unfold updateProjectPaths in Hrun.
  destruct (getProp "e2e" (cypressConfigTs configs)) as [[| | | | |e2e]|] eqn:He2e;
    try discriminate.
  unfold bind at 1 in Hrun. unfold ret at 1 in Hrun.
  unfold bind at 1 in Hrun.
  destruct (pathFragment "integrationFolder"
              (getProp "integrationFolder" (cypressConfigJson configs)) w)
    as [[old w1]|e] eqn:Hold; [|discriminate].
  apply pathFragment_inv in Hold as [Hold ->].
  unfold bind at 1 in Hrun.
  destruct (pathFragment "integrationFolder" (getProp "integrationFolder" e2e) w)
    as [[new w1]|e] eqn:Hnew; [|discriminate].
  apply pathFragment_inv in Hnew as [Hnew ->].
  unfold bind at 1 in Hrun.
  destruct (renameSupportFile projectConfig (cypressConfigJson configs)
              (getProp "supportFile" e2e) w) as [[r w2]|e] eqn:Hrename; [|discriminate].
  apply (renameSupportFile_keeps file) in Hrename as [e1 H1]; [|exact Hsupport|exact Hdefault].
  unfold bind at 1 in Hrun. unfold visitNotIgnoredFiles in Hrun.
  unfold bind at 1 in Hrun. unfold getWorld at 1 in Hrun.
  match type of Hrun with context [forEach ?l ?f w2] =>
    destruct (forEach l f w2) as [[[] w3]|e] eqn:Hvisit end; [|discriminate].
  apply (forEach_keeps file) in Hvisit as [e2 H2].
  2:{ apply Forall_forall. intros path [_ H]%list_elem_of_In%filter_In ->.
      apply andb_true_iff in H as [Hunder Hignored]. apply negb_true_iff in Hignored.
      destruct Hunvisited; congruence. }
  pose proof (keepsFile_trans _ _ _ _ _ _ H1 H2) as [Ht3 H3]. clear H1 H2.
  unfold bind at 1 in Hrun. unfold getWorld at 1 in Hrun.
  specialize (Hfolder old Hold).
  set (oldFolder := Path.joinPathFragments [root projectConfig; old]) in *.
  destruct H3 as [H3|[from H3]].
  - rewrite Hfile in H3.
    destruct (length (treeChildren w3 oldFolder) =? 0)%nat eqn:Hchildren.
    + unfold treeDelete in Hrun. injection Hrun as <-. cbn [trace files].
      exists ((e1 ++ e2) ++ [Deleted oldFolder]).
      split; [now rewrite Ht3, <- !app_assoc|]. left.
      apply map_lookup_filter_Some. split; [exact H3|]. cbn [fst].
      intros [Heq|Hunder]; [now apply Hfolder|].
      now rewrite (treeChildren_of_file _ _ _ _ H3 Hunder) in Hchildren.
    + injection Hrun as <-. exists (e1 ++ e2). split; [exact Ht3 | now left].
  - assert (Hend : exists cleanup, trace w' = trace w3 ++ cleanup).
    { destruct (length (treeChildren w3 oldFolder) =? 0)%nat.
      - apply treeDelete_inv in Hrun as [Ht _]. eauto.
      - injection Hrun as <-. exists []. now rewrite app_nil_r. }
    destruct Hend as [cleanup Ht4]. exists ((e1 ++ e2) ++ cleanup).
    split; [now rewrite Ht4, Ht3, <- !app_assoc|].
    right. exists from. apply in_app_iff. now left.
Qed.

End Unvisited.

(** ** A leaf with a dot *)

Lemma matchHere_with_wildcard (a b : list ascii) (c : ascii) (atStart : bool) :
  RegExp.isLineTerminator c = false ->
  RegExp.matchHere
    (map RegExp.Lit a ++ RegExp.AnyChar :: map RegExp.Lit b ++ [RegExp.EndOfInput])
    atStart (Path.str (a ++ c :: b)) = true.
Proof.
  intros Hc. revert atStart. induction a as [|x a IH]; intros atStart; simpl.
  - rewrite Hc. cbn [negb andb].
    rewrite RegExpFacts.matchHere_literal. apply String.eqb_refl.
  - now rewrite Ascii.eqb_refl, IH.
Qed.

Lemma search_after (atoms : list RegExp.Atom) (before s : string) (atStart : bool) :
  (forall b, RegExp.matchHere atoms b s = true) ->
  RegExp.search atoms atStart (before +:+ s) = true.
Proof.
  intros Hmatch. revert atStart. induction before as [|x before IH]; intros atStart.
  - cbn [String.append]. destruct s; simpl; now rewrite Hmatch.
  - cbn [String.append RegExp.search]. rewrite IH. apply orb_true_r.
Qed.

Lemma endsWith_same_length (before s e : string) :
  String.length s = String.length e ->
  Js.endsWith (before +:+ s) e = String.eqb s e.
Proof.
  intros Hlen. unfold Js.endsWith. rewrite length_append.
  replace (String.length before + String.length s - String.length e)%nat
    with (String.length before) by lia.
  rewrite dropS_append.
  replace (String.length e <=? String.length before + String.length s)%nat with true;
    [reflexivity|]. symmetry. apply Nat.leb_le. lia.
Qed.

(** X6: the old import leaf is put into the selector's regular expression as
    it is, so a dot in it stands for any character: for a leaf [a.b] the
    selector picks every literal that ends with [a], one character other
    than a line terminator, and [b]; unless that character is a dot, the
    literal does not end with the leaf. *)
Theorem selector_dot_matches_any_character (a b before : string) (c : ascii) :
  noRegExpSyntax a = true -> noRegExpSyntax b = true ->
  RegExp.isLineTerminator c = false ->
  RegExp.test (a +:+ "." +:+ b +:+ "$") (before +:+ a +:+ String c b) = Some true /\
  (c <> "."%char -> Js.endsWith (before +:+ a +:+ String c b) (a +:+ "." +:+ b) = false).
Proof.
  intros Ha Hb Hc. split.
  - unfold RegExp.test, noRegExpSyntax in *.
    rewrite <- (PathFacts.str_chars a), <- (PathFacts.str_chars b).
    rewrite (RegExpFacts.parse_plain _ _ Ha). cbn [String.append RegExp.parse].
    cbn. rewrite (RegExpFacts.parse_plain _ _ Hb). cbn.
    f_equal. apply search_after. intros atStart.
    change (String c (Path.str (Path.chars b))) with (Path.str (c :: Path.chars b)).
    rewrite <- PathFacts.str_app. now apply matchHere_with_wildcard.
  - intros Hdot. rewrite endsWith_same_length.
    + apply String.eqb_neq. intros Heq.
      rewrite <- (PathFacts.str_chars a) in Heq.
      change (String c b) with (Path.str [c] +:+ b) in Heq.
      revert Heq. generalize (Path.chars a). intros l. induction l as [|x l IH]; simpl.
      * intros [= Heq]. now apply Hdot.
      * intros [= Heq]. now apply IH.
    + rewrite !length_append. reflexivity.
Qed.

(** ** Edge cases of the migration and the rewrite *)

Section Edges.

Variable ignored : string -> bool.
Variable parseJson : string -> option JsObject.
Variable parseSource : string -> list SourceNode.
Variable compileRegExp : string -> option (string -> bool).
Variable projectConfig : ProjectConfiguration.

(** X13: a legacy config without [integrationFolder] cannot be migrated.  The
    translator gives the new config the default folder [src/e2e], but the
    migration joins the project's root with the legacy config's own value,
    which is undefined: it throws a TypeError before anything is moved. *)
Theorem updateProjectPaths_needs_integrationFolder
    (jsonPath : string) (configs : CypressConfigs) (w w1 : World) :
  createNewCypressConfig parseJson projectConfig jsonPath w = Ok (configs, w1) ->
  getProp "integrationFolder" (cypressConfigJson configs) = None ->
  (exists e2e,
     getProp "e2e" (cypressConfigTs configs) = Some (JObj e2e) /\
     getProp "integrationFolder" e2e = Some (JStr "src/e2e")) /\
  updateProjectPaths ignored parseSource compileRegExp projectConfig configs w1 =
    Err (TypeError "integrationFolder").
Proof.
  intros Hcreate Hnone. apply createNewCypressConfig_inv in Hcreate as [-> Hts].
  split.
  - exists (e2eConfig w projectConfig (cypressConfigJson configs)).
    rewrite Hts. split; [apply newCypressConfig_e2e|].
    unfold e2eConfig. rewrite getProp_setProp_eq, Hnone. cbn [withDefault].
    now destruct (treeExists w _).
  - unfold updateProjectPaths. rewrite Hts, newCypressConfig_e2e, Hnone. reflexivity.
Qed.

Lemma rewrittenContent_without_match (nodes : list SourceNode) (atoms : list RegExp.Atom)
    (old new : string) :
  (forall quote text, In (StringLiteral quote text) nodes ->
     RegExp.search atoms true text = false) ->
  rewrittenContent nodes atoms old new = concatStrings (map nodeSource nodes).
Proof.
  unfold rewrittenContent, tsqueryReplace. induction nodes as [|n nodes IH]; intros Hnone.
  - reflexivity.
  - cbn [map concatStrings]. rewrite IH by (intros q t H; apply (Hnone q t); now right).
    f_equal. destruct n as [s|q t]; [reflexivity|].
    rewrite (Hnone q t) by now left. reflexivity.
Qed.

(** X14: a file without a matching import keeps its text.  When the old
    import path holds no slash and no regular-expression syntax, the parser
    gives back the whole text of the file, and no string literal of the file
    ends with the old import path, [updateImports] writes the file's own
    content back: the files of the tree are as before. *)
Theorem updateImports_without_match
    (filePath oldImportPath newImportPath content : string) (w : World) :
  files w !! filePath = Some content ->
  Js.includes oldImportPath "/" = false ->
  noRegExpSyntax oldImportPath = true ->
  concatStrings (map nodeSource (parseSource content)) = content ->
  (forall quote text, In (StringLiteral quote text) (parseSource content) ->
     Js.endsWith text oldImportPath = false) ->
  updateImports parseSource compileRegExp filePath oldImportPath newImportPath w =
    Ok (tt, mkWorld (files w) (trace w ++ [Written filePath content])).
Proof.
  intros Hfile Hslash Hplain Hlossless Hnone.
  assert (Hpattern : endOfImportPattern oldImportPath = Some (oldImportPath +:+ "$")).
  { unfold endOfImportPattern. now rewrite Hslash. }
  pose proof Hplain as Hparse. unfold noRegExpSyntax in Hparse.
  apply (RegExpFacts.parse_plain _ "$") in Hparse.
  rewrite PathFacts.str_chars in Hparse. cbn [RegExp.parse] in Hparse.
  cbn in Hparse.
  rewrite (updateImports_fragment parseSource compileRegExp _ _ _ _ _ _ _
             Hfile Hpattern Hparse).
  rewrite rewrittenContent_without_match, Hlossless.
  - now rewrite insert_id.
  - intros quote text Hin.
    rewrite (RegExpFacts.selector_plain oldImportPath _ true text Hplain).
    + now apply (Hnone quote).
    + exact Hparse.
Qed.

End Edges.

(** X15: the legacy option [modifyObstructiveCode] has no part in the
    conversion: whatever value a legacy config gives it, the new config is
    the same, at the top level and in its [e2e] object. *)
Theorem newCypressConfig_ignores_modifyObstructiveCode
    (w : World) (projectConfig : ProjectConfiguration) (cfg : JsObject) (v : JsValue) :
  newCypressConfig w projectConfig (setProp "modifyObstructiveCode" v cfg) =
    newCypressConfig w projectConfig cfg /\
  getProp "modifyObstructiveCode" (newCypressConfig w projectConfig cfg) = None /\
  getProp "modifyObstructiveCode" (e2eConfig w projectConfig cfg) = None.
Proof.
  split; [|split].
  - unfold newCypressConfig, e2eConfig. rewrite !getProp_setProp_ne by discriminate.
    now rewrite restOf_setProp_dropped.
  - unfold newCypressConfig. rewrite getProp_setProp_ne by discriminate.
    now destruct (truthy _).
  - unfold e2eConfig. rewrite !getProp_setProp_ne by discriminate.
    now apply getProp_restOf_dropped.
Qed.

(** ** The old leaf is a single path component *)

Lemma takeWhile_forallb (f : ascii -> bool) (l : list ascii) :
  forallb f (Path.takeWhile f l) = true.
Proof.
  induction l as [|c l IH]; simpl; [reflexivity|].
  destruct (f c) eqn:Hc; simpl; [now rewrite Hc | reflexivity].
Qed.

Lemma takeWhile_dropWhile (f : ascii -> bool) (l : list ascii) :
  Path.takeWhile f l ++ Path.dropWhile f l = l.
Proof.
  induction l as [|c l IH]; simpl; [reflexivity|].
  destruct (f c); simpl; [now rewrite IH | reflexivity].
Qed.

Lemma lastComponent_notSlash (p : list ascii) :
  forallb Path.notSlash (Path.lastComponent p) = true.
Proof.
  unfold Path.lastComponent, Path.lastComponentRev.
  rewrite PathFacts.forallb_rev. apply takeWhile_forallb.
Qed.

Lemma forallb_firstn (f : ascii -> bool) (n : nat) (l : list ascii) :
  forallb f l = true -> forallb f (firstn n l) = true.
Proof.
  revert n. induction l as [|c l IH]; intros [|n]; simpl; auto.
  intros [Hc Hl]%andb_true_iff. rewrite Hc. now apply IH.
Qed.

Lemma includes_without_slash (s : string) :
  forallb Path.notSlash (Path.chars s) = true -> Js.includes s "/" = false.
Proof.
  unfold Js.includes. induction s as [|c s IH]; [reflexivity|].
  cbn [Path.chars list_ascii_of_string forallb]. intros [Hc Hs]%andb_true_iff.
  rewrite splitFirst_eq. cbn [String.prefix].
  destruct (ascii_dec "/" c) as [<-|_]; [discriminate|].
  specialize (IH Hs). now destruct (Js.splitFirst "/" s) as [[b a]|].
Qed.

(** A non-empty extension is the end of the last component. *)
Lemma extname_of_component (path : string) :
  Path.extname path = EmptyString \/
  exists a, Path.lastComponent (Path.chars path) = a ++ Path.chars (Path.extname path).
Proof.
  unfold Path.extname, Path.lastComponent.
  set (rc := Path.lastComponentRev (Path.chars path)).
  pose proof (takeWhile_dropWhile Path.notDot rc) as Hsplit.
  destruct (Path.dropWhile Path.notDot rc) as [|dot [|b before]]; [now left..|].
  destruct ((length (Path.takeWhile Path.notDot rc) =? 0)%nat &&
            Path.eqChars (b :: before) ["."%char]); [now left|].
  right. exists (rev (b :: before)).
  set (ext := Path.takeWhile Path.notDot rc) in *. clearbody ext.
  rewrite <- Hsplit, rev_app_distr, PathFacts.chars_str. cbn [rev].
  now rewrite <- !app_assoc.
Qed.

Lemma basename_without_extension_notSlash (path : string) :
  forallb Path.notSlash (Path.chars (Path.basename path (Path.extname path))) = true.
Proof.
  pose proof (lastComponent_notSlash (Path.chars path)) as Hcomp.
  unfold Path.basename.
  destruct (extname_of_component path) as [->|[a Ha]].
  - cbn [Path.chars list_ascii_of_string length Nat.eqb orb].
    now rewrite PathFacts.chars_str.
  - set (sfx := Path.chars (Path.extname path)) in *.
    destruct ((length sfx =? 0)%nat || (length (Path.chars path) <? length sfx)%nat) eqn:Hfit;
      [now rewrite PathFacts.chars_str|].
    apply orb_false_iff in Hfit as [Hsfx _]. apply Nat.eqb_neq in Hsfx.
    destruct (String.eqb (Path.extname path) path); [reflexivity|].
    rewrite Ha in *.
    destruct (length (a ++ sfx) =? 0)%nat eqn:Hlen.
    { apply Nat.eqb_eq in Hlen. rewrite length_app in Hlen. lia. }
    destruct (Path.eqChars (a ++ sfx) sfx); [now rewrite PathFacts.chars_str|].
    rewrite PathFacts.endsWithChars_app, PathFacts.chars_str.
    now apply forallb_firstn.
Qed.

Lemma basename_notSlash (path : string) :
  forallb Path.notSlash (Path.chars (Path.basename path EmptyString)) = true.
Proof.
  unfold Path.basename. cbn [Path.chars list_ascii_of_string length Nat.eqb orb].
  rewrite PathFacts.chars_str. apply lastComponent_notSlash.
Qed.

(** X16: the old import leaf is a single path component: whatever the path
    of the old support file, the leaf holds no slash, so the selector's
    regular expression [/<leaf>$/] is never cut short at a slash. *)
Theorem oldImportLeaf_without_slash (oldSupportFile : string) :
  Js.includes (oldImportLeaf oldSupportFile) "/" = false /\
  endOfImportPattern (oldImportLeaf oldSupportFile) =
    Some (oldImportLeaf oldSupportFile +:+ "$").
Proof.
  assert (H : Js.includes (oldImportLeaf oldSupportFile) "/" = false).
  { apply includes_without_slash. unfold oldImportLeaf.
    destruct (String.eqb _ "index");
      [apply basename_notSlash | apply basename_without_extension_notSlash]. }
  split; [exact H|]. unfold endOfImportPattern. now rewrite H.
Qed.

(** ** A support file that stays where it is *)

Lemma supportFile_leaves (prefix parent base ext : string) :
  prefix = EmptyString \/ (exists d, prefix = d +:+ "/") ->
  isName parent = true -> isName base = true -> isPlainName ext = true ->
  let supportFile := prefix +:+ parent +:+ "/" +:+ base +:+ "." +:+ ext in
  Path.basename supportFile (Path.extname supportFile) = base /\
  Path.basename (Path.dirname supportFile) EmptyString = parent.
Proof.
  intros Hprefix Hparent Hbase Hext supportFile.
  assert (Hdir : opensComponent (Path.chars (prefix +:+ parent +:+ "/"))).
  { apply opensComponent_prefix. right. exists (prefix +:+ parent).
    now rewrite append_assoc. }
  assert (Hfile : supportFile = (prefix +:+ parent +:+ "/") +:+ base +:+ "." +:+ ext).
  { unfold supportFile. now rewrite !append_assoc. }
  split.
  - rewrite Hfile, PathFacts.extname_file by assumption.
    now apply PathFacts.basename_file.
  - destruct (PathFacts.isName_chars parent Hparent) as (c & l & Hpc & Hc & _).
    replace (Path.dirname supportFile) with (prefix +:+ parent);
      [apply PathFacts.basename_name; [now apply opensComponent_prefix | exact Hparent]|].
    symmetry. unfold supportFile. rewrite <- append_assoc.
    apply PathFacts.dirname_file.
    + intros H. apply (f_equal Path.chars) in H.
      rewrite PathFacts.chars_append, Hpc in H. now destruct (Path.chars prefix).
    + intros H. apply (f_equal Path.chars) in H.
      rewrite PathFacts.chars_append, Hpc in H. simpl in H.
      destruct (Path.chars prefix) as [|x [|y r]]; simpl in H.
      * injection H as -> _. discriminate.
      * injection H as _ H. discriminate.
      * injection H as _ H. discriminate.
    + rewrite PathFacts.chars_fileName. apply PathFacts.fileName_nonempty.
    + rewrite PathFacts.chars_fileName. now apply PathFacts.fileName_notSlash.
Qed.

(** X8: a support file [<parentDir>/<base>.<ext>] that is not an index file
    and stays at its path still has two different leaves, [<base>] as the
    old one and [<parentDir>/<base>] as the new one.  When the base holds no
    regular-expression syntax, [updateImports] with these leaves picks a
    literal that ends with [<base>] (and holds it nowhere before) and writes
    it back with the parent directory put in, although the file did not
    move. *)
Theorem unmoved_support_file_import
    (parseSource : string -> list SourceNode)
    (compileRegExp : string -> option (string -> bool))
    (prefix parent base ext before filePath content : string)
    (nodesBefore nodesAfter : list SourceNode) (quote : ascii) (w : World) :
  prefix = EmptyString \/ (exists d, prefix = d +:+ "/") ->
  isName parent = true -> isName base = true -> isPlainName ext = true ->
  String.eqb base "index" = false ->
  noDollar parent = true -> noDollar base = true ->
  noRegExpSyntax base = true ->
  Js.splitFirst base (before +:+ base) = Some (before, EmptyString) ->
  treeRead w filePath = Some content ->
  parseSource content =
    nodesBefore ++ StringLiteral quote (before +:+ base) :: nodesAfter ->
  let supportFile := prefix +:+ parent +:+ "/" +:+ base +:+ "." +:+ ext in
  oldImportLeaf supportFile = base /\
  newImportLeaf supportFile = parent +:+ "/" +:+ base /\
  exists atoms,
    RegExp.parse (base +:+ "$") = Some atoms /\
    let newContent :=
      rewrittenContent nodesBefore atoms base (parent +:+ "/" +:+ base) +:+
      "'" +:+ before +:+ parent +:+ "/" +:+ base +:+ "'" +:+
      rewrittenContent nodesAfter atoms base (parent +:+ "/" +:+ base) in
    updateImports parseSource compileRegExp filePath
      (oldImportLeaf supportFile) (newImportLeaf supportFile) w =
    Ok (tt, mkWorld (<[filePath := newContent]> (files w))
                    (trace w ++ [Written filePath newContent])).
Proof.
  intros Hprefix Hparent Hbase Hext Hindex Hdp Hdb Hplain Hsplit Hread Hnodes supportFile.
  destruct (supportFile_leaves prefix parent base ext Hprefix Hparent Hbase Hext)
    as [Hbasename Hparentdir].
  assert (Hold : oldImportLeaf supportFile = base).
  { unfold oldImportLeaf. fold supportFile in Hbasename. now rewrite Hbasename, Hindex. }
  assert (Hnew : newImportLeaf supportFile = parent +:+ "/" +:+ base).
  { unfold newImportLeaf. fold supportFile in Hbasename, Hparentdir.
    rewrite Hbasename, Hparentdir. now apply PathFacts.joinPathFragments_names. }
  split; [exact Hold|]. split; [exact Hnew|]. rewrite Hold, Hnew.
  assert (Hslash : Js.includes base "/" = false).
  { apply includes_without_slash. rewrite <- Hbasename.
    apply basename_without_extension_notSlash. }
  assert (Hpattern : endOfImportPattern base = Some (base +:+ "$")).
  { unfold endOfImportPattern. now rewrite Hslash. }
  pose proof Hplain as Hparse. unfold noRegExpSyntax in Hparse.
  apply (RegExpFacts.parse_plain _ "$") in Hparse.
  rewrite PathFacts.str_chars in Hparse. cbn in Hparse.
  eexists. split; [exact Hparse|]. intros newContent.
  rewrite (updateImports_fragment parseSource compileRegExp _ _ _ _ _ _ _
             Hread Hpattern Hparse), Hnodes.
  assert (Hmatch : RegExp.search (map RegExp.Lit (Path.chars base) ++ [RegExp.EndOfInput])
                     true (before +:+ base) = true).
  { rewrite (RegExpFacts.selector_plain base _ true _ Hplain Hparse).
    apply splitFirst_Some in Hsplit. unfold Js.endsWith.
    rewrite length_append.
    replace (String.length before + String.length base - String.length base)%nat
      with (String.length before) by lia.
    rewrite dropS_append, String.eqb_refl, andb_true_r. apply Nat.leb_le. lia. }
  rewrite (rewrittenContent_at_literal _ _ _ _ _ _ _ Hmatch).
  assert (Hreplace : Js.replace (before +:+ base) base (parent +:+ "/" +:+ base) =
                     before +:+ parent +:+ "/" +:+ base).
  { unfold Js.replace. rewrite Hsplit.
    rewrite getSubstitution_plain, append_empty_r; [reflexivity|].
    unfold noDollar in *. rewrite !PathFacts.chars_append, !forallb_app, Hdp, Hdb.
    reflexivity. }
  rewrite Hreplace. subst newContent. now rewrite !append_assoc.
Qed.

(** ** Paths that start with the old folder's name *)

(** X17: the visitor looks for the old integration folder as a substring of
    the path, not as a directory of it: a file whose path starts with the old
    folder's path is moved to the new folder's path followed by the same
    rest, whatever the rest is; so a file in a sibling folder whose name
    starts with the old folder's name moves too.  (The new folder holds no
    dollar sign and the file's name no [.spec.].) *)
Theorem visitFile_moves_by_substring
    (parseSource : string -> list SourceNode)
    (compileRegExp : string -> option (string -> bool))
    (oldIntegrationFolder newIntegrationFolder rest content : string) (w : World) :
  noDollar newIntegrationFolder = true ->
  Js.includes (Path.basename (oldIntegrationFolder +:+ rest) EmptyString) ".spec." = false ->
  files w !! (oldIntegrationFolder +:+ rest) = Some content ->
  visitFile parseSource compileRegExp oldIntegrationFolder newIntegrationFolder None
    (oldIntegrationFolder +:+ rest) w =
  Ok (tt, mkWorld (<[newIntegrationFolder +:+ rest := content]>
                     (delete (oldIntegrationFolder +:+ rest) (files w)))
                  (trace w ++ [Renamed (oldIntegrationFolder +:+ rest)
                                       (newIntegrationFolder +:+ rest)])).
Proof.
  intros Hnew Hmarker Hfile. unfold visitFile.
  pose proof (includes_append EmptyString oldIntegrationFolder rest) as Hin.
  cbn [String.append] in Hin. rewrite Hin. cbn [negb].
  unfold migratedPath. rewrite Hmarker, (replace_at_start _ _ _ Hnew).
  unfold bind, treeRename. now rewrite Hfile.
Qed.

(** ** The generator's entry point *)

Section GeneratorFacts.

Variable installedCypressVersion : Z.
Variable ignored : string -> bool.
Variable parseJson : string -> option JsObject.
Variable parseSource : string -> list SourceNode.
Variable compileRegExp : string -> option (string -> bool).
Variable render : Inspected -> string.

Lemma verifyProjectForUpgrade_skips (projectConfig : ProjectConfiguration)
    (target : string) (w : World) :
  (installedCypressVersion < 8)%Z \/ treeExists w (newConfigPath projectConfig) = true ->
  exists check warnings,
    verifyProjectForUpgrade installedCypressVersion projectConfig target w =
      Ok (check, mkWorld (files w) (trace w ++ warnings)) /\
    shouldUpgrade check = false /\
    Forall (eq (Warned upgradeWarning)) warnings /\
    ((8 <= installedCypressVersion)%Z -> warnings = []).
Proof.
  intros Hskip. unfold verifyProjectForUpgrade.
  destruct (targets projectConfig ≫= _) as [t|].
  - destruct (installedCypressVersion <? 8)%Z eqn:Hv.
    + eexists _, [Warned upgradeWarning]. split; [reflexivity|].
      split; [reflexivity|]. split; [repeat constructor|].
      apply Z.ltb_lt in Hv. lia.
    + apply Z.ltb_ge in Hv. destruct Hskip as [Hlt|Hts]; [lia|].
      eexists _, []. unfold bind, getWorld, ret. rewrite app_nil_r.
      split; [destruct w; reflexivity|]. simpl. rewrite Hts.
      split; [|split; [constructor | reflexivity]].
      destruct (memberExecutor t) as [e|]; [|reflexivity].
      destruct (String.eqb e legacyExecutor); [apply andb_false_r | reflexivity].
  - exists (mkCheck false None None), []. unfold ret. rewrite app_nil_r.
    split; [destruct w; reflexivity|]. repeat split. constructor.
Qed.

Lemma convertTargets_skips (name : string) (projectConfig : StoredProject)
    (rest : list string) (ws : Workspace) :
  (installedCypressVersion < 8)%Z \/
  treeExists (tree ws) (newConfigPath (projectConfiguration projectConfig)) = true ->
  exists warnings,
    convertTargets installedCypressVersion ignored parseJson parseSource compileRegExp render
      name projectConfig rest ws =
      Completed (mkWorkspace (mkWorld (files (tree ws)) (trace (tree ws) ++ warnings))
                             (projects ws)) /\
    Forall (eq (Warned upgradeWarning)) warnings /\
    ((8 <= installedCypressVersion)%Z -> warnings = []).
Proof.
  revert ws. induction rest as [|target rest IH]; intros ws Hskip.
  - exists []. rewrite app_nil_r. destruct ws as [[f t] ps]. repeat split. constructor.
  - destruct (verifyProjectForUpgrade_skips (projectConfiguration projectConfig) target
                (tree ws) Hskip) as (check & warnings & Hverify & Hcheck & Hw & Hnone).
    cbn [convertTargets]. rewrite Hverify, Hcheck. cbn [negb].
    destruct (IH (mkWorkspace (mkWorld (files (tree ws)) (trace (tree ws) ++ warnings))
                    (projects ws))) as (more & Hrest & Hmore & Hnone').
    { destruct Hskip as [Hlt|Hts]; [now left | right]. exact Hts. }
    exists (warnings ++ more). rewrite Hrest. cbn [tree files trace projects].
    rewrite <- app_assoc. split; [reflexivity|]. split; [now apply Forall_app|].
    intros Hv. now rewrite Hnone, Hnone'.
Qed.

(** X9: a project that already has its [cypress.config.ts], or a workspace
    with a Cypress older than version 8, is left as it is whatever targets
    are listed: no file and no project changes, and the only events are the
    warnings of the version gate. *)
Theorem updateProject_without_eligible_target
    (options : CypressConvertOptions) (projectConfig : StoredProject) (ws : Workspace) :
  projects ws !! project options = Some projectConfig ->
  (installedCypressVersion < 8)%Z \/
  treeExists (tree ws) (newConfigPath (projectConfiguration projectConfig)) = true ->
  exists ws' warnings,
    updateProject installedCypressVersion ignored parseJson parseSource compileRegExp render
      options ws =
      Completed ws' /\
    files (tree ws') = files (tree ws) /\
    projects ws' = projects ws /\
    trace (tree ws') = trace (tree ws) ++ warnings /\
    Forall (eq (Warned upgradeWarning)) warnings /\
    ((8 <= installedCypressVersion)%Z -> ws' = ws).
Proof.
  intros Hproject Hskip. unfold updateProject, readProjectConfiguration. rewrite Hproject.
  destruct (convertTargets_skips (project options) projectConfig (targetNames options) ws
              Hskip) as (warnings & Hrun & Hwarnings & Hnone).
  eexists _, warnings. split; [exact Hrun|]. cbn [tree files trace projects].
  repeat split; auto.
  intros Hv. rewrite (Hnone Hv), app_nil_r. now destruct ws as [[f t] ps].
Qed.

Lemma verifyProjectForUpgrade_eligible_inv (projectConfig : ProjectConfiguration)
    (target pathJson pathTs : string) (w w' : World) :
  verifyProjectForUpgrade installedCypressVersion projectConfig target w =
    Ok (mkCheck true (Some pathJson) (Some pathTs), w') ->
  w' = w /\ (8 <= installedCypressVersion)%Z /\
  pathTs = newConfigPath projectConfig /\
  treeExists w pathJson = true /\ treeExists w pathTs = false.
Proof.
  unfold verifyProjectForUpgrade.
  destruct (targets projectConfig ≫= _) as [t|]; [|discriminate].
  destruct (installedCypressVersion <? 8)%Z eqn:Hv; [discriminate|].
  apply Z.ltb_ge in Hv. unfold bind, getWorld, ret.
  destruct (match memberExecutor t with
            | Some e => String.eqb e legacyExecutor
            | None => false
            end); [|discriminate].
  intros [= Hup <- <- <-]. apply andb_true_iff in Hup as [Hjson Hts].
  apply negb_true_iff in Hts. repeat split; auto.
Qed.

Lemma convertFiles_inv (projectConfig : ProjectConfiguration) (pathJson pathTs : string)
    (w w' : World) :
  convertFiles ignored parseJson parseSource compileRegExp render projectConfig pathJson pathTs w =
    Ok (tt, w') ->
  pathJson <> pathTs -> isUnder pathJson pathTs = false ->
  exists text cfg,
    files w !! pathJson = Some text /\ parseJson text = Some cfg /\
    files w' !! pathTs = Some (newConfigSource render (e2eConfig w projectConfig cfg)) /\
    files w' !! pathJson = None.
Proof.
  intros Hrun Hne Hunder. unfold convertFiles in Hrun. unfold bind at 1 in Hrun.
  destruct (createNewCypressConfig parseJson projectConfig pathJson w)
    as [[configs w1]|e] eqn:Hcreate; [|discriminate].
  assert (Hread : exists text, files w !! pathJson = Some text /\
                    parseJson text = Some (cypressConfigJson configs) /\ w1 = w /\
                    cypressConfigTs configs =
                      newCypressConfig w projectConfig (cypressConfigJson configs)).
  { revert Hcreate. unfold createNewCypressConfig, readJson, bind, getWorld, ret, throw, treeRead.
    destruct (files w !! pathJson) as [text|]; [|discriminate].
    destruct (parseJson text) as [cfg|] eqn:Hparse; [|discriminate].
    intros [= <- <-]. exists text. repeat split. exact Hparse. }
  destruct Hread as (text & Htext & Hparse & -> & Hts).
  unfold bind at 1 in Hrun.
  destruct (updateProjectPaths ignored parseSource compileRegExp projectConfig configs w)
    as [[[] w2]|e] eqn:Hpaths; [|discriminate].
  unfold bind at 1 in Hrun. unfold writeNewConfig in Hrun.
  rewrite Hts, newCypressConfig_e2e in Hrun.
  unfold treeWrite, treeDelete in Hrun. injection Hrun as <-.
  exists text, (cypressConfigJson configs). split; [exact Htext|]. split; [exact Hparse|].
  cbn [files]. split.
  - apply map_lookup_filter_Some. split; [apply lookup_insert_eq|].
    cbn [fst]. intros [->|H]; [now apply Hne | congruence].
  - apply map_lookup_filter_None. right. intros c _ H. apply H. now left.
Qed.

Lemma convertTargets_converted (name : string) (projectConfig : StoredProject)
    (rest : list string) (ws : Workspace) :
  (8 <= installedCypressVersion)%Z ->
  treeExists (tree ws) (newConfigPath (projectConfiguration projectConfig)) = true ->
  convertTargets installedCypressVersion ignored parseJson parseSource compileRegExp render
    name projectConfig rest ws = Completed ws.
Proof.
  intros Hv Hts.
  destruct (convertTargets_skips name projectConfig rest ws (or_intror Hts))
    as (warnings & Hrun & _ & Hnone).
  rewrite Hrun, (Hnone Hv), app_nil_r. now destruct ws as [[f t] ps].
Qed.

Lemma convertTargets_first_eligible (name target : string) (rest : list string)
    (projectConfig : StoredProject) (pathJson pathTs : string) (ws : Workspace) :
  verifyProjectForUpgrade installedCypressVersion (projectConfiguration projectConfig)
    target (tree ws) = Ok (mkCheck true (Some pathJson) (Some pathTs), tree ws) ->
  isUnder pathJson pathTs = false ->
  convertTargets installedCypressVersion ignored parseJson parseSource compileRegExp render
    name projectConfig (target :: rest) ws =
  match convertFiles ignored parseJson parseSource compileRegExp render
          (projectConfiguration projectConfig) pathJson pathTs (tree ws) with
  | Err e => Failed (Thrown e)
  | Ok (_, w') =>
      Completed (updateProjectConfiguration name
                   (withConvertedOptions projectConfig target pathTs)
                   (mkWorkspace w' (projects ws)))
  end.
Proof.
  intros Hverify Hunder.
  destruct (verifyProjectForUpgrade_eligible_inv _ _ _ _ _ _ Hverify)
    as (_ & Hv & Hts & Hjson & Hnew).
  cbn [convertTargets]. rewrite Hverify.
  cbn [shouldUpgrade negb cypressConfigPathJson cypressConfigPathTs].
  destruct (convertFiles ignored parseJson parseSource compileRegExp render
              (projectConfiguration projectConfig) pathJson pathTs (tree ws))
    as [[[] w']|e] eqn:Hfiles; [|reflexivity].
  apply convertTargets_converted; [exact Hv|].
  apply convertFiles_inv in Hfiles as (text & cfg & _ & _ & Hfile & _);
    [|congruence|exact Hunder].
  cbn [updateProjectConfiguration tree]. unfold treeExists.
  change (newConfigPath (projectConfiguration (withConvertedOptions projectConfig target pathTs)))
    with (newConfigPath (projectConfiguration projectConfig)).
  rewrite <- Hts, Hfile. reflexivity.
Qed.

(** X10: a run of [updateProject] converts at most one target.  Once the
    first target that is to be upgraded has been converted, the project has
    its [cypress.config.ts], so no target after it is upgraded: the run ends
    as if that target were the last one listed.  (The old config file is a
    file, not a directory above the new config file.) *)
Theorem updateProject_converts_once
    (name target : string) (rest : list string) (projectConfig : StoredProject)
    (pathJson pathTs : string) (ws : Workspace) :
  projects ws !! name = Some projectConfig ->
  verifyProjectForUpgrade installedCypressVersion (projectConfiguration projectConfig)
    target (tree ws) = Ok (mkCheck true (Some pathJson) (Some pathTs), tree ws) ->
  isUnder pathJson pathTs = false ->
  updateProject installedCypressVersion ignored parseJson parseSource compileRegExp render
    (mkConvertOptions name (target :: rest)) ws =
  updateProject installedCypressVersion ignored parseJson parseSource compileRegExp render
    (mkConvertOptions name [target]) ws.
Proof.
  intros Hproject Hverify Hunder.
  unfold updateProject, readProjectConfiguration. cbn [project targetNames].
  rewrite Hproject.
  now rewrite !(convertTargets_first_eligible name target _ projectConfig pathJson pathTs ws
                  Hverify Hunder).
Qed.

Lemma verifyProjectForUpgrade_target (projectConfig : ProjectConfiguration)
    (target : string) (check : UpgradeCheck) (w w' : World) :
  verifyProjectForUpgrade installedCypressVersion projectConfig target w = Ok (check, w') ->
  shouldUpgrade check = true ->
  is_Some (targets projectConfig ≫= (fun ts => ts !! target)).
Proof.
  unfold verifyProjectForUpgrade.
  destruct (targets projectConfig) as [ts|]; cbn [mbind option_bind];
    [|intros [= <- <-]; discriminate].
  unfold targetMember. destruct (ts !! target) as [t|]; [eauto|].
  destruct (existsb (String.eqb target) objectPrototypeKeys);
    [|intros [= <- <-]; discriminate].
  cbn [memberExecutor memberOptions].
  destruct (installedCypressVersion <? 8)%Z; intros [= <- <-]; discriminate.
Qed.

(** X11: what the conversion of a target leaves behind, when the run
    completes.  The old config file is gone, the new config file holds the
    text emitted for the translated config, and the project is stored with
    the target's options pointing to the new config file and with
    [testingType] set to [e2e]; the target's executor and other options and
    the other targets are as before. *)
Theorem updateProject_converts_target
    (name target : string) (rest : list string) (projectConfig : StoredProject)
    (pathJson pathTs : string) (ws ws' : Workspace) :
  projects ws !! name = Some projectConfig ->
  verifyProjectForUpgrade installedCypressVersion (projectConfiguration projectConfig)
    target (tree ws) = Ok (mkCheck true (Some pathJson) (Some pathTs), tree ws) ->
  isUnder pathJson pathTs = false ->
  updateProject installedCypressVersion ignored parseJson parseSource compileRegExp render
    (mkConvertOptions name (target :: rest)) ws = Completed ws' ->
  exists text cfg t,
    files (tree ws) !! pathJson = Some text /\ parseJson text = Some cfg /\
    storedTargets projectConfig ≫= (fun ts => ts !! target) = Some t /\
    files (tree ws') !! pathJson = None /\
    files (tree ws') !! pathTs =
      Some (newConfigSource render
              (e2eConfig (tree ws) (projectConfiguration projectConfig) cfg)) /\
    projects ws' = <[name := withConvertedOptions projectConfig target pathTs]> (projects ws) /\
    storedTargets (withConvertedOptions projectConfig target pathTs)
      ≫= (fun ts => ts !! target) =
      Some (mkStoredTarget (storedExecutor t)
              (Some (mkStoredOptions (Some pathTs)
                       (setProp "testingType" (JStr "e2e")
                          (match storedOptions t with
                           | Some o => otherOptions o
                           | None => []
                           end))))) /\
    (forall other, other <> target ->
       storedTargets (withConvertedOptions projectConfig target pathTs)
         ≫= (fun ts => ts !! other) =
       storedTargets projectConfig ≫= (fun ts => ts !! other)).
Proof.
  intros Hproject Hverify Hunder Hrun.
  destruct (verifyProjectForUpgrade_eligible_inv _ _ _ _ _ _ Hverify)
    as (_ & Hv & Hts & Hjson & Hnew).
  destruct (verifyProjectForUpgrade_target _ _ _ _ _ Hverify eq_refl) as [t0 Ht0].
  unfold updateProject, readProjectConfiguration in Hrun. cbn [project targetNames] in Hrun.
  rewrite Hproject in Hrun.
  rewrite (convertTargets_first_eligible name target rest projectConfig pathJson pathTs ws
             Hverify Hunder) in Hrun.
  destruct (convertFiles ignored parseJson parseSource compileRegExp render
              (projectConfiguration projectConfig) pathJson pathTs (tree ws))
    as [[[] w']|e] eqn:Hfiles; [|discriminate].
  injection Hrun as <-.
  apply convertFiles_inv in Hfiles as (text & cfg & Htext & Hparse & Hnewfile & Hgone);
    [|congruence|exact Hunder].
  destruct projectConfig as [r sr [ts|]]; [|discriminate]. cbn in Ht0.
  rewrite lookup_fmap in Ht0. destruct (ts !! target) as [t|] eqn:Ht; [|discriminate].
  exists text, cfg, t. cbn.
  split; [exact Htext|]. split; [exact Hparse|]. split; [exact Ht|].
  split; [exact Hgone|]. split; [exact Hnewfile|]. split; [reflexivity|]. split.
  - etrans; [apply lookup_alter_eq|]. rewrite Ht. reflexivity.
  - intros other Hother. now apply lookup_alter_ne.
Qed.

(** X12: a second run changes nothing.  After a run that converted a target,
    [updateProject] on the same project, with whatever targets, leaves the
    tree, the events and the project store as they are. *)
Theorem updateProject_second_run
    (name target : string) (rest again : list string) (projectConfig : StoredProject)
    (pathJson pathTs : string) (ws ws' : Workspace) :
  projects ws !! name = Some projectConfig ->
  verifyProjectForUpgrade installedCypressVersion (projectConfiguration projectConfig)
    target (tree ws) = Ok (mkCheck true (Some pathJson) (Some pathTs), tree ws) ->
  isUnder pathJson pathTs = false ->
  updateProject installedCypressVersion ignored parseJson parseSource compileRegExp render
    (mkConvertOptions name (target :: rest)) ws = Completed ws' ->
  updateProject installedCypressVersion ignored parseJson parseSource compileRegExp render
    (mkConvertOptions name again) ws' = Completed ws'.
Proof.
  intros Hproject Hverify Hunder Hrun.
  destruct (verifyProjectForUpgrade_eligible_inv _ _ _ _ _ _ Hverify)
    as (_ & Hv & Hts & Hjson & Hnew).
  unfold updateProject, readProjectConfiguration in Hrun. cbn [project targetNames] in Hrun.
  rewrite Hproject in Hrun.
  rewrite (convertTargets_first_eligible name target rest projectConfig pathJson pathTs ws
             Hverify Hunder) in Hrun.
  destruct (convertFiles ignored parseJson parseSource compileRegExp render
              (projectConfiguration projectConfig) pathJson pathTs (tree ws))
    as [[[] w']|e] eqn:Hfiles; [|discriminate].
  injection Hrun as <-.
  apply convertFiles_inv in Hfiles as (text & cfg & _ & _ & Hfile & _);
    [|congruence|exact Hunder].
  unfold updateProject, readProjectConfiguration.
  cbn [project targetNames updateProjectConfiguration projects].
  rewrite lookup_insert_eq. apply convertTargets_converted; [exact Hv|].
  cbn [tree updateProjectConfiguration]. unfold treeExists.
  change (newConfigPath (projectConfiguration (withConvertedOptions projectConfig target pathTs)))
    with (newConfigPath (projectConfiguration projectConfig)).
  rewrite <- Hts, Hfile. reflexivity.
Qed.

End GeneratorFacts.

(** ** The properties at the example project *)

Lemma createNewCypressConfig_support_and_integration_example :
  treeRead exampleWorld "apps/app-e2e/cypress.json" = Some exampleJsonText /\
  parseOnly exampleJsonText exampleLegacyConfig exampleJsonText = Some exampleLegacyConfig /\
  exists configs e2e,
    createNewCypressConfig (parseOnly exampleJsonText exampleLegacyConfig) exampleProject
      "apps/app-e2e/cypress.json" exampleWorld = Ok (configs, exampleWorld) /\
    getProp "e2e" (cypressConfigTs configs) = Some (JObj e2e) /\
    getProp "supportFile" e2e = Some (JStr "src/support/e2e.ts") /\
    getProp "integrationFolder" e2e = Some (JStr "src/e2e").
Proof.
  split; [vm_compute; reflexivity|]. split; [vm_compute; reflexivity|].
  destruct (createNewCypressConfig_support_and_integration
              (parseOnly exampleJsonText exampleLegacyConfig) exampleProject
              "apps/app-e2e/cypress.json" exampleJsonText exampleLegacyConfig exampleWorld
              ltac:(vm_compute; reflexivity) ltac:(vm_compute; reflexivity))
    as (configs & e2e & Hrun & _ & He2e & _ & Hsupport & _ & _ & Hintegration).
  exists configs, e2e.
  split; [exact Hrun|]. split; [exact He2e|]. split.
  - exact (Hsupport (JStr "./src/support/index.ts") eq_refl).
  - exact (Hintegration (JStr "./src/integration") eq_refl).
Defined.

Lemma createNewCypressConfig_specPattern_and_baseUrl_example :
  let legacy := ("specPattern", JStr "src/**/*.feature") :: exampleLegacyConfig in
  treeRead exampleWorld "apps/app-e2e/cypress.json" = Some exampleJsonText /\
  parseOnly exampleJsonText legacy exampleJsonText = Some legacy /\
  exists configs e2e,
    createNewCypressConfig (parseOnly exampleJsonText legacy) exampleProject
      "apps/app-e2e/cypress.json" exampleWorld = Ok (configs, exampleWorld) /\
    getProp "e2e" (cypressConfigTs configs) = Some (JObj e2e) /\
    getProp "specPattern" e2e = Some (JStr "src/e2e/**/*.cy.{js,jsx,ts,tsx}") /\
    getProp "baseUrl" (cypressConfigTs configs) = Some (JStr "http://localhost:4200").
Proof.
  intros legacy.
  split; [vm_compute; reflexivity|]. split; [vm_compute; reflexivity|].
  destruct (createNewCypressConfig_specPattern_and_baseUrl
              (parseOnly exampleJsonText legacy) exampleProject
              "apps/app-e2e/cypress.json" exampleJsonText legacy exampleWorld
              ltac:(vm_compute; reflexivity) ltac:(vm_compute; reflexivity))
    as (configs & e2e & Hrun & Hjson & He2e & Hspec & [_ Hbase] & Hvalue).
  exists configs, e2e.
  split; [exact Hrun|]. split; [exact He2e|]. split; [exact Hspec|].
  destruct Hbase as [v Hv].
  { exists (JStr "http://localhost:4200"). split; reflexivity. }
  rewrite Hv. f_equal.
  apply Hvalue in Hv. now injection Hv as <-.
Defined.

Lemma importLeaf_derivation_example :
  isName "support" = true /\ isName "index" = true /\ isName "e2e" = true /\
  isPlainName "ts" = true /\
  oldImportLeaf "apps/app-e2e/src/support/index.ts" = "support" /\
  newImportLeaf "apps/app-e2e/src/support/e2e.ts" = "support/e2e".
Proof.
  do 4 (split; [reflexivity|]).
  split.
  - exact (proj2 (importLeaf_derivation "apps/app-e2e/src/" "support" "index" "ts"
                    (or_intror (ex_intro _ "apps/app-e2e/src" eq_refl))
                    eq_refl eq_refl eq_refl)).
  - exact (proj1 (importLeaf_derivation "apps/app-e2e/src/" "support" "e2e" "ts"
                    (or_intror (ex_intro _ "apps/app-e2e/src" eq_refl))
                    eq_refl eq_refl eq_refl)).
Defined.



Lemma updateProject_second_run_example :
  exists ws',
    updateProject 10 nothingIgnored (parseOnly exampleJsonText exampleLegacyConfig)
      scanLiterals noOtherSyntax renderNames (mkConvertOptions "app-e2e" ["e2e"; "e2e-ci"])
      exampleWorkspace = Completed ws' /\
    updateProject 10 nothingIgnored (parseOnly exampleJsonText exampleLegacyConfig)
      scanLiterals noOtherSyntax renderNames (mkConvertOptions "app-e2e" ["e2e-ci"; "e2e"]) ws' =
      Completed ws'.
Proof.
  assert (H : exists ws',
             updateProject 10 nothingIgnored (parseOnly exampleJsonText exampleLegacyConfig)
               scanLiterals noOtherSyntax renderNames (mkConvertOptions "app-e2e" ["e2e"; "e2e-ci"])
               exampleWorkspace = Completed ws')
    by (eexists; vm_compute; reflexivity).
  destruct H as [ws' Hrun]. exists ws'. split; [exact Hrun|].
  exact (updateProject_second_run 10 nothingIgnored
           (parseOnly exampleJsonText exampleLegacyConfig) scanLiterals noOtherSyntax renderNames
           "app-e2e" "e2e" ["e2e-ci"] ["e2e-ci"; "e2e"] exampleStoredProject
           "apps/app-e2e/cypress.json" "apps/app-e2e/cypress.config.ts"
           exampleWorkspace ws'
           ltac:(vm_compute; reflexivity) ltac:(vm_compute; reflexivity) eq_refl Hrun).
Defined.

Lemma updateProjectPaths_events_example :
  exists w',
    updateProjectPaths nothingIgnored scanLiterals noOtherSyntax exampleProject exampleConfigs
      exampleWorld = Ok (tt, w') /\
    exists e2e old new support walk cleanup,
      getProp "e2e" (cypressConfigTs exampleConfigs) = Some (JObj e2e) /\
      getProp "integrationFolder" (cypressConfigJson exampleConfigs) = Some (JStr old) /\
      getProp "integrationFolder" e2e = Some (JStr new) /\
      trace w' = trace exampleWorld ++ support ++ walk ++ cleanup /\
      supportEvents exampleProject (cypressConfigJson exampleConfigs) e2e support /\
      Forall (walkEvent nothingIgnored (sourceRoot exampleProject)
                (Path.joinPathFragments [root exampleProject; old])
                (Path.joinPathFragments [root exampleProject; new])) walk /\
      (cleanup = [] \/
       cleanup = [Deleted (Path.joinPathFragments [root exampleProject; old])]).
Proof.
  assert (H : exists w',
             updateProjectPaths nothingIgnored scanLiterals noOtherSyntax exampleProject
               exampleConfigs
               exampleWorld = Ok (tt, w'))
    by (eexists; vm_compute; reflexivity).
  destruct H as [w' Hrun]. exists w'. split; [exact Hrun|].
  exact (updateProjectPaths_events nothingIgnored scanLiterals noOtherSyntax exampleProject
           exampleConfigs exampleWorld w' Hrun).
Defined.

Lemma updateProjectPaths_keeps_unvisited_file_example :
  files exampleWorld !! "apps/app-e2e/cypress.json" = Some exampleJsonText /\
  isUnder (sourceRoot exampleProject) "apps/app-e2e/cypress.json" = false /\
  exists w' events,
    updateProjectPaths nothingIgnored scanLiterals noOtherSyntax exampleProject exampleConfigs
      exampleWorld = Ok (tt, w') /\
    trace w' = trace exampleWorld ++ events /\
    (files w' !! "apps/app-e2e/cypress.json" = Some exampleJsonText \/
     exists from, In (Renamed from "apps/app-e2e/cypress.json") events).
Proof.
  split; [vm_compute; reflexivity|]. split; [reflexivity|].
  assert (H : exists w',
             updateProjectPaths nothingIgnored scanLiterals noOtherSyntax exampleProject
               exampleConfigs
               exampleWorld = Ok (tt, w'))
    by (eexists; vm_compute; reflexivity).
  destruct H as [w' Hrun].
  destruct (updateProjectPaths_keeps_unvisited_file nothingIgnored scanLiterals noOtherSyntax
              exampleProject exampleConfigs "apps/app-e2e/cypress.json" exampleJsonText
              exampleWorld w'
              ltac:(vm_compute; reflexivity) (or_intror eq_refl)
              ltac:(intros old [= <-]; vm_compute; discriminate)
              ltac:(vm_compute; discriminate)
              ltac:(intros old [= <-]; vm_compute; discriminate)
              Hrun) as (events & Htrace & Hkept).
  exists w', events. auto.
Defined.

Lemma updateProjectPaths_needs_integrationFolder_example :
  createNewCypressConfig (parseOnly exampleJsonText exampleBareConfig) exampleProject
    "apps/app-e2e/cypress.json" exampleWorld =
    Ok (mkConfigs (newCypressConfig exampleWorld exampleProject exampleBareConfig)
          exampleBareConfig, exampleWorld) /\
  getProp "integrationFolder" exampleBareConfig = None /\
  updateProjectPaths nothingIgnored scanLiterals noOtherSyntax exampleProject
    (mkConfigs (newCypressConfig exampleWorld exampleProject exampleBareConfig)
       exampleBareConfig) exampleWorld = Err (TypeError "integrationFolder").
Proof.
  split; [vm_compute; reflexivity|]. split; [reflexivity|].
  exact (proj2 (updateProjectPaths_needs_integrationFolder nothingIgnored
                  (parseOnly exampleJsonText exampleBareConfig) scanLiterals noOtherSyntax
                  exampleProject
                  "apps/app-e2e/cypress.json"
                  (mkConfigs (newCypressConfig exampleWorld exampleProject exampleBareConfig)
                     exampleBareConfig)
                  exampleWorld exampleWorld ltac:(vm_compute; reflexivity) eq_refl)).
Defined.

Lemma updateImports_without_match_example :
  files exampleWorld !! "apps/app-e2e/src/support/index.ts" = Some "import './commands';" /\
  scanLiterals "import './commands';" =
    [SourceText "import "; StringLiteral "'" "./commands"; SourceText ";"] /\
  updateImports scanLiterals noOtherSyntax "apps/app-e2e/src/support/index.ts" "support"
    "support/e2e"
    exampleWorld =
    Ok (tt, mkWorld (files exampleWorld)
              (trace exampleWorld ++
               [Written "apps/app-e2e/src/support/index.ts" "import './commands';"])).
Proof.
  split; [vm_compute; reflexivity|]. split; [reflexivity|].
  exact (updateImports_without_match scanLiterals noOtherSyntax "apps/app-e2e/src/support/index.ts"
           "support" "support/e2e" "import './commands';" exampleWorld
           ltac:(vm_compute; reflexivity) eq_refl eq_refl eq_refl
           ltac:(intros quote text [H|[H|[H|[]]]]; inversion H; reflexivity)).
Defined.

Lemma selector_dot_matches_any_character_example :
  oldImportLeaf "apps/app-e2e/src/support/e2e.setup.ts" = "e2e.setup" /\
  RegExp.test "e2e.setup$" "../fixtures/e2e-setup" = Some true /\
  Js.endsWith "../fixtures/e2e-setup" "e2e.setup" = false.
Proof.
  split; [reflexivity|].
  destruct (selector_dot_matches_any_character "e2e" "setup" "../fixtures/" "-"%char
              eq_refl eq_refl eq_refl) as [Htest Hends].
  split; [exact Htest|]. apply Hends. discriminate.
Defined.

Lemma unmoved_support_file_import_example :
  oldImportLeaf "apps/app-e2e/src/support/commands.ts" = "commands" /\
  newImportLeaf "apps/app-e2e/src/support/commands.ts" = "support/commands" /\
  updateImports scanLiterals noOtherSyntax "src/e2e/app.cy.ts"
    (oldImportLeaf "apps/app-e2e/src/support/commands.ts")
    (newImportLeaf "apps/app-e2e/src/support/commands.ts")
    (mkWorld {[ "src/e2e/app.cy.ts" := "import '../support/commands';" ]} []) =
  Ok (tt, mkWorld {[ "src/e2e/app.cy.ts" := "import '../support/support/commands';" ]}
            [Written "src/e2e/app.cy.ts" "import '../support/support/commands';"]).
Proof.
  assert (Hread :
    treeRead (mkWorld {[ "src/e2e/app.cy.ts" := "import '../support/commands';" ]} [])
      "src/e2e/app.cy.ts" = Some "import '../support/commands';")
    by (vm_compute; reflexivity).
  destruct (unmoved_support_file_import scanLiterals noOtherSyntax
              "apps/app-e2e/src/" "support" "commands" "ts" "../support/"
              "src/e2e/app.cy.ts" "import '../support/commands';"
              [SourceText "import "] [SourceText ";"] "'"%char _
              (or_intror (ex_intro _ "apps/app-e2e/src" eq_refl))
              eq_refl eq_refl eq_refl eq_refl eq_refl eq_refl eq_refl eq_refl
              Hread eq_refl) as (Hold & Hnew & atoms & Hparse & Hrun).
  split; [exact Hold|]. split; [exact Hnew|].
  etrans; [exact Hrun|]. vm_compute. reflexivity.
Defined.

Lemma updateProject_without_eligible_target_example :
  exists ws' warnings,
    updateProject 7 nothingIgnored (parseOnly exampleJsonText exampleLegacyConfig)
      scanLiterals noOtherSyntax renderNames (mkConvertOptions "app-e2e" ["e2e"; "e2e-ci"])
      exampleWorkspace = Completed ws' /\
    files (tree ws') = files (tree exampleWorkspace) /\
    projects ws' = projects exampleWorkspace /\
    trace (tree ws') = trace (tree exampleWorkspace) ++ warnings /\
    Forall (eq (Warned upgradeWarning)) warnings /\
    ((8 <= 7)%Z -> ws' = exampleWorkspace).
Proof.
  exact (updateProject_without_eligible_target 7 nothingIgnored
           (parseOnly exampleJsonText exampleLegacyConfig) scanLiterals noOtherSyntax renderNames
           (mkConvertOptions "app-e2e" ["e2e"; "e2e-ci"]) exampleStoredProject
           exampleWorkspace ltac:(vm_compute; reflexivity) ltac:(left; lia)).
Defined.

Lemma updateProject_converts_once_example :
  projects exampleWorkspace !! "app-e2e" = Some exampleStoredProject /\
  isUnder "apps/app-e2e/cypress.json" "apps/app-e2e/cypress.config.ts" = false /\
  updateProject 10 nothingIgnored (parseOnly exampleJsonText exampleLegacyConfig)
    scanLiterals noOtherSyntax renderNames (mkConvertOptions "app-e2e" ["e2e"; "e2e-ci"])
    exampleWorkspace =
  updateProject 10 nothingIgnored (parseOnly exampleJsonText exampleLegacyConfig)
    scanLiterals noOtherSyntax renderNames (mkConvertOptions "app-e2e" ["e2e"]) exampleWorkspace.
Proof.
  split; [vm_compute; reflexivity|]. split; [reflexivity|].
  exact (updateProject_converts_once 10 nothingIgnored
           (parseOnly exampleJsonText exampleLegacyConfig) scanLiterals noOtherSyntax renderNames
           "app-e2e" "e2e" ["e2e-ci"] exampleStoredProject
           "apps/app-e2e/cypress.json" "apps/app-e2e/cypress.config.ts" exampleWorkspace
           ltac:(vm_compute; reflexivity) ltac:(vm_compute; reflexivity) eq_refl).
Defined.

Lemma updateProject_converts_target_example :
  match updateProject 10 nothingIgnored (parseOnly exampleJsonText exampleLegacyConfig)
          scanLiterals noOtherSyntax renderNames (mkConvertOptions "app-e2e" ["e2e"; "e2e-ci"])
          exampleWorkspace with
  | Completed ws' =>
      files (tree ws') !! "apps/app-e2e/cypress.json" = None /\
      is_Some (files (tree ws') !! "apps/app-e2e/cypress.config.ts") /\
      projects ws' =
        {[ "app-e2e" := withConvertedOptions exampleStoredProject "e2e"
                          "apps/app-e2e/cypress.config.ts" ]}
  | Failed _ => False
  end.
Proof.
  assert (H : exists ws',
             updateProject 10 nothingIgnored (parseOnly exampleJsonText exampleLegacyConfig)
               scanLiterals noOtherSyntax renderNames (mkConvertOptions "app-e2e" ["e2e"; "e2e-ci"])
               exampleWorkspace = Completed ws')
    by (eexists; vm_compute; reflexivity).
  destruct H as [ws' Hrun]. rewrite Hrun.
  destruct (updateProject_converts_target 10 nothingIgnored
              (parseOnly exampleJsonText exampleLegacyConfig) scanLiterals noOtherSyntax renderNames
              "app-e2e" "e2e" ["e2e-ci"] exampleStoredProject
              "apps/app-e2e/cypress.json" "apps/app-e2e/cypress.config.ts"
              exampleWorkspace ws'
              ltac:(vm_compute; reflexivity) ltac:(vm_compute; reflexivity) eq_refl Hrun)
    as (text & cfg & t & _ & _ & _ & Hgone & Hnew & Hprojects & _).
  split; [exact Hgone|]. split; [rewrite Hnew; eauto|].
  rewrite Hprojects. vm_compute. reflexivity.
Defined.

Lemma visitFile_moves_by_substring_example :
  files (mkWorld {[ "apps/app-e2e/src/integration-utils/login.ts" := "// login" ]} [])
    !! ("apps/app-e2e/src/integration" +:+ "-utils/login.ts") = Some "// login" /\
  visitFile scanLiterals noOtherSyntax "apps/app-e2e/src/integration" "apps/app-e2e/src/e2e" None
    "apps/app-e2e/src/integration-utils/login.ts"
    (mkWorld {[ "apps/app-e2e/src/integration-utils/login.ts" := "// login" ]} []) =
  Ok (tt, mkWorld {[ "apps/app-e2e/src/e2e-utils/login.ts" := "// login" ]}
            [Renamed "apps/app-e2e/src/integration-utils/login.ts"
                     "apps/app-e2e/src/e2e-utils/login.ts"]).
Proof.
  assert (Hfile :
    files (mkWorld {[ "apps/app-e2e/src/integration-utils/login.ts" := "// login" ]} [])
      !! ("apps/app-e2e/src/integration" +:+ "-utils/login.ts") = Some "// login")
    by (vm_compute; reflexivity).
  split; [exact Hfile|].
  etrans.
  - exact (visitFile_moves_by_substring scanLiterals noOtherSyntax "apps/app-e2e/src/integration"
             "apps/app-e2e/src/e2e" "-utils/login.ts" "// login" _ eq_refl eq_refl Hfile).
  - vm_compute. reflexivity.
Defined.

Lemma writeNewConfig_plugins_wiring_example :
  getProp "pluginsFile" examplePluginsConfig = Some (JStr "./src/plugins/index") /\
  exists text,
    writeNewConfig renderNames "apps/app-e2e/cypress.config.ts"
      (mkConfigs (setProp "e2e" (JObj examplePluginsConfig) []) []) exampleWorld =
      Ok (tt, mkWorld (<["apps/app-e2e/cypress.config.ts" := text]> (files exampleWorld))
                      (trace exampleWorld ++
                       [Written "apps/app-e2e/cypress.config.ts" text])) /\
    Js.includes text "import setupNodeEvents from './src/plugins/index';" = true /\
    Js.includes text "    video,
    setupNodeEvents
  }
})
" = true /\
    Js.includes text "pluginsFile" = false /\
    Js.includes text "integrationFolder" = false.
Proof.
  split; [reflexivity|].
  destruct (writeNewConfig_plugins_wiring renderNames "apps/app-e2e/cypress.config.ts"
              [] [] examplePluginsConfig exampleWorld)
    as (text & Hrun & _ & _ & _ & Hcase).
  change (getProp "pluginsFile" examplePluginsConfig)
    with (Some (JStr "./src/plugins/index")) in Hcase.
  cbv beta iota in Hcase.
  change (truthy (JStr "./src/plugins/index")) with true in Hcase.
  cbv beta iota in Hcase. destruct Hcase as (Htext & Himport & _).
  exists text. split; [exact Hrun|]. split; [exact Himport|].
  rewrite Htext. repeat split; vm_compute; reflexivity.
Defined.
